(** * Merge planning and execution engine of the spreadsheet/record-store merger

    A shallow embedding of the value codec ([getNotionPropertyPlainValue],
    [buildNotionPropertyValue]), the key indexes ([excelIndex], [notionIndex]),
    the join planner ([buildPlannedUpdates]), the option reconciler
    ([ensureSelectOptions]) and the dispatch loop of [onExecute], as written in
    [src/App.tsx] and in its revision that talks to a mock or a proxy backend.

    JavaScript data is modelled as it is at run time: strings, IEEE-754 doubles,
    JSON values, objects with ordered own properties, and the insertion-ordered
    [Map] and [Set] collections. *)

From Stdlib Require Import ZArith List String Ascii Bool Lia DecimalString.
From Stdlib Require Import SpecFloat.
From stdpp Require Import base gmap strings list.
Import ListNotations.

Local Open Scope string_scope.
Local Open Scope list_scope.

(** ** Strings

    A JavaScript string is a sequence of code units.  The model keeps the code
    units of the Latin-1 range, one [ascii] each. *)

Module JsString.

(** White space and line terminators, as [String.prototype.trim] and the
    regular-expression class [\s] see them: TAB, LF, VT, FF, CR, SPACE and
    NO-BREAK SPACE are the ones below code unit 256. *)
Definition is_space (c : ascii) : bool :=
  let n := nat_of_ascii c in
  ((9 <=? n)%nat && (n <=? 13)%nat) || (n =? 32)%nat || (n =? 160)%nat.

Fixpoint trimStart (s : string) : string :=
  match s with
  | EmptyString => EmptyString
  | String c rest => if is_space c then trimStart rest else s
  end.

Definition reverse (s : string) : string :=
  string_of_list_ascii (List.rev (list_ascii_of_string s)).

Definition trimEnd (s : string) : string :=
  reverse (trimStart (reverse s)).

Definition trim (s : string) : string := trimEnd (trimStart s).

(** [s.slice(0, n)] for a non-negative [n]. *)
Definition slice0 (n : nat) (s : string) : string := substring 0 n s.

(** [xs.join(sep)] on strings. *)
Fixpoint join (sep : string) (xs : list string) : string :=
  match xs with
  | [] => ""
  | [x] => x
  | x :: rest => (x ++ sep ++ join sep rest)%string
  end.

Definition is_separator (c : ascii) : bool :=
  Ascii.eqb c ","%char || Ascii.eqb c ";"%char.

(** [s.split(/[,;]\s*/)]: a comma or a semicolon ends the current segment
    and the white space that follows it is consumed with it.  [cur] is the
    segment being read, reversed; [eating] tells that a separator has just
    been matched and its trailing white space is still being consumed. *)
Fixpoint split_sep (s : string) (cur : list ascii) (eating : bool)
  : list string :=
  match s with
  | EmptyString => [string_of_list_ascii (List.rev cur)]
  | String c rest =>
      if eating && is_space c then split_sep rest cur true
      else if is_separator c
           then string_of_list_ascii (List.rev cur) :: split_sep rest [] true
           else split_sep rest (c :: cur) false
  end.

Definition split_csv (s : string) : list string := split_sep s [] false.

(** The canonical numeric strings that are array indices: ["0"], or digits
    without a leading zero, below [2^32 - 1]. *)
Definition digit_of (c : ascii) : option N :=
  let n := N_of_ascii c in
  if ((48 <=? n) && (n <=? 57))%N then Some (n - 48)%N else None.

Fixpoint digits_value (s : string) (acc : N) : option N :=
  match s with
  | EmptyString => Some acc
  | String c rest =>
      match digit_of c with
      | Some d => digits_value rest (10 * acc + d)%N
      | None => None
      end
  end.

Definition array_index (s : string) : option nat :=
  match s with
  | EmptyString => None
  | String c rest =>
      if Ascii.eqb c "0"%char && negb (String.eqb rest "") then None
      else match digits_value s 0%N with
           | Some n => if (n <? 4294967295)%N then Some (N.to_nat n) else None
           | None => None
           end
  end.

End JsString.

(** ** Numbers

    A JavaScript number is a binary64 value; [spec_float] is the Standard
    Library's specification of IEEE-754 arithmetic, used here with the
    binary64 parameters and mantissas in canonical form. *)

Module JsNumber.

Definition number : Type := spec_float.

Definition prec : Z := 53.
Definition emax : Z := 1024.

Definition NaN : number := S754_nan.
Definition zero : number := S754_zero false.

(** The double nearest to an integer. *)
Definition of_Z (z : Z) : number := binary_normalize prec emax z 0 false.
Definition of_nat (n : nat) : number := of_Z (Z.of_nat n).

Definition one : number := Eval vm_compute in of_Z 1.
Definition hundred : number := Eval vm_compute in of_Z 100.

Definition div : number -> number -> number := SFdiv prec emax.
Definition mul : number -> number -> number := SFmul prec emax.

(** The global [isFinite], on a value that is already a number. *)
Definition isFinite (n : number) : bool :=
  match n with
  | S754_zero _ | S754_finite _ _ _ => true
  | S754_infinity _ | S754_nan => false
  end.

Definition is_zero (n : number) : bool :=
  match n with S754_zero _ => true | _ => false end.

Definition is_nan (n : number) : bool :=
  match n with S754_nan => true | _ => false end.

(** Numeric equality ([===] on numbers; [SameValueZero] agrees with it on
    everything but NaN). *)
Definition eqb (a b : number) : bool := SFeqb a b.

(** [Math.round]: the integer nearest to [x], ties towards plus infinity.
    Infinities, NaN and zeros are returned as they are. *)
Definition round (x : number) : number :=
  match x with
  | S754_finite s m e =>
      let v := if s then Z.neg m else Z.pos m in
      match e with
      | Z.neg k =>
          let r := Z.shiftr (Z.shiftl v 1 + Z.shiftl 1 (Z.pos k)) (Z.pos k + 1) in
          if (r =? 0)%Z then S754_zero s else of_Z r
      | _ => x
      end
  | _ => x
  end.

End JsNumber.

(** ** Values, objects and collections *)

Module Js.
Export JsNumber.

(** A JSON-like run-time value.  An object is the ordered list of its own
    enumerable properties. *)
#[local] Set Warnings "-register-all".
Inductive value : Type :=
| VUndefined
| VNull
| VBool (b : bool)
| VNum (n : number)
| VStr (s : string)
| VArr (items : list value)
| VObj (fields : list (string * value)).

(** What a throwing evaluation yields: a result, or a [TypeError]. *)
Inductive result (A : Type) : Type :=
| Ok (a : A)
| Throw.
Arguments Ok {A} a.
Arguments Throw {A}.

Definition bind {A B} (r : result A) (k : A -> result B) : result B :=
  match r with
  | Ok a => k a
  | Throw => Throw
  end.

(** *** Objects: own properties in enumeration order

    Array-index keys come first in ascending numeric order, the other keys
    follow in the order in which they were created.  Only own properties are
    modelled: what a plain object inherits from [Object.prototype] (and the
    [__proto__] accessor) is left out, as no column or property name of the
    data is expected to be one of those names. *)

Definition obj (A : Type) : Type := list (string * A).

Fixpoint obj_get {A} (o : obj A) (k : string) : option A :=
  match o with
  | [] => None
  | (k', v) :: rest => if String.eqb k' k then Some v else obj_get rest k
  end.

Definition obj_has {A} (o : obj A) (k : string) : bool :=
  match obj_get o k with Some _ => true | None => false end.

(** The names an object literal inherits from [Object.prototype].  Reading
    [o[k]] under one of them, on an object without an own property [k], gives
    the inherited member: a function, or the prototype itself for
    [__proto__]; either is truthy. *)
Definition object_prototype_members : list string :=
  ["constructor"; "hasOwnProperty"; "isPrototypeOf"; "propertyIsEnumerable";
   "toLocaleString"; "toString"; "valueOf"; "__proto__";
   "__defineGetter__"; "__defineSetter__";
   "__lookupGetter__"; "__lookupSetter__"].

Definition inherited (k : string) : bool :=
  List.existsb (String.eqb k) object_prototype_members.

Fixpoint obj_replace {A} (o : obj A) (k : string) (v : A) : obj A :=
  match o with
  | [] => []
  | (k', v') :: rest =>
      if String.eqb k' k then (k', v) :: rest
      else (k', v') :: obj_replace rest k v
  end.

(** Where a new array-index key [i] goes: before the first key that is not
    an array index or is a larger one. *)
Fixpoint obj_insert_index {A} (o : obj A) (i : nat) (k : string) (v : A)
  : obj A :=
  match o with
  | [] => [(k, v)]
  | (k', v') :: rest =>
      match JsString.array_index k' with
      | Some j =>
          if (i <? j)%nat then (k, v) :: o
          else (k', v') :: obj_insert_index rest i k v
      | None => (k, v) :: o
      end
  end.

(** [o[k] = v]. *)
Definition obj_set {A} (o : obj A) (k : string) (v : A) : obj A :=
  if obj_has o k then obj_replace o k v
  else match JsString.array_index k with
       | Some i => obj_insert_index o i k v
       | None => o ++ [(k, v)]
       end.

(** [Object.keys(o)]. *)
Definition obj_keys {A} (o : obj A) : list string := List.map fst o.

(** *** [Map<string, V>]: entries in insertion order; [set] on a key that is
    present replaces its value and leaves its position. *)

Definition JsMap (V : Type) : Type := list (string * V).

Definition map_empty {V} : JsMap V := [].

Definition map_get {V} (m : JsMap V) (k : string) : option V := obj_get m k.

Definition map_has {V} (m : JsMap V) (k : string) : bool := obj_has m k.

Definition map_set {V} (m : JsMap V) (k : string) (v : V) : JsMap V :=
  if map_has m k then obj_replace m k v else m ++ [(k, v)].

Definition map_keys {V} (m : JsMap V) : list string := List.map fst m.

(** *** [Set<string>]: elements in insertion order. *)

Definition StrSet : Type := list string.

Definition set_has (s : StrSet) (k : string) : bool :=
  List.existsb (String.eqb k) s.

Definition set_add (s : StrSet) (k : string) : StrSet :=
  if set_has s k then s else s ++ [k].

(** [new Set(iterable)]. *)
Definition set_of_list (xs : list string) : StrSet :=
  List.fold_left set_add xs [].

(** *** Predicates and conversions of the language *)

(** [!!v] *)
Definition truthy (v : value) : bool :=
  match v with
  | VUndefined | VNull => false
  | VBool b => b
  | VNum n => negb (is_zero n || is_nan n)
  | VStr s => negb (String.eqb s "")
  | VArr _ | VObj _ => true
  end.

(** [v == null] *)
Definition nullish (v : value) : bool :=
  match v with
  | VUndefined | VNull => true
  | _ => false
  end.

(** [a ?? b] *)
Definition coalesce (a b : value) : value := if nullish a then b else a.

Definition of_option (o : option value) : value :=
  match o with Some v => v | None => VUndefined end.

Definition isArray (v : value) : bool :=
  match v with VArr _ => true | _ => false end.

Definition bool_to_string (b : bool) : string :=
  if b then "true" else "false".

Definition char_at (s : string) (i : nat) : value :=
  match String.get i s with
  | Some c => VStr (String c EmptyString)
  | None => VUndefined
  end.

(** What the host provides and this repository only calls: the decimal
    rendering of a finite non-zero number ([Number::toString]), the value of
    a non-blank numeric literal ([StringToNumber]), and
    [new Date(v).toISOString()], which is [None] when the date is invalid
    (parsing of date strings is implementation-defined). *)
Record Host : Type := {
  NumberToString : number -> string;
  StringToNumber : string -> number;
  DateToISOString : value -> option string
}.

Section Conversions.
Variable host : Host.

Definition number_to_string (n : number) : string :=
  match n with
  | S754_nan => "NaN"
  | S754_zero _ => "0"
  | S754_infinity false => "Infinity"
  | S754_infinity true => "-Infinity"
  | S754_finite _ _ _ => NumberToString host n
  end.

(** [String(v)].  An array prints its elements joined by commas, with
    [null] and [undefined] elements printed as nothing; a plain object
    prints as ["[object Object]"]. *)
Fixpoint ToString (v : value) : string :=
  match v with
  | VUndefined => "undefined"
  | VNull => "null"
  | VBool b => bool_to_string b
  | VNum n => number_to_string n
  | VStr s => s
  | VArr items =>
      JsString.join ","
        ((fix each (xs : list value) : list string :=
            match xs with
            | [] => []
            | x :: rest =>
                (if nullish x then "" else ToString x) :: each rest
            end) items)
  | VObj _ => "[object Object]"
  end.

Definition string_to_number (s : string) : number :=
  let t := JsString.trim s in
  if String.eqb t "" then zero else StringToNumber host t.

(** [Number(v)] *)
Definition ToNumber (v : value) : number :=
  match v with
  | VUndefined => NaN
  | VNull => zero
  | VBool b => if b then one else zero
  | VNum n => n
  | VStr s => string_to_number s
  | VArr _ => string_to_number (ToString v)
  | VObj _ => NaN
  end.

(** [v[k]] on a value that is neither [null] nor [undefined]. *)
Definition get (v : value) (k : string) : value :=
  match v with
  | VObj fields => of_option (obj_get fields k)
  | VArr items =>
      match JsString.array_index k with
      | Some i => List.nth i items VUndefined
      | None =>
          if String.eqb k "length" then VNum (of_nat (List.length items))
          else VUndefined
      end
  | VStr s =>
      match JsString.array_index k with
      | Some i => char_at s i
      | None =>
          if String.eqb k "length" then VNum (of_nat (String.length s))
          else VUndefined
      end
  | _ => VUndefined
  end.

(** [v?.[k]] *)
Definition get_opt (v : value) (k : string) : value :=
  if nullish v then VUndefined else get v k.

(** [v[key]] with a computed key. *)
Definition get_computed (v : value) (key : value) : value :=
  get v (ToString key).

(** [v.trim()]: a [TypeError] on anything that is not a string. *)
Definition call_trim (v : value) : result value :=
  match v with
  | VStr s => Ok (VStr (JsString.trim s))
  | _ => Throw
  end.

(** [xs.filter(Boolean)] *)
Definition filter_truthy (xs : list value) : list value :=
  List.filter truthy xs.

(** [xs.join(sep)] on values. *)
Definition join_values (sep : string) (xs : list value) : string :=
  JsString.join sep
    (List.map (fun x => if nullish x then "" else ToString x) xs).

(** [type === s] *)
Definition is_str (v : value) (s : string) : bool :=
  match v with
  | VStr t => String.eqb t s
  | _ => false
  end.

End Conversions.

End Js.

(** ** Value codec *)

Module Codec.
Import Js.

(** The typed values [buildNotionPropertyValue] builds, one constructor for
    each object literal it returns. *)
Inductive payload : Type :=
| PTitle (content : string)
| PRichText (content : string)
| PNumber (n : number)
| PEmail (s : string)
| PUrl (s : string)
| PPhoneNumber (s : string)
| PSelect (option_name : option string)
| PMultiSelect (names : list string)
| PDate (start : string)
| PCheckbox (b : bool)
| PStatus (name : string).

Definition text_run (content : string) : value :=
  VObj [("type", VStr "text"); ("text", VObj [("content", VStr content)])].

Definition name_obj (name : string) : value := VObj [("name", VStr name)].

(** The object literal behind each typed value. *)
Definition to_json (p : payload) : value :=
  match p with
  | PTitle c => VObj [("title", VArr [text_run c])]
  | PRichText c => VObj [("rich_text", VArr [text_run c])]
  | PNumber n => VObj [("number", VNum n)]
  | PEmail s => VObj [("email", VStr s)]
  | PUrl s => VObj [("url", VStr s)]
  | PPhoneNumber s => VObj [("phone_number", VStr s)]
  | PSelect None => VObj [("select", VNull)]
  | PSelect (Some nm) => VObj [("select", name_obj nm)]
  | PMultiSelect names => VObj [("multi_select", VArr (List.map name_obj names))]
  | PDate start => VObj [("date", VObj [("start", VStr start)])]
  | PCheckbox b => VObj [("checkbox", VBool b)]
  | PStatus nm => VObj [("status", name_obj nm)]
  end.

Section WithHost.
Variable host : Host.

(** [getNotionPropertyPlainValue(prop)] *)
Definition getNotionPropertyPlainValue (prop : value) : result value :=
  if negb (truthy prop) then Ok VNull
  else
    let type := get prop "type" in
    let v := get_computed host prop type in
    if nullish v then Ok VNull
    else if is_str type "title" then
      call_trim (coalesce (get_opt (get_opt v "0") "plain_text") (VStr ""))
    else if is_str type "rich_text" then
      call_trim (coalesce (get_opt (get_opt v "0") "plain_text") (VStr ""))
    else if is_str type "number" then
      Ok (match v with
          | VNum _ => v
          | _ => VNum (ToNumber host (coalesce v (VNum NaN)))
          end)
    else if is_str type "email" || is_str type "url"
            || is_str type "phone_number" then
      Ok (coalesce v VNull)
    else if is_str type "select" then
      Ok (coalesce (get_opt v "name") VNull)
    else if is_str type "multi_select" then
      Ok (match v with
          | VArr items =>
              VStr (join_values host ", "
                      (filter_truthy
                         (List.map (fun x => get_opt x "name") items)))
          | _ => VNull
          end)
    else if is_str type "date" then
      Ok (coalesce (get_opt v "start") VNull)
    else if is_str type "checkbox" then
      Ok (VStr (if truthy v then "true" else "false"))
    else if is_str type "status" then
      Ok (coalesce (get_opt v "name") VNull)
    else Ok VNull.

(** [truthy.includes(value)] and [falsy.includes(value)] of the checkbox
    case. *)
Definition in_truthy_list (v : value) : bool :=
  match v with
  | VBool b => b
  | VStr s => String.eqb s "true" || String.eqb s "1"
              || String.eqb s "yes" || String.eqb s "y"
  | VNum n => JsNumber.eqb n one
  | _ => false
  end.

Definition in_falsy_list (v : value) : bool :=
  match v with
  | VBool b => negb b
  | VStr s => String.eqb s "false" || String.eqb s "0"
              || String.eqb s "no" || String.eqb s "n" || String.eqb s ""
  | VNum n => JsNumber.eqb n zero
  | _ => false
  end.

(** [buildNotionPropertyValue(targetType, value, { createMultiFromCSV })];
    [None] is the [undefined] it returns when there is nothing to write. *)
Definition buildNotionPropertyValue_opt
  (targetType : string) (value : Js.value) (createMultiFromCSV : bool)
  : option payload :=
  if nullish value then None
  else if String.eqb targetType "title" then
    Some (PTitle (ToString host value))
  else if String.eqb targetType "rich_text" then
    Some (PRichText (ToString host value))
  else if String.eqb targetType "number" then
    let n := ToNumber host value in
    if isFinite n then Some (PNumber n) else None
  else if String.eqb targetType "email" then
    Some (PEmail (ToString host value))
  else if String.eqb targetType "url" then
    Some (PUrl (ToString host value))
  else if String.eqb targetType "phone_number" then
    Some (PPhoneNumber (ToString host value))
  else if String.eqb targetType "select" then
    Some (PSelect (if is_str value "" || nullish value then None
                   else Some (ToString host value)))
  else if String.eqb targetType "multi_select" then
    match value with
    | VArr items => Some (PMultiSelect (List.map (ToString host) items))
    | VStr s =>
        if createMultiFromCSV then
          Some (PMultiSelect
                  (List.filter (fun seg => negb (String.eqb seg ""))
                     (JsString.split_csv s)))
        else Some (PMultiSelect [])
    | _ => Some (PMultiSelect [])
    end
  else if String.eqb targetType "date" then
    match DateToISOString host value with
    | Some iso => Some (PDate (JsString.slice0 10 iso))
    | None => None
    end
  else if String.eqb targetType "checkbox" then
    if in_truthy_list value then Some (PCheckbox true)
    else if in_falsy_list value then Some (PCheckbox false)
    else None
  else if String.eqb targetType "status" then
    Some (PStatus (ToString host value))
  else Some (PRichText (ToString host value)).

(** The call with the default options, as every call site makes it. *)
Definition buildNotionPropertyValue (targetType : string) (value : Js.value)
  : option payload :=
  buildNotionPropertyValue_opt targetType value true.

End WithHost.

End Codec.

(** ** Data model of the merge *)

Module Model.
Import Js.
Export Codec.

Definition ExcelRow : Type := obj value.

Inductive JoinType : Type := left | right | inner | outer.

Record Mapping : Type := {
  mapping_id : string;
  excelColumn : string;
  notionProperty : string
}.

Record SelectOption : Type := {
  option_id : option string;
  option_name : string;
  option_color : option string
}.

Record NotionPropertyDef : Type := {
  name : string;
  type : string;
  options : option (list SelectOption)
}.

(** A page of the record store.  A page that comes without [properties] is
    read as one that has none ([properties ?? {}]). *)
Record NotionPage : Type := {
  page_id : string;
  properties : obj value
}.

(** The plans.  [changes] only ever holds what [buildNotionPropertyValue]
    built, so it is typed by [payload]. *)
Inductive Plan : Type :=
| Update (key : string) (excel : ExcelRow) (page : NotionPage)
         (changes : obj payload)
| Create (key : string) (excel : ExcelRow) (changes : obj payload)
| Skip (key : string) (excel : option ExcelRow) (page : option NotionPage)
       (reason : string).

Definition plan_key (p : Plan) : string :=
  match p with
  | Update k _ _ _ | Create k _ _ | Skip k _ _ _ => k
  end.

Definition is_skip (p : Plan) : bool :=
  match p with Skip _ _ _ _ => true | _ => false end.

Definition is_create (p : Plan) : bool :=
  match p with Create _ _ _ => true | _ => false end.

(** The two revisions of the component: the one that calls the record
    store's client library itself, and the one that goes through a mock or
    a proxy backend. *)
Inductive revision : Type := SdkClient | Backend.

End Model.

(** ** Key indexes and join planner *)

Module Planner.
Import Js.
Export Model.

Section WithHost.
Variable host : Host.

(** [String(row[excelKey] ?? "").trim()] *)
Definition excel_key_of (excelKey : string) (row : ExcelRow) : string :=
  JsString.trim
    (ToString host (coalesce (of_option (obj_get row excelKey)) (VStr ""))).

(** [excelIndex] *)
Definition excelIndex (excelRows : list ExcelRow) (excelKey : string)
  : JsMap ExcelRow :=
  if String.eqb excelKey "" then map_empty
  else
    List.fold_left
      (fun map row =>
         let keyVal := excel_key_of excelKey row in
         if negb (String.eqb keyVal "") then map_set map keyVal row
         else map)
      excelRows map_empty.

(** The key of a page: the plain value of [props[notionKey]], printed and
    trimmed, or the empty string when there is none. *)
Definition notion_key_of (notionKey : string) (pg : NotionPage)
  : result string :=
  bind (getNotionPropertyPlainValue host
          (of_option (obj_get (properties pg) notionKey)))
    (fun plain =>
       Ok (if negb (nullish plain)
           then JsString.trim (ToString host plain)
           else "")).

Fixpoint notionIndex_loop (pages : list NotionPage) (notionKey : string)
  (map : JsMap NotionPage) : result (JsMap NotionPage) :=
  match pages with
  | [] => Ok map
  | pg :: rest =>
      bind (notion_key_of notionKey pg)
        (fun keyVal =>
           notionIndex_loop rest notionKey
             (if negb (String.eqb keyVal "") then map_set map keyVal pg
              else map))
  end.

(** [notionIndex] *)
Definition notionIndex (pages : list NotionPage) (notionKey : string)
  : result (JsMap NotionPage) :=
  if String.eqb notionKey "" then Ok map_empty
  else notionIndex_loop pages notionKey map_empty.

(** [selectedDbPropDefs]: the definitions by name, a later definition
    replacing an earlier one of the same name. *)
Definition selectedDbPropDefs (dbProps : list NotionPropertyDef)
  : JsMap NotionPropertyDef :=
  List.fold_left (fun map p => map_set map (name p) p) dbProps map_empty.

(** The definition of a property: [selectedDbPropDefs.get(n)] in the
    first revision, [dbProps.find((p) => p.name === n)] in the second. *)
Definition find_def (rev : revision) (dbProps : list NotionPropertyDef)
  (n : string) : option NotionPropertyDef :=
  match rev with
  | SdkClient => map_get (selectedDbPropDefs dbProps) n
  | Backend => List.find (fun p => String.eqb (name p) n) dbProps
  end.

(** [targetDef?.type ?? "rich_text"] *)
Definition type_or_rich_text (d : option NotionPropertyDef) : string :=
  match d with
  | Some def => type def
  | None => "rich_text"
  end.

(** The key universe: the [keys] set of [buildPlannedUpdates]. *)
Definition select_keys (joinType : JoinType)
  (excelIndex : JsMap ExcelRow) (notionIndex : JsMap NotionPage)
  : StrSet :=
  let leftKeys := set_of_list (map_keys excelIndex) in
  let rightKeys := set_of_list (map_keys notionIndex) in
  match joinType with
  | left => List.fold_left set_add leftKeys []
  | right => List.fold_left set_add rightKeys []
  | inner =>
      List.fold_left
        (fun keys k => if set_has rightKeys k then set_add keys k else keys)
        leftKeys []
  | outer =>
      List.fold_left set_add rightKeys (List.fold_left set_add leftKeys [])
  end.

(** One turn of the mapping loop for a key present on both sides.  In the
    first revision a mapping whose property is not in the schema is
    passed over; in the second it is written as rich text. *)
Definition update_step (rev : revision)
  (dbProps : list NotionPropertyDef) (onlyUpdateEmpty : bool)
  (excelRow : ExcelRow) (page : NotionPage)
  (changes : obj payload) (m : Mapping) : result (obj payload) :=
  let srcVal := of_option (obj_get excelRow (excelColumn m)) in
  let targetDef := find_def rev dbProps (notionProperty m) in
  let enters :=
    match rev with
    | SdkClient =>
        negb (String.eqb (notionProperty m) "")
        && map_has (selectedDbPropDefs dbProps) (notionProperty m)
    | Backend => negb (String.eqb (notionProperty m) "")
    end in
  if enters then
    bind (getNotionPropertyPlainValue host
            (of_option (obj_get (properties page) (notionProperty m))))
      (fun existingValue =>
         if onlyUpdateEmpty
            && (negb (match existingValue with VNull => true | _ => false end)
                && negb (is_str existingValue ""))
         then Ok changes
         else
           match buildNotionPropertyValue host
                   (type_or_rich_text targetDef) srcVal with
           | Some built => Ok (obj_set changes (notionProperty m) built)
           | None => Ok changes
           end)
  else Ok changes.

Fixpoint update_changes (rev : revision)
  (dbProps : list NotionPropertyDef) (onlyUpdateEmpty : bool)
  (excelRow : ExcelRow) (page : NotionPage)
  (mappings : list Mapping) (changes : obj payload)
  : result (obj payload) :=
  match mappings with
  | [] => Ok changes
  | m :: rest =>
      bind (update_step rev dbProps onlyUpdateEmpty excelRow page changes m)
        (update_changes rev dbProps onlyUpdateEmpty excelRow page rest)
  end.

(** One turn of the mapping loop for a key the record store lacks. *)
Definition create_step (rev : revision)
  (dbProps : list NotionPropertyDef) (excelRow : ExcelRow)
  (changes : obj payload) (m : Mapping) : obj payload :=
  if String.eqb (notionProperty m) "" then changes
  else
    let targetDef := find_def rev dbProps (notionProperty m) in
    let srcVal := of_option (obj_get excelRow (excelColumn m)) in
    match buildNotionPropertyValue host
            (type_or_rich_text targetDef) srcVal with
    | Some built => obj_set changes (notionProperty m) built
    | None => changes
    end.

Definition create_changes (rev : revision)
  (dbProps : list NotionPropertyDef) (excelRow : ExcelRow)
  (mappings : list Mapping) : obj payload :=
  List.fold_left (create_step rev dbProps excelRow) mappings [].

(** The body of [keys.forEach]: the plans pushed for one key. *)
Definition plans_for_key (rev : revision)
  (excelIndex : JsMap ExcelRow) (notionIndex : JsMap NotionPage)
  (joinType : JoinType) (mappings : list Mapping)
  (dbProps : list NotionPropertyDef)
  (onlyUpdateEmpty allowCreatePages : bool) (key : string)
  : result (list Plan) :=
  match map_get excelIndex key, map_get notionIndex key with
  | Some excelRow, Some page =>
      bind (update_changes rev dbProps onlyUpdateEmpty excelRow page
              mappings [])
        (fun changes =>
           if (0 <? List.length (obj_keys changes))%nat
           then Ok [Update key excelRow page changes]
           else Ok [Skip key (Some excelRow) (Some page)
                      "No changes computed"])
  | Some excelRow, None =>
      if (match joinType with left | outer => true | _ => false end)
         && allowCreatePages
      then Ok [Create key excelRow
                 (create_changes rev dbProps excelRow mappings)]
      else Ok [Skip key (Some excelRow) None "No matching Notion page"]
  | None, Some page =>
      Ok [Skip key None (Some page) "No matching Excel row"]
  | None, None => Ok []
  end.

Fixpoint plans_loop (f : string -> result (list Plan)) (keys : list string)
  (plans : list Plan) : result (list Plan) :=
  match keys with
  | [] => Ok plans
  | key :: rest =>
      bind (f key) (fun pushed => plans_loop f rest (plans ++ pushed))
  end.

(** [buildPlannedUpdates()] *)
Definition buildPlannedUpdates (rev : revision)
  (excelIndex : JsMap ExcelRow) (notionIndex : JsMap NotionPage)
  (joinType : JoinType) (mappings : list Mapping)
  (dbProps : list NotionPropertyDef)
  (onlyUpdateEmpty allowCreatePages : bool) : result (list Plan) :=
  plans_loop
    (plans_for_key rev excelIndex notionIndex joinType mappings dbProps
       onlyUpdateEmpty allowCreatePages)
    (select_keys joinType excelIndex notionIndex) [].

End WithHost.

End Planner.

(** ** Option reconciler and plan executor *)

Module Executor.
Import Js.
Export Planner.

(** The schema patch of one property: [{ [prop.type]: { options } }]. *)
Record SchemaPatch : Type := {
  patch_type : string;
  patch_options : list SelectOption
}.

(** The requests sent to the record store. *)
Inductive request : Type :=
| DatabasesUpdate (database_id : string) (props : obj SchemaPatch)
| PagesUpdate (page_id : string) (props : obj payload)
| PagesCreate (database_id : string) (props : obj payload)
| DatabasesQuery (database_id : string).

(** What a run does, in order: requests, and the pacing delays between
    the turns of the dispatch loop (in milliseconds). *)
Inductive event : Type :=
| Call (r : request)
| Delay (ms : nat).

Definition is_call (e : event) : bool :=
  match e with Call _ => true | Delay _ => false end.

(** The record store as the run sees it: whether a request is fulfilled,
    given everything that happened before it. *)
Definition Store : Type := list event -> request -> bool.

Inductive outcome : Type := Fulfilled | Rejected.

Inductive RunStatus : Type := idle | running | done | error.

(** An entry of [needed]. *)
Record Needed : Type := {
  prop : NotionPropertyDef;
  needed_name : string
}.

Definition new_option (nm : string) : SelectOption :=
  {| option_id := None; option_name := nm; option_color := None |}.

(** [prop.options ?? []] *)
Definition options_or_empty (d : option NotionPropertyDef)
  : list SelectOption :=
  match d with
  | Some def => match options def with Some os => os | None => [] end
  | None => []
  end.

(** [Array.from(names).filter((nm) => !existing.has(nm))] with
    [existing = new Set(opts.map((o) => o.name))]. *)
Definition names_to_add (opts : list SelectOption) (names : StrSet)
  : list string :=
  let existing := set_of_list (List.map option_name opts) in
  List.filter (fun nm => negb (set_has existing nm)) names.

(** The grouping loop of [ensureSelectOptions]: the entries of [needed] by
    property name, each group with the definition of its first entry and
    the set of its names. *)
Definition group_needed (needed : list Needed)
  : JsMap (NotionPropertyDef * StrSet) :=
  List.fold_left
    (fun grouped n =>
       let g := match map_get grouped (name (prop n)) with
                | Some g => g
                | None => (prop n, [])
                end in
       map_set grouped (name (prop n)) (fst g, set_add (snd g) (needed_name n)))
    needed map_empty.

(** The payload built from the groups. *)
Definition build_update_props
  (grouped : JsMap (NotionPropertyDef * StrSet)) : obj SchemaPatch :=
  List.fold_left
    (fun updateProps entry =>
       let '(_, (p, names)) := entry in
       let toAdd := names_to_add (options_or_empty (Some p)) names in
       if (0 <? List.length toAdd)%nat then
         let current := options_or_empty (Some p) in
         obj_set updateProps (name p)
           {| patch_type := type p;
              patch_options := current ++ List.map new_option toAdd |}
       else updateProps)
    grouped [].

(** The mock branch: the local schema with the options of each referenced
    property extended. *)
Definition mock_update_schema (dbProps : list NotionPropertyDef)
  (needed : list Needed) : list NotionPropertyDef :=
  let byProp : JsMap StrSet :=
    List.fold_left
      (fun byProp n =>
         let set := match map_get byProp (name (prop n)) with
                    | Some s => s
                    | None => []
                    end in
         map_set byProp (name (prop n)) (set_add set (needed_name n)))
      needed map_empty in
  List.fold_left
    (fun prev entry =>
       let '(propName, names) := entry in
       let def := List.find (fun p => String.eqb (name p) propName) dbProps in
       let toAdd := names_to_add (options_or_empty def) names in
       let old := options_or_empty def in
       let next := old ++ List.map new_option toAdd in
       List.map
         (fun p =>
            if String.eqb (name p) propName
            then {| name := name p; type := type p; options := Some next |}
            else p)
         prev)
    byProp dbProps.

(** What [ensureSelectOptions] does: the request it sends, if any, and the
    local schema after it. *)
Record Reconciled : Type := {
  patch : option request;
  schema : list NotionPropertyDef
}.

(** [ensureSelectOptions(needed)].  The first revision always talks to the
    record store; the second does so only when the mock is off. *)
Definition ensureSelectOptions (rev : revision) (useMock : bool)
  (databaseId : string) (dbProps : list NotionPropertyDef)
  (needed : list Needed) : Reconciled :=
  if (List.length needed =? 0)%nat
  then {| patch := None; schema := dbProps |}
  else if (match rev with SdkClient => false | Backend => useMock end)
  then {| patch := None; schema := mock_update_schema dbProps needed |}
  else
    let updateProps := build_update_props (group_needed needed) in
    if (0 <? List.length (obj_keys updateProps))%nat
    then {| patch := Some (DatabasesUpdate (JsString.trim databaseId)
                             updateProps);
            schema := dbProps |}
    else {| patch := None; schema := dbProps |}.

(** The entries one staged value adds to [needed]. *)
Definition needed_of_value (def : NotionPropertyDef) (val : payload)
  : list Needed :=
  (if String.eqb (type def) "select" then
     match val with
     | PSelect (Some nm) =>
         if negb (String.eqb nm "")
         then [{| prop := def; needed_name := nm |}] else []
     | _ => []
     end
   else [])
  ++ (if String.eqb (type def) "multi_select" then
        match val with
        | PMultiSelect names =>
            List.map (fun nm => {| prop := def; needed_name := nm |}) names
        | _ => []
        end
      else [])
  ++ (if String.eqb (type def) "status" then
        match val with
        | PStatus nm =>
            if negb (String.eqb nm "")
            then [{| prop := def; needed_name := nm |}] else []
        | _ => []
        end
      else []).

Definition plan_changes (plan : Plan) : option (obj payload) :=
  match plan with
  | Update _ _ _ changes | Create _ _ changes => Some changes
  | Skip _ _ _ _ => None
  end.

(** The scan of [onExecute] that fills [needed]. *)
Definition collect_needed (rev : revision) (dbProps : list NotionPropertyDef)
  (plans : list Plan) : list Needed :=
  List.flat_map
    (fun plan =>
       match plan_changes plan with
       | Some changes =>
           List.flat_map
             (fun entry =>
                let '(propName, val) := entry in
                match find_def rev dbProps propName with
                | Some def => needed_of_value def val
                | None => []
                end)
             changes
       | None => []
       end)
    plans.

Section WithHost.
Variable host : Host.

(** The state the dispatch loop works on: the completed count, the
    progress last reported, and what has happened so far. *)
Record ExecState : Type := {
  completed : nat;
  progress : number;
  trace : list event
}.

Definition send (store : Store) (r : request) (st : ExecState)
  : ExecState * outcome :=
  ({| completed := completed st; progress := progress st;
      trace := trace st ++ [Call r] |},
   if store (trace st) r then Fulfilled else Rejected).

(** [Math.round((done / plans.length) * 100)], in binary64 arithmetic; the
    two counts are integers, which a double holds exactly below [2^53]. *)
Definition percent (done total : nat) : number :=
  round (mul (div (of_nat done) (of_nat total)) hundred).

(** The name of the title property of the schema, if it has one. *)
Definition titlePropName (dbProps : list NotionPropertyDef)
  : option string :=
  option_map name
    (List.find (fun p => String.eqb (type p) "title") dbProps).

(** The properties of a page to create: the staged changes, and a title
    made of the key when the schema has a title property under which
    reading the changes gives nothing.  [!properties[titleProp]] is false when
    the changes stage the property, a staged value being an object, and also
    when the name is one that every object inherits, such as [constructor]:
    no title is added then.  (The source writes the title into the plan's own
    [changes] object; the plans are not read again afterwards.) *)
Definition create_properties (dbProps : list NotionPropertyDef)
  (key : string) (changes : obj payload) : obj payload :=
  match titlePropName dbProps with
  | Some titleProp =>
      if negb (String.eqb titleProp "")
         && negb (obj_has changes titleProp || inherited titleProp)
      then match buildNotionPropertyValue host "title" (VStr key) with
           | Some built => obj_set changes titleProp built
           | None => changes
           end
      else changes
  | None => changes
  end.

(** The callback given to [pMapSerial]: dispatch the plan, then count it
    and report the progress.  A rejected request leaves the callback
    before the count. *)
Definition run_plan (store : Store) (databaseId : string)
  (dbProps : list NotionPropertyDef) (total : nat)
  (plan : Plan) (st : ExecState) : ExecState * outcome :=
  let '(st1, o) :=
    match plan with
    | Update _ _ page changes =>
        send store (PagesUpdate (page_id page) changes) st
    | Create key _ changes =>
        send store
          (PagesCreate (JsString.trim databaseId)
             (create_properties dbProps key changes)) st
    | Skip _ _ _ _ => (st, Fulfilled)
    end in
  match o with
  | Rejected => (st1, Rejected)
  | Fulfilled =>
      ({| completed := completed st1 + 1;
          progress := percent (completed st1 + 1) total;
          trace := trace st1 |}, Fulfilled)
  end.

(** [pMapSerial(items, fn, delayMs)]: the items in order, one at a time,
    with a delay after each but the last. *)
Fixpoint pMapSerial (fn : Plan -> ExecState -> ExecState * outcome)
  (items : list Plan) (delayMs : nat) (st : ExecState)
  : ExecState * outcome :=
  match items with
  | [] => (st, Fulfilled)
  | item :: rest =>
      match fn item st with
      | (st1, Rejected) => (st1, Rejected)
      | (st1, Fulfilled) =>
          let st2 :=
            if (0 <? delayMs)%nat && (0 <? List.length rest)%nat
            then {| completed := completed st1; progress := progress st1;
                    trace := trace st1 ++ [Delay delayMs] |}
            else st1 in
          pMapSerial fn rest delayMs st2
      end
  end.

Definition delay_of (rev : revision) : nat :=
  match rev with SdkClient => 350 | Backend => 100 end.

(** The dispatch loop of [onExecute], from [let done = 0]. *)
Definition dispatch_plans (rev : revision) (store : Store)
  (databaseId : string) (dbProps : list NotionPropertyDef)
  (plans : list Plan) (st : ExecState) : ExecState * outcome :=
  pMapSerial (run_plan store databaseId dbProps (List.length plans))
    plans (delay_of rev)
    {| completed := 0; progress := progress st; trace := trace st |}.

(** The outcome of a run of [onExecute]. *)
Record Run : Type := {
  runStatus : RunStatus;
  run_progress : number;
  run_trace : list event;
  run_schema : list NotionPropertyDef
}.

(** [onExecute()].  [dryRun] is the last preview, [planned] what
    [buildPlannedUpdates()] yields when there is none. *)
Definition onExecute (rev : revision) (store : Store) (useMock : bool)
  (notionToken databaseId : string) (dbProps : list NotionPropertyDef)
  (createMissingSelectOptions : bool)
  (dryRun : option (list Plan)) (planned : result (list Plan))
  (status0 : RunStatus) (progress0 : number) : Run :=
  let idle_run :=
    {| runStatus := status0; run_progress := progress0; run_trace := [];
       run_schema := dbProps |} in
  if (match rev with
      | SdkClient => String.eqb notionToken "" || String.eqb databaseId ""
      | Backend => String.eqb databaseId ""
      end)
  then idle_run
  else
    let failed st schema :=
      {| runStatus := error; run_progress := progress st;
         run_trace := trace st; run_schema := schema |} in
    let st0 := {| completed := 0; progress := zero; trace := [] |} in
    match (match dryRun with Some plans => Ok plans | None => planned end)
    with
    | Throw => failed st0 dbProps
    | Ok plans =>
        let rec :=
          if createMissingSelectOptions
          then ensureSelectOptions rev useMock databaseId dbProps
                 (collect_needed rev dbProps plans)
          else {| patch := None; schema := dbProps |} in
        let '(st1, o1) :=
          match patch rec with
          | Some r => send store r st0
          | None => (st0, Fulfilled)
          end in
        match o1 with
        | Rejected => failed st1 dbProps
        | Fulfilled =>
            match dispatch_plans rev store databaseId dbProps plans st1 with
            | (st2, Rejected) => failed st2 (schema rec)
            | (st2, Fulfilled) =>
                let '(st3, o3) :=
                  match rev with
                  | SdkClient => (st2, Fulfilled)
                  | Backend =>
                      send store
                        (DatabasesQuery (JsString.trim databaseId)) st2
                  end in
                match o3 with
                | Rejected => failed st3 (schema rec)
                | Fulfilled =>
                    {| runStatus := done; run_progress := progress st3;
                       run_trace := trace st3; run_schema := schema rec |}
                end
            end
        end
    end.

End WithHost.

End Executor.

(** ** A host and data to run the definitions on *)

Module Demo.
Import Js.
Export Executor.

(** The integer a finite number is, when it is one. *)
Definition integer_value (n : number) : option Z :=
  match n with
  | S754_zero _ => Some 0%Z
  | S754_finite s m e =>
      let v := if s then Z.neg m else Z.pos m in
      match e with
      | Z.neg k =>
          if (Z.land (Z.pos m) (Z.ones (Z.pos k)) =? 0)%Z
          then Some (Z.shiftr v (Z.pos k)) else None
      | _ => Some (Z.shiftl v e)
      end
  | _ => None
  end.

Definition print_Z (z : Z) : string :=
  match z with
  | Z0 => "0"
  | Z.pos p => DecimalString.NilEmpty.string_of_uint (Pos.to_uint p)
  | Z.neg p =>
      ("-" ++ DecimalString.NilEmpty.string_of_uint (Pos.to_uint p))%string
  end.

(** Integers print as their decimal digits (exact below [2^53]); this host
    is not meant for other numbers. *)
Definition demo_NumberToString (n : number) : string :=
  match integer_value n with
  | Some z => print_Z z
  | None => "NaN"
  end.

(** Unsigned decimal integer literals; anything else is not a number. *)
Definition demo_StringToNumber (s : string) : number :=
  match JsString.digits_value s 0%N with
  | Some n => of_Z (Z.of_N n)
  | None => NaN
  end.

Definition is_digit (c : ascii) : bool :=
  match JsString.digit_of c with Some _ => true | None => false end.

(** Calendar dates written [YYYY-MM-DD] are taken at midnight UTC; the
    month and the day are not range-checked. *)
Definition demo_DateToISOString (v : value) : option string :=
  match v with
  | VStr s =>
      match list_ascii_of_string s with
      | [y1; y2; y3; y4; d1; m1; m2; d2; a1; a2] =>
          if forallb is_digit [y1; y2; y3; y4; m1; m2; a1; a2]
             && Ascii.eqb d1 "-"%char && Ascii.eqb d2 "-"%char
          then Some (s ++ "T00:00:00.000Z")%string else None
      | _ => None
      end
  | _ => None
  end.

Definition host : Host :=
  {| NumberToString := demo_NumberToString;
     StringToNumber := demo_StringToNumber;
     DateToISOString := demo_DateToISOString |}.

(** A text property as the record store returns it. *)
Definition text_prop (ty content : string) : value :=
  VObj [("type", VStr ty);
        (ty, VArr [VObj [("type", VStr "text");
                         ("text", VObj [("content", VStr content)]);
                         ("plain_text", VStr content)]])].

Definition number_prop (z : Z) : value :=
  VObj [("type", VStr "number"); ("number", VNum (of_Z z))].

Definition mk_page (id key : string) (amount : Z) : NotionPage :=
  {| page_id := id;
     properties := [("Key", text_prop "title" key);
                    ("Amount", number_prop amount)] |}.

Definition schema : list NotionPropertyDef :=
  [ {| name := "Key"; type := "title"; options := Some [] |};
    {| name := "Status"; type := "select";
       options := Some [new_option "New"; new_option "Done"] |};
    {| name := "Tags"; type := "multi_select";
       options := Some [new_option "red"; new_option "blue"] |};
    {| name := "Amount"; type := "number"; options := Some [] |};
    {| name := "Note"; type := "rich_text"; options := Some [] |} ].

Definition amount_mapping : Mapping :=
  {| mapping_id := "m1"; excelColumn := "Amount"; notionProperty := "Amount" |}.

Definition row_A001 : ExcelRow := [("Key", VStr "A001"); ("Amount", VStr "10")].
Definition row_X999 : ExcelRow := [("Key", VStr "X999"); ("Amount", VStr "7")].

Definition always : Store := fun _ _ => true.

Definition rows : list ExcelRow := [row_A001; row_X999].

(** Plans that refer to two tags the schema lacks. *)
Definition tag_plans : list Plan :=
  [Create "X1" [("Key", VStr "X1"); ("Tags", VStr "red, green")]
     [("Tags", PMultiSelect ["red"; "green"])];
   Create "X2" [("Key", VStr "X2"); ("Tags", VStr "teal; green")]
     [("Tags", PMultiSelect ["teal"; "green"])]].

Definition pages : list NotionPage :=
  [mk_page "p1" "A001" 5; mk_page "p2" "A002" 5].

(** Two records with the same key, and two rows with the same key. *)
Definition twin_pages : list NotionPage :=
  [mk_page "p1" "A001" 5; mk_page "p2" "A001" 6].

Definition twin_rows : list ExcelRow :=
  [[("Key", VStr "A001"); ("Amount", VStr "1")];
   [("Key", VStr " A001 "); ("Amount", VStr "2")];
   [("Key", VStr "  "); ("Amount", VStr "3")]].

End Demo.

(** ** Vocabulary of the properties *)

Module Vocabulary.
Import Js.
Export Executor.

(** The loop [for (const k of xs) if (keep(k)) keys.add(k)]. *)
Definition add_if (keep : string -> bool) (keys : StrSet) (k : string)
  : StrSet :=
  if keep k then set_add keys k else keys.

(** [r] is the last element of [rows] whose key is [k]. *)
Definition last_with_key {R : Type} (key_of : R -> string) (k : string)
  (rows : list R) (r : R) : Prop :=
  exists before after,
    rows = before ++ r :: after
    /\ key_of r = k
    /\ Forall (fun r' => key_of r' <> k) after.

(** [r] is the first element of [rows] whose key is [k]. *)
Definition first_with_key {R : Type} (key_of : R -> string) (k : string)
  (rows : list R) (r : R) : Prop :=
  exists before after,
    rows = before ++ r :: after
    /\ key_of r = k
    /\ Forall (fun r' => key_of r' <> k) before.

(** The body of both index loops, for a key function that cannot throw. *)
Definition index_step {R : Type} (key_of : R -> string) (map : JsMap R)
  (row : R) : JsMap R :=
  if negb (String.eqb (key_of row) "") then map_set map (key_of row) row
  else map.

Definition build {R : Type} (key_of : R -> string) (rows : list R) : JsMap R :=
  List.fold_left (index_step key_of) rows map_empty.

(** The key of a page when its key property decodes. *)
Definition page_key (host : Host) (notionKey : string) (pg : NotionPage)
  : string :=
  match notion_key_of host notionKey pg with
  | Ok k => k
  | Throw => ""
  end.

Definition key_decodes (host : Host) (notionKey : string) (pg : NotionPage)
  : Prop :=
  exists k, notion_key_of host notionKey pg = Ok k.

Definition is_ok {A : Type} (r : result A) : bool :=
  match r with Ok _ => true | Throw => false end.

(** Every property of the page has a plain value: no text run carries a
    [plain_text] that is not a string. *)
Definition page_decodable (host : Host) (pg : NotionPage) : bool :=
  List.forallb
    (fun entry => is_ok (getNotionPropertyPlainValue host (snd entry)))
    (properties pg).

Definition pages_decodable (host : Host) (pages : list NotionPage) : bool :=
  List.forallb (page_decodable host) pages.

(** The same of the pages an index holds. *)
Definition index_decodable (host : Host) (idx : JsMap NotionPage) : bool :=
  List.forallb (fun entry => page_decodable host (snd entry)) idx.

(** The set of keys of an index. *)
Definition key_set {V : Type} (idx : JsMap V) : gset string :=
  list_to_set (map_keys idx).

(** The key universe a join type asks for, as a set. *)
Definition universe (joinType : JoinType) (A B : gset string) : gset string :=
  match joinType with
  | left => A
  | right => B
  | inner => A ∩ B
  | outer => A ∪ B
  end.

(** Whether the join type lets a spreadsheet-only key become a page. *)
Definition creates (joinType : JoinType) : bool :=
  match joinType with left | outer => true | right | inner => false end.

(** The plan of a key present on both sides, given the staged changes. *)
Definition matched_plan (key : string) (row : ExcelRow) (page : NotionPage)
  (changes : obj payload) : Plan :=
  match changes with
  | [] => Skip key (Some row) (Some page) "No changes computed"
  | _ :: _ => Update key row page changes
  end.

(** The type a typed value is written for: the one key of its object. *)
Definition payload_type (p : payload) : string :=
  match p with
  | PTitle _ => "title"
  | PRichText _ => "rich_text"
  | PNumber _ => "number"
  | PEmail _ => "email"
  | PUrl _ => "url"
  | PPhoneNumber _ => "phone_number"
  | PSelect _ => "select"
  | PMultiSelect _ => "multi_select"
  | PDate _ => "date"
  | PCheckbox _ => "checkbox"
  | PStatus _ => "status"
  end.

(** The typed value with the [type] tag the record store returns it under
    (the shape of the properties of the mock pages): the same object, with
    [type] added. *)
Definition tagged (p : payload) : value :=
  match to_json p with
  | VObj fields => VObj (("type", VStr (payload_type p)) :: fields)
  | v => v
  end.

Definition non_empty (s : string) : bool := negb (String.eqb s "").

(** The plain value of a tagged typed value. *)
Definition plain_of (p : payload) : value :=
  match p with
  | PTitle _ | PRichText _ => VStr ""
  | PNumber n => VNum n
  | PEmail s | PUrl s | PPhoneNumber s => VStr s
  | PSelect None => VNull
  | PSelect (Some nm) => VStr nm
  | PMultiSelect names => VStr (JsString.join ", " (List.filter non_empty names))
  | PDate start => VStr start
  | PCheckbox b => VStr (bool_to_string b)
  | PStatus nm => VStr nm
  end.

(** The elements of a list in the order in which they are first seen:
    an element is kept unless it is in [seen] or occurred before. *)
Fixpoint first_seen_from (seen : list string) (l : list string)
  : list string :=
  match l with
  | [] => []
  | x :: rest =>
      if set_has seen x then first_seen_from seen rest
      else x :: first_seen_from (x :: seen) rest
  end.

Definition first_seen (l : list string) : list string := first_seen_from [] l.

(** The option names [needed] asks for under the property named [pname], in
    the order of [needed]. *)
Definition names_for (pname : string) (needed : list Needed) : list string :=
  List.map needed_name
    (List.filter (fun n => String.eqb (name (prop n)) pname) needed).

(** The names asked for that the options lack, in first-seen order. *)
Definition missing_names (opts : list SelectOption) (asked : list string)
  : list string :=
  List.filter (fun nm => negb (set_has (List.map option_name opts) nm))
    (first_seen asked).

(** The option names a staged value refers to. *)
Definition payload_names (val : payload) : list string :=
  match val with
  | PSelect (Some nm) => [nm]
  | PMultiSelect names => names
  | PStatus nm => [nm]
  | _ => []
  end.

(** The option names a staged value refers to under a property of type
    [ty]: the name of a select or of a status, unless it is empty, and every
    name of a multi-select. *)
Definition referred_names (ty : string) (val : payload) : list string :=
  match val with
  | PSelect (Some nm) =>
      if String.eqb ty "select" && non_empty nm then [nm] else []
  | PMultiSelect names => if String.eqb ty "multi_select" then names else []
  | PStatus nm => if String.eqb ty "status" && non_empty nm then [nm] else []
  | _ => []
  end.

(** The option names the plans refer to under the property [pname] of the
    schema, read off the plans: plan after plan, and within a plan in the
    order of its changes. *)
Definition asked_names (rev : revision) (dbProps : list NotionPropertyDef)
  (plans : list Plan) (pname : string) : list string :=
  List.flat_map
    (fun plan =>
       match plan_changes plan with
       | Some changes =>
           List.flat_map
             (fun entry =>
                if String.eqb (fst entry) pname then
                  match find_def rev dbProps pname with
                  | Some def => referred_names (type def) (snd entry)
                  | None => []
                  end
                else [])
             changes
       | None => []
       end)
    plans.

Definition is_enumerated (ty : string) : bool :=
  String.eqb ty "select" || String.eqb ty "multi_select"
  || String.eqb ty "status".

(** Every option name that the plans refer to, under a property of type
    select, multi_select or status, is among the options of that property. *)
Definition all_options_exist (rev : revision)
  (dbProps : list NotionPropertyDef) (plans : list Plan) : Prop :=
  forall plan changes propName val def nm,
    plan ∈ plans ->
    plan_changes plan = Some changes ->
    (propName, val) ∈ changes ->
    find_def rev dbProps propName = Some def ->
    is_enumerated (type def) = true ->
    nm ∈ payload_names val ->
    nm ∈ List.map option_name (options_or_empty (Some def)).

End Vocabulary.

(** ** The rest of the component: summary, columns, mappings *)

Module Session.
Import Js.
Export Executor.

(** What [joinSummary] holds. *)
Record JoinSummary : Type := {
  leftCount : nat;
  rightCount : nat;
  bothCount : nat;
  leftOnly : list string;
  rightOnly : list string
}.

(** [joinSummary] *)
Definition joinSummary (excelIndex : JsMap ExcelRow)
  (notionIndex : JsMap NotionPage) : JoinSummary :=
  let leftKeys := set_of_list (map_keys excelIndex) in
  let rightKeys := set_of_list (map_keys notionIndex) in
  let both :=
    List.fold_left
      (fun both k => if set_has rightKeys k then set_add both k else both)
      leftKeys [] in
  let leftOnly := List.filter (fun k => negb (set_has rightKeys k)) leftKeys in
  let rightOnly := List.filter (fun k => negb (set_has leftKeys k)) rightKeys in
  {| leftCount := List.length leftKeys;
     rightCount := List.length rightKeys;
     bothCount := List.length both;
     leftOnly := leftOnly;
     rightOnly := rightOnly |}.

(** The columns [handleExcelUpload] derives from the rows: the keys of every
    row, each once, in the order in which they are met. *)
Definition excelColumns (json : list ExcelRow) : list string :=
  List.fold_left
    (fun acc row => List.fold_left set_add (obj_keys row) acc)
    json [].

(** The key column after an upload:
    [if (!excelKey && cols.length > 0) setExcelKey(cols[0])]. *)
Definition excelKey_after_upload (excelKey : string) (cols : list string)
  : string :=
  match cols with
  | first :: _ => if String.eqb excelKey "" then first else excelKey
  | [] => excelKey
  end.

(** [mappings.some((m) => m.excelColumn === c)] *)
Definition column_mapped (mappings : list Mapping) (c : string) : bool :=
  List.existsb (fun m => String.eqb (excelColumn m) c) mappings.

(** [mappings.some((m) => m.notionProperty === p.name)] *)
Definition property_mapped (mappings : list Mapping) (p : NotionPropertyDef)
  : bool :=
  List.existsb (fun m => String.eqb (notionProperty m) (name p)) mappings.

(** [addMapping()]; [uid] is the identifier [uid()] draws. *)
Definition addMapping (uid : string) (excelColumns : list string)
  (dbProps : list NotionPropertyDef) (mappings : list Mapping)
  : list Mapping :=
  let firstExcel :=
    List.find (fun c => negb (column_mapped mappings c)) excelColumns in
  let firstNotion :=
    List.find (fun p => negb (property_mapped mappings p)) dbProps in
  mappings
  ++ [{| mapping_id := uid;
         excelColumn := match firstExcel with Some c => c | None => "" end;
         notionProperty :=
           match firstNotion with Some p => name p | None => "" end |}].

(** [removeMapping(id)] *)
Definition removeMapping (id : string) (mappings : list Mapping)
  : list Mapping :=
  List.filter (fun x => negb (String.eqb (mapping_id x) id)) mappings.

(** A [Partial<Mapping>]. *)
Record MappingPatch : Type := {
  patch_id : option string;
  patch_excelColumn : option string;
  patch_notionProperty : option string
}.

(** [{ ...x, ...patch }] *)
Definition apply_patch (x : Mapping) (patch : MappingPatch) : Mapping :=
  {| mapping_id :=
       match patch_id patch with Some v => v | None => mapping_id x end;
     excelColumn :=
       match patch_excelColumn patch with
       | Some v => v
       | None => excelColumn x
       end;
     notionProperty :=
       match patch_notionProperty patch with
       | Some v => v
       | None => notionProperty x
       end |}.

(** [setMapping(id, patch)] *)
Definition setMapping (id : string) (patch : MappingPatch)
  (mappings : list Mapping) : list Mapping :=
  List.map
    (fun x => if String.eqb (mapping_id x) id then apply_patch x patch else x)
    mappings.

End Session.

(** ** The mock backend *)

Module MockApi.
Import Js.
Export Executor.

(** The state of the mock: whether it has a database, and under which
    identifier, and its pages. *)
Record MockState : Type := {
  db : option string;
  mock_pages : list NotionPage
}.

(** [!state.db || state.db.id !== database_id] *)
Definition database_missing (state : MockState) (database_id : string)
  : bool :=
  match db state with
  | Some id => negb (String.eqb id database_id)
  | None => true
  end.

(** [{ ...a, ...b }]: the properties of [a], then those of [b], written
    onto a new object in that order. *)
Definition spread {A : Type} (a b : obj A) : obj A :=
  List.fold_left (fun o entry => obj_set o (fst entry) (snd entry)) b
    (List.fold_left (fun o entry => obj_set o (fst entry) (snd entry)) a []).

(** The first page with the identifier gets the properties merged in. *)
Fixpoint update_first (page_id : string) (props : obj value)
  (pages : list NotionPage) : option (list NotionPage) :=
  match pages with
  | [] => None
  | p :: rest =>
      if String.eqb (Model.page_id p) page_id
      then Some ({| Model.page_id := Model.page_id p;
                    properties := spread (properties p) props |} :: rest)
      else match update_first page_id props rest with
           | Some rest' => Some (p :: rest')
           | None => None
           end
  end.

(** [queryDatabase(database_id)]; [None] is the error it throws. *)
Definition queryDatabase (database_id : string) (state : MockState)
  : option (list NotionPage) :=
  if database_missing state database_id then None
  else Some (mock_pages state).

(** [updatePage(page_id, properties)] *)
Definition updatePage (page_id : string) (props : obj value)
  (state : MockState) : option MockState :=
  match update_first page_id props (mock_pages state) with
  | Some pages' => Some {| db := db state; mock_pages := pages' |}
  | None => None
  end.

(** [createPage(database_id, properties)]; [uid] is what [uid()] draws. *)
Definition createPage (uid : string) (database_id : string)
  (props : obj value) (state : MockState) : option MockState :=
  if database_missing state database_id then None
  else Some {| db := db state;
               mock_pages :=
                 mock_pages state
                 ++ [{| Model.page_id := uid; properties := props |}] |}.

(** The staged changes as the object handed to the backend. *)
Definition changes_json (changes : obj payload) : obj value :=
  List.map (fun entry => (fst entry, to_json (snd entry))) changes.

End MockApi.

(** ** The proxy: the bearer token *)

Module Proxy.

(** [s.slice(n)] for a non-negative [n]. *)
Fixpoint slice_from (n : nat) (s : string) : string :=
  match n, s with
  | O, _ => s
  | S n', String _ rest => slice_from n' rest
  | S _, EmptyString => EmptyString
  end.

(** [getToken(req)] of the server: [header] is
    [req.headers["authorization"]], [env] is [process.env.NOTION_TOKEN]. *)
Definition getToken (header : option string) (env : option string) : string :=
  match header with
  | Some h =>
      if negb (String.eqb h "") && String.prefix "Bearer " h
      then slice_from 7 h
      else match env with
           | Some t => t
           | None => ""
           end
  | None => match env with
            | Some t => t
            | None => ""
            end
  end.

(** The [Authorization] header [createProxyApi] sets. *)
Definition authorization (token : string) : string :=
  if negb (String.eqb token "") then ("Bearer " ++ token)%string else "".

End Proxy.

(** ** Loading the records, page by page *)

Module Loader.
Export Model.

(** An answer to [databases.query]. *)
Record QueryResponse : Type := {
  results : list NotionPage;
  has_more : bool;
  next_cursor : option string
}.

(** The record store as the loader sees it: the answer to a query with
    the given [start_cursor], after the cursors asked for so far; [None] is
    a rejected request. *)
Definition Server : Type :=
  list (option string) -> option string -> option QueryResponse.

(** [resp.has_more ? resp.next_cursor ?? undefined : undefined], and whether
    the [while (cursor)] goes on: an empty cursor ends the loop as an absent
    one does. *)
Definition cursor_after (resp : QueryResponse) : option string :=
  if has_more resp then
    match next_cursor resp with
    | Some c => if String.eqb c "" then None else Some c
    | None => None
    end
  else None.

(** The [do ... while (cursor)] of [loadDatabase], in the first revision.
    [asked] are the cursors sent so far and [all] the records gathered.  The
    outer [None] is a loop that has not ended within [fuel] turns; [Throw] is
    a rejected query. *)
Fixpoint fetch_pages (fuel : nat) (server : Server)
  (asked : list (option string)) (cursor : option string)
  (all : list NotionPage) : option (Js.result (list NotionPage)) :=
  match fuel with
  | O => None
  | S fuel' =>
      match server asked cursor with
      | None => Some Js.Throw
      | Some resp =>
          let all' := all ++ results resp in
          match cursor_after resp with
          | Some next =>
              fetch_pages fuel' server (asked ++ [cursor]) (Some next) all'
          | None => Some (Js.Ok all')
          end
      end
  end.

(** The answers the server gives when it is asked from [cursor] on, each
    query taking the cursor of the answer before: [answers] is that run of
    answers, up to one that ends the loop. *)
Fixpoint answers_from (server : Server) (asked : list (option string))
  (cursor : option string) (answers : list QueryResponse) : Prop :=
  match answers with
  | [] => False
  | resp :: rest =>
      server asked cursor = Some resp
      /\ match rest with
         | [] => cursor_after resp = None
         | _ :: _ =>
             exists next,
               cursor_after resp = Some next
               /\ answers_from server (asked ++ [cursor]) (Some next) rest
         end
  end.

End Loader.

(** ** More vocabulary *)

Module MoreVocabulary.
Import Js.
Export Executor.
Import Vocabulary.

(** The request a plan stands for; a skip plan stands for none. *)
Definition request_of (host : Host) (databaseId : string)
  (dbProps : list NotionPropertyDef) (plan : Plan) : option request :=
  match plan with
  | Update _ _ page changes => Some (PagesUpdate (page_id page) changes)
  | Create key _ changes =>
      Some (PagesCreate (JsString.trim databaseId)
              (create_properties host dbProps key changes))
  | Skip _ _ _ _ => None
  end.

Definition calls_of (host : Host) (databaseId : string)
  (dbProps : list NotionPropertyDef) (plans : list Plan) : list event :=
  List.flat_map
    (fun plan =>
       match request_of host databaseId dbProps plan with
       | Some r => [Call r]
       | None => []
       end)
    plans.

(** What the turn of a plan adds to the trace when its request, if it has
    one, is fulfilled. *)
Definition turn_events (host : Host) (databaseId : string)
  (dbProps : list NotionPropertyDef) (plan : Plan) : list event :=
  match request_of host databaseId dbProps plan with
  | Some r => [Call r]
  | None => []
  end.

(** The turns one after the other, with a wait of [ms] between two
    consecutive turns: none before the first and none after the last. *)
Fixpoint paced (ms : nat) (turns : list (list event)) : list event :=
  match turns with
  | [] => []
  | [turn] => turn
  | turn :: rest => turn ++ Delay ms :: paced ms rest
  end.

Definition is_delay (e : event) : bool := negb (is_call e).

Definition is_schema_patch (e : event) : bool :=
  match e with
  | Call (DatabasesUpdate _ _) => true
  | _ => false
  end.

Definition is_query (e : event) : bool :=
  match e with
  | Call (DatabasesQuery _) => true
  | _ => false
  end.

(** The key under which [buildNotionPropertyValue] files a value for the
    target type: the type itself when it is one of the eleven cases of the
    switch, and [rich_text] otherwise. *)
Definition encoded_type (targetType : string) : string :=
  if List.existsb (String.eqb targetType)
       ["title"; "rich_text"; "number"; "email"; "url"; "phone_number";
        "select"; "multi_select"; "date"; "checkbox"; "status"]
  then targetType else "rich_text".

(** The target types for which a value that is there may still be left
    out. *)
Definition partial_type (targetType : string) : bool :=
  List.existsb (String.eqb targetType) ["number"; "date"; "checkbox"].

(** An option name that survives a comma-separated cell: not empty, no
    white space in front, no comma and no semicolon. *)
Definition clean_name (s : string) : bool :=
  match s with
  | EmptyString => false
  | String c _ =>
      negb (JsString.is_space c)
      && List.forallb (fun c => negb (JsString.is_separator c))
           (list_ascii_of_string s)
  end.

(** The typed values that encoding their plain value gives back. *)
Definition restageable (p : payload) : bool :=
  match p with
  | PNumber n => isFinite n
  | PEmail _ | PUrl _ | PPhoneNumber _ | PStatus _ | PCheckbox _ => true
  | PSelect (Some nm) => negb (String.eqb nm "")
  | PMultiSelect names => List.forallb clean_name names
  | PTitle _ | PRichText _ | PSelect None | PDate _ => false
  end.

(** A property of the local schema after the mock branch of the option
    reconciler: untouched when no entry of [needed] names it, and otherwise
    with the options of the first property of its name, followed by the
    names asked for that these lack, in the order in which they are first
    asked for. *)
Definition with_missing_options (dbProps : list NotionPropertyDef)
  (needed : list Needed) (p : NotionPropertyDef) : NotionPropertyDef :=
  match names_for (name p) needed with
  | [] => p
  | asked =>
      let old :=
        options_or_empty
          (List.find (fun q => String.eqb (name q) (name p)) dbProps) in
      {| name := name p; type := type p;
         options := Some (old ++ List.map new_option (missing_names old asked)) |}
  end.

Definition is_page_request (e : event) : bool :=
  match e with
  | Call (PagesUpdate _ _) | Call (PagesCreate _ _) => true
  | _ => false
  end.

(** The store fulfilled every request among the events [added], which
    follow the events [base]. *)
Fixpoint accepted (store : Store) (base added : list event) : bool :=
  match added with
  | [] => true
  | Call r :: rest => store base r && accepted store (base ++ [Call r]) rest
  | Delay ms :: rest => accepted store (base ++ [Delay ms]) rest
  end.

End MoreVocabulary.

(** * Properties *)

(** ** Facts about the collections *)

Module CollectionFacts.
Import Js.
Export Vocabulary.

Lemma set_has_true (s : StrSet) (k : string) : set_has s k = true <-> k ∈ s.
Proof.
  unfold set_has. induction s as [|x s IH]; simpl.
  - split; [discriminate | intros H; inversion H].
  - rewrite orb_true_iff, IH, elem_of_cons, String.eqb_eq. tauto.
Qed.

Lemma set_has_false (s : StrSet) (k : string) : set_has s k = false <-> k ∉ s.
Proof.
  rewrite <- set_has_true. destruct (set_has s k); split; congruence.
Qed.

Lemma set_add_elem (s : StrSet) (k x : string) :
  x ∈ set_add s k <-> x ∈ s \/ x = k.
Proof.
  unfold set_add. destruct (set_has s k) eqn:E.
  - apply set_has_true in E. split; [tauto | intros [H | ->]; assumption].
  - rewrite elem_of_app, list_elem_of_singleton. tauto.
Qed.

Lemma set_add_NoDup (s : StrSet) (k : string) : NoDup s -> NoDup (set_add s k).
Proof.
  intros Hs. unfold set_add. destruct (set_has s k) eqn:E; [assumption|].
  apply set_has_false in E. apply NoDup_app. repeat split.
  - assumption.
  - intros x Hx Hk. apply list_elem_of_singleton in Hk. subst. contradiction.
  - apply NoDup_singleton.
Qed.

Section Folds.
Variable keep : string -> bool.

Lemma fold_add_if_elem (xs : list string) (acc : StrSet) (x : string) :
  x ∈ List.fold_left (add_if keep) xs acc <-> x ∈ acc \/ (x ∈ xs /\ keep x = true).
Proof.
  revert acc. induction xs as [|y xs IH]; intros acc; simpl.
  - split; [tauto | intros [H | [H _]]; [assumption | inversion H]].
  - rewrite IH. unfold add_if. rewrite elem_of_cons.
    destruct (keep y) eqn:E.
    + rewrite set_add_elem. split.
      * intros [[H | ->] | [H1 H2]]; eauto.
      * intros [H | [[-> | H1] H2]]; eauto.
    + split.
      * intros [H | [H1 H2]]; eauto.
      * intros [H | [[-> | H1] H2]]; eauto; congruence.
Qed.

Lemma fold_add_if_NoDup (xs : list string) (acc : StrSet) :
  NoDup acc -> NoDup (List.fold_left (add_if keep) xs acc).
Proof.
  revert acc. induction xs as [|y xs IH]; intros acc Hacc; simpl.
  - assumption.
  - apply IH. unfold add_if. destruct (keep y); [|assumption].
    now apply set_add_NoDup.
Qed.
End Folds.

Lemma fold_set_add_elem (xs : list string) (acc : StrSet) (x : string) :
  x ∈ List.fold_left set_add xs acc <-> x ∈ acc \/ x ∈ xs.
Proof.
  change (List.fold_left set_add xs acc)
    with (List.fold_left (add_if (fun _ => true)) xs acc).
  rewrite fold_add_if_elem. tauto.
Qed.

Lemma fold_set_add_NoDup (xs : list string) (acc : StrSet) :
  NoDup acc -> NoDup (List.fold_left set_add xs acc).
Proof.
  change (List.fold_left set_add xs acc)
    with (List.fold_left (add_if (fun _ => true)) xs acc).
  apply fold_add_if_NoDup.
Qed.

Lemma set_of_list_elem (xs : list string) (x : string) :
  x ∈ set_of_list xs <-> x ∈ xs.
Proof.
  unfold set_of_list. rewrite fold_set_add_elem.
  split; [intros [H | H]; [inversion H | assumption] | tauto].
Qed.

Lemma set_of_list_NoDup (xs : list string) : NoDup (set_of_list xs).
Proof. apply fold_set_add_NoDup, NoDup_nil_2. Qed.

(** *** Objects and maps *)

Section Maps.
Context {V : Type}.
Implicit Types (m : JsMap V) (k : string) (v : V).

Lemma obj_get_elem m k v : obj_get m k = Some v -> (k, v) ∈ m.
Proof.
  induction m as [|[k' v'] m IH]; simpl; [discriminate|].
  destruct (String.eqb k' k) eqn:E.
  - apply String.eqb_eq in E. intros [= ->]. subst. apply list_elem_of_here.
  - intros H. apply list_elem_of_further, IH, H.
Qed.

Lemma elem_keys m k v : (k, v) ∈ m -> k ∈ map_keys m.
Proof.
  induction m as [|[k' v'] m IH]; intros H; [inversion H|].
  apply elem_of_cons in H as [[= -> ->] | H]; simpl.
  - apply list_elem_of_here.
  - apply list_elem_of_further, IH, H.
Qed.

Lemma map_get_None m k : map_get m k = None <-> k ∉ map_keys m.
Proof.
  unfold map_get. induction m as [|[k' v'] m IH]; simpl.
  - split; [intros _ H; inversion H | reflexivity].
  - rewrite not_elem_of_cons. destruct (String.eqb k' k) eqn:E.
    + apply String.eqb_eq in E. subst. split; [discriminate | tauto].
    + apply String.eqb_neq in E. rewrite IH.
      split; [intros H; split; [congruence | exact H] | tauto].
Qed.

Lemma map_get_Some_keys m k : is_Some (map_get m k) <-> k ∈ map_keys m.
Proof.
  destruct (map_get m k) eqn:E.
  - split; [intros _ | eauto].
    eapply elem_keys, obj_get_elem, E.
  - split; [intros [? [=]] | intros H].
    apply map_get_None in E. contradiction.
Qed.

Lemma map_has_keys m k : map_has m k = true <-> k ∈ map_keys m.
Proof.
  rewrite <- map_get_Some_keys. unfold map_has, obj_has, map_get.
  destruct (obj_get m k); split; eauto; try discriminate.
  intros [? [=]].
Qed.

Lemma obj_replace_keys m k v : map_keys (obj_replace m k v) = map_keys m.
Proof.
  induction m as [|[k' v'] m IH]; simpl; [reflexivity|].
  destruct (String.eqb k' k); simpl; [reflexivity|].
  f_equal. apply IH.
Qed.

Lemma map_keys_app m1 m2 : map_keys (m1 ++ m2) = map_keys m1 ++ map_keys m2.
Proof. apply List.map_app. Qed.

Lemma map_set_keys m k v :
  map_keys (map_set m k v)
  = if map_has m k then map_keys m else map_keys m ++ [k].
Proof.
  unfold map_set. destruct (map_has m k).
  - apply obj_replace_keys.
  - apply map_keys_app.
Qed.

Lemma map_set_keys_elem m k v x :
  x ∈ map_keys (map_set m k v) <-> x ∈ map_keys m \/ x = k.
Proof.
  rewrite map_set_keys. destruct (map_has m k) eqn:E.
  - apply map_has_keys in E. split; [tauto | intros [H | ->]; assumption].
  - rewrite elem_of_app, list_elem_of_singleton. tauto.
Qed.

Lemma map_set_NoDup m k v :
  NoDup (map_keys m) -> NoDup (map_keys (map_set m k v)).
Proof.
  intros Hm. rewrite map_set_keys. destruct (map_has m k) eqn:E.
  - assumption.
  - apply NoDup_app. repeat split; [assumption | | apply NoDup_singleton].
    intros x Hx Hk. apply list_elem_of_singleton in Hk. subst.
    apply map_has_keys in Hx. congruence.
Qed.

Lemma obj_get_replace_eq m k v :
  obj_has m k = true -> obj_get (obj_replace m k v) k = Some v.
Proof.
  unfold obj_has. induction m as [|[k' v'] m IH]; simpl; [discriminate|].
  destruct (String.eqb k' k) eqn:E; simpl; rewrite E; [reflexivity|].
  apply IH.
Qed.

Lemma obj_get_replace_ne m k k' v :
  k <> k' -> obj_get (obj_replace m k v) k' = obj_get m k'.
Proof.
  intros Hne. induction m as [|[k0 v0] m IH]; simpl; [reflexivity|].
  destruct (String.eqb k0 k) eqn:E; simpl.
  - apply String.eqb_eq in E. subst k0.
    destruct (String.eqb k k') eqn:E'; [|reflexivity].
    apply String.eqb_eq in E'. contradiction.
  - destruct (String.eqb k0 k'); [reflexivity | apply IH].
Qed.

Lemma obj_get_app m1 m2 k :
  obj_get (m1 ++ m2) k
  = match obj_get m1 k with Some v => Some v | None => obj_get m2 k end.
Proof.
  induction m1 as [|[k' v'] m1 IH]; simpl; [reflexivity|].
  destruct (String.eqb k' k); [reflexivity | apply IH].
Qed.

Lemma map_get_set_eq m k v : map_get (map_set m k v) k = Some v.
Proof.
  unfold map_get, map_set, map_has. destruct (obj_has m k) eqn:E.
  - now apply obj_get_replace_eq.
  - rewrite obj_get_app. unfold obj_has in E.
    destruct (obj_get m k); [discriminate|]. simpl.
    now rewrite String.eqb_refl.
Qed.

Lemma map_get_set_ne m k k' v :
  k <> k' -> map_get (map_set m k v) k' = map_get m k'.
Proof.
  intros Hne. unfold map_get, map_set. destruct (map_has m k).
  - now apply obj_get_replace_ne.
  - rewrite obj_get_app. destruct (obj_get m k'); [reflexivity|]. simpl.
    destruct (String.eqb k k') eqn:E; [|reflexivity].
    apply String.eqb_eq in E. contradiction.
Qed.

End Maps.

End CollectionFacts.

(** ** Facts about the indexes *)

Module IndexFacts.
Import Js.
Import CollectionFacts.
Export Executor.

Section Build.
Context {R : Type}.
Variable key_of : R -> string.

Lemma build_snoc (rows : list R) (r : R) :
  build key_of (rows ++ [r]) = index_step key_of (build key_of rows) r.
Proof. unfold build. now rewrite List.fold_left_app. Qed.

Lemma build_NoDup (rows : list R) : NoDup (map_keys (build key_of rows)).
Proof.
  induction rows as [|r rows IH] using List.rev_ind.
  - apply NoDup_nil_2.
  - rewrite build_snoc. unfold index_step.
    destruct (negb _); [now apply map_set_NoDup | assumption].
Qed.

Lemma build_get_empty (rows : list R) : map_get (build key_of rows) "" = None.
Proof.
  induction rows as [|r rows IH] using List.rev_ind; [reflexivity|].
  rewrite build_snoc. unfold index_step.
  destruct (String.eqb (key_of r) "") eqn:E; simpl; [assumption|].
  apply String.eqb_neq in E. now rewrite map_get_set_ne.
Qed.

Lemma last_with_key_snoc (k : string) (rows : list R) (r x : R) :
  last_with_key key_of k (rows ++ [x]) r
  <-> (key_of x = k /\ r = x)
      \/ (key_of x <> k /\ last_with_key key_of k rows r).
Proof.
  split.
  - intros (before & after & Heq & Hk & Hafter).
    destruct after as [|y after _] using List.rev_ind.
    + apply List.app_inj_tail in Heq as [_ ->]. now left.
    + rewrite List.app_comm_cons, List.app_assoc in Heq.
      apply List.app_inj_tail in Heq as [-> ->].
      apply Forall_app in Hafter as [Hafter Hy].
      right. split; [now inversion Hy|].
      now exists before, after.
  - intros [[Hk ->] | [Hx (before & after & -> & Hk & Hafter)]].
    + exists rows, []. repeat split; [assumption | constructor].
    + exists before, (after ++ [x]). repeat split.
      * now rewrite <- List.app_assoc.
      * assumption.
      * apply Forall_app. split; [assumption | now constructor].
Qed.

Lemma last_with_key_nil (k : string) (r : R) :
  ~ last_with_key key_of k [] r.
Proof. intros ([|? ?] & after & Heq & _); discriminate. Qed.

(** The index maps a key to the last row that has it, and holds no
    empty key. *)
Lemma build_get (rows : list R) (k : string) (r : R) :
  map_get (build key_of rows) k = Some r
  <-> k <> "" /\ last_with_key key_of k rows r.
Proof.
  revert r. induction rows as [|x rows IH] using List.rev_ind; intros r.
  - split; [discriminate | intros [_ H]; now apply last_with_key_nil in H].
  - rewrite build_snoc, last_with_key_snoc. unfold index_step.
    destruct (String.eqb (key_of x) "") eqn:E; simpl.
    + apply String.eqb_eq in E. rewrite IH. split.
      * intros [Hk Hl]. split; [assumption|]. right. split; congruence.
      * intros [Hk [[Hx _] | [_ Hl]]]; [congruence | tauto].
    + apply String.eqb_neq in E.
      destruct (String.eqb_spec (key_of x) k) as [Hxk | Hxk].
      * subst k. rewrite map_get_set_eq. split.
        -- intros [= ->]. split; [assumption | now left].
        -- intros [_ [[_ ->] | [Hne _]]]; [reflexivity | contradiction].
      * rewrite map_get_set_ne by assumption. rewrite IH. split.
        -- intros [Hk Hl]. split; [assumption | now right].
        -- intros [Hk [[Hx _] | [_ Hl]]]; [contradiction | tauto].
Qed.

Lemma build_keys (rows : list R) (k : string) :
  k ∈ map_keys (build key_of rows)
  <-> k <> "" /\ exists r, r ∈ rows /\ key_of r = k.
Proof.
  induction rows as [|x rows IH] using List.rev_ind.
  - split; [intros H; inversion H | intros [_ (r & H & _)]; inversion H].
  - rewrite build_snoc. unfold index_step.
    destruct (String.eqb (key_of x) "") eqn:E; simpl.
    + apply String.eqb_eq in E. rewrite IH. split.
      * intros [Hk (r & Hr & Hkr)]. split; [assumption|].
        exists r. split; [apply elem_of_app; now left | assumption].
      * intros [Hk (r & Hr & Hkr)]. split; [assumption|].
        apply elem_of_app in Hr as [Hr | Hr]; [now exists r|].
        apply list_elem_of_singleton in Hr. congruence.
    + apply String.eqb_neq in E. rewrite map_set_keys_elem, IH. split.
      * intros [[Hk (r & Hr & Hkr)] | ->].
        -- split; [assumption|]. exists r.
           split; [apply elem_of_app; now left | assumption].
        -- split; [assumption|]. exists x.
           split; [apply elem_of_app; right; apply list_elem_of_here
                  | reflexivity].
      * intros [Hk (r & Hr & Hkr)].
        apply elem_of_app in Hr as [Hr | Hr]; [left; eauto|].
        apply list_elem_of_singleton in Hr. subst. now right.
Qed.

Lemma build_get_elem (rows : list R) (k : string) (r : R) :
  map_get (build key_of rows) k = Some r -> r ∈ rows /\ key_of r = k.
Proof.
  intros H. apply build_get in H as [_ (before & after & -> & Hk & _)].
  split; [|assumption].
  apply elem_of_app. right. apply list_elem_of_here.
Qed.
End Build.

Section WithHost.
Variable host : Host.

Lemma excelIndex_build (excelRows : list ExcelRow) (excelKey : string) :
  excelKey <> "" ->
  excelIndex host excelRows excelKey
  = build (excel_key_of host excelKey) excelRows.
Proof.
  intros H. unfold excelIndex. apply String.eqb_neq in H. now rewrite H.
Qed.

Lemma excelIndex_NoDup (excelRows : list ExcelRow) (excelKey : string) :
  NoDup (map_keys (excelIndex host excelRows excelKey)).
Proof.
  unfold excelIndex. destruct (String.eqb excelKey "").
  - apply NoDup_nil_2.
  - apply (build_NoDup (excel_key_of host excelKey)).
Qed.

Lemma notionIndex_loop_ok (pages : list NotionPage) (notionKey : string)
  (map : JsMap NotionPage) :
  Forall (key_decodes host notionKey) pages ->
  notionIndex_loop host pages notionKey map
  = Ok (List.fold_left (index_step (page_key host notionKey)) pages map).
Proof.
  revert map. induction pages as [|pg pages IH]; intros map Hall; simpl.
  - reflexivity.
  - inversion Hall as [|? ? [k Hk] Hrest]; subst.
    rewrite Hk. simpl. rewrite IH by assumption.
    unfold index_step, page_key. now rewrite Hk.
Qed.

Lemma notionIndex_loop_inv (pages : list NotionPage) (notionKey : string)
  (map idx : JsMap NotionPage) :
  notionIndex_loop host pages notionKey map = Ok idx ->
  Forall (key_decodes host notionKey) pages.
Proof.
  revert map. induction pages as [|pg pages IH]; intros map H; simpl in H.
  - constructor.
  - destruct (notion_key_of host notionKey pg) as [k|] eqn:Hk;
      [|discriminate].
    simpl in H. constructor; [now exists k | eapply IH, H].
Qed.

Lemma notionIndex_build (pages : list NotionPage) (notionKey : string) :
  notionKey <> "" ->
  Forall (key_decodes host notionKey) pages ->
  notionIndex host pages notionKey
  = Ok (build (page_key host notionKey) pages).
Proof.
  intros Hk Hall. unfold notionIndex. apply String.eqb_neq in Hk.
  rewrite Hk. now apply notionIndex_loop_ok.
Qed.

Lemma notionIndex_ok (pages : list NotionPage) (notionKey : string) :
  Forall (key_decodes host notionKey) pages ->
  exists idx,
    notionIndex host pages notionKey = Ok idx
    /\ NoDup (map_keys idx)
    /\ forall k pg, map_get idx k = Some pg -> pg ∈ pages.
Proof.
  intros Hall. unfold notionIndex.
  destruct (String.eqb notionKey "").
  - exists map_empty. split; [reflexivity|].
    split; [apply NoDup_nil_2 | discriminate].
  - rewrite notionIndex_loop_ok by assumption.
    eexists. split; [reflexivity|]. split.
    + apply (build_NoDup (page_key host notionKey)).
    + intros k pg H.
      now apply (build_get_elem (page_key host notionKey)) in H as [H _].
Qed.

End WithHost.

End IndexFacts.

(** ** Facts about the planner *)

Module PlannerFacts.
Import Js.
Import CollectionFacts.
Export IndexFacts.

Section WithHost.
Variable host : Host.

Lemma page_decodable_get (pg : NotionPage) (k : string) :
  page_decodable host pg = true ->
  exists plain,
    getNotionPropertyPlainValue host (of_option (obj_get (properties pg) k))
    = Ok plain.
Proof.
  intros H. destruct (obj_get (properties pg) k) as [v|] eqn:E; simpl.
  - apply obj_get_elem, list_elem_of_In in E.
    unfold page_decodable in H. rewrite List.forallb_forall in H.
    specialize (H _ E). simpl in H.
    destruct (getNotionPropertyPlainValue host v); [eauto | discriminate].
  - now exists VNull.
Qed.

Lemma page_decodable_key (pg : NotionPage) (notionKey : string) :
  page_decodable host pg = true -> key_decodes host notionKey pg.
Proof.
  intros H. destruct (page_decodable_get pg notionKey H) as [plain Hp].
  unfold key_decodes, notion_key_of. rewrite Hp. simpl. eauto.
Qed.

Lemma pages_decodable_keys (pages : list NotionPage) (notionKey : string) :
  pages_decodable host pages = true ->
  Forall (key_decodes host notionKey) pages.
Proof.
  unfold pages_decodable. rewrite List.forallb_forall, List.Forall_forall.
  intros H pg Hpg. apply page_decodable_key, H, Hpg.
Qed.

Lemma index_decodable_get (idx : JsMap NotionPage) (k : string)
  (pg : NotionPage) :
  index_decodable host idx = true -> map_get idx k = Some pg ->
  page_decodable host pg = true.
Proof.
  unfold index_decodable. rewrite List.forallb_forall. intros H Hget.
  apply obj_get_elem, list_elem_of_In in Hget. apply (H _ Hget).
Qed.

(** The index of decodable pages exists and holds decodable pages. *)
Lemma notionIndex_decodable (pages : list NotionPage) (notionKey : string) :
  pages_decodable host pages = true ->
  exists idx,
    notionIndex host pages notionKey = Ok idx
    /\ NoDup (map_keys idx)
    /\ index_decodable host idx = true.
Proof.
  intros Hdec.
  destruct (notionIndex_ok host pages notionKey
              (pages_decodable_keys pages notionKey Hdec))
    as (idx & Hidx & Hnd & Hin).
  exists idx. repeat split; [assumption .. |].
  unfold index_decodable. apply List.forallb_forall. intros [k pg] Hkpg.
  simpl. unfold pages_decodable in Hdec.
  rewrite List.forallb_forall in Hdec. apply Hdec.
  apply list_elem_of_In, (Hin k).
  (* the entry is what the map returns for its key *)
  clear -Hnd Hkpg. induction idx as [|[k' pg'] idx IH]; [destruct Hkpg|].
  simpl in *. apply NoDup_cons in Hnd as [Hk' Hnd].
  destruct Hkpg as [[= -> ->] | Hkpg].
  - unfold map_get. simpl. now rewrite String.eqb_refl.
  - unfold map_get. simpl. destruct (String.eqb k' k) eqn:E.
    + apply String.eqb_eq in E. subst k'. exfalso. apply Hk'.
      change (k ∈ map_keys idx). eapply elem_keys.
      apply list_elem_of_In, Hkpg.
    + now apply IH.
Qed.

(** *** The mapping loops *)

Lemma update_step_ok (rev : revision) (dbProps : list NotionPropertyDef)
  (onlyUpdateEmpty : bool) (excelRow : ExcelRow) (page : NotionPage)
  (changes : obj payload) (m : Mapping) :
  page_decodable host page = true ->
  exists changes',
    update_step host rev dbProps onlyUpdateEmpty excelRow page changes m
    = Ok changes'.
Proof.
  intros Hdec. unfold update_step.
  destruct (page_decodable_get page (notionProperty m) Hdec) as [ex Hex].
  rewrite Hex. simpl.
  match goal with |- context [if ?c then _ else Ok changes] =>
    destruct c end; [|eauto].
  match goal with |- context [if ?c then Ok changes else _] =>
    destruct c end; [eauto|].
  destruct (buildNotionPropertyValue host _ _); eauto.
Qed.

Lemma update_changes_ok (rev : revision) (dbProps : list NotionPropertyDef)
  (onlyUpdateEmpty : bool) (excelRow : ExcelRow) (page : NotionPage)
  (mappings : list Mapping) (changes : obj payload) :
  page_decodable host page = true ->
  exists changes',
    update_changes host rev dbProps onlyUpdateEmpty excelRow page
      mappings changes = Ok changes'.
Proof.
  intros Hdec. revert changes.
  induction mappings as [|m mappings IH]; intros changes; simpl.
  - eauto.
  - destruct (update_step_ok rev dbProps onlyUpdateEmpty excelRow page
                changes m Hdec) as [c1 Hc1].
    rewrite Hc1. simpl. apply IH.
Qed.

End WithHost.

End PlannerFacts.

Module PlanFacts.
Import Js.
Import CollectionFacts.
Export PlannerFacts.

Lemma select_keys_elem (joinType : JoinType) (eidx : JsMap ExcelRow)
  (nidx : JsMap NotionPage) (k : string) :
  k ∈ select_keys joinType eidx nidx
  <-> match joinType with
      | left => k ∈ map_keys eidx
      | right => k ∈ map_keys nidx
      | inner => k ∈ map_keys eidx /\ k ∈ map_keys nidx
      | outer => k ∈ map_keys eidx \/ k ∈ map_keys nidx
      end.
Proof.
  unfold select_keys. destruct joinType.
  - rewrite fold_set_add_elem, set_of_list_elem.
    split; [intros [H | H]; [inversion H | assumption] | tauto].
  - rewrite fold_set_add_elem, set_of_list_elem.
    split; [intros [H | H]; [inversion H | assumption] | tauto].
  - change (List.fold_left _ (set_of_list (map_keys eidx)) [])
      with (List.fold_left
              (add_if (set_has (set_of_list (map_keys nidx))))
              (set_of_list (map_keys eidx)) []).
    rewrite fold_add_if_elem, set_of_list_elem, set_has_true,
      set_of_list_elem.
    split; [intros [H | H]; [inversion H | assumption] | tauto].
  - rewrite !fold_set_add_elem, !set_of_list_elem.
    split; [intros [[H | H] | H]; [inversion H | tauto | tauto] | tauto].
Qed.

Lemma select_keys_NoDup (joinType : JoinType) (eidx : JsMap ExcelRow)
  (nidx : JsMap NotionPage) :
  NoDup (select_keys joinType eidx nidx).
Proof.
  unfold select_keys. destruct joinType.
  - apply fold_set_add_NoDup, NoDup_nil_2.
  - apply fold_set_add_NoDup, NoDup_nil_2.
  - apply (fold_add_if_NoDup (set_has (set_of_list (map_keys nidx)))),
      NoDup_nil_2.
  - apply fold_set_add_NoDup, fold_set_add_NoDup, NoDup_nil_2.
Qed.

Lemma select_keys_indexed (joinType : JoinType) (eidx : JsMap ExcelRow)
  (nidx : JsMap NotionPage) (k : string) :
  k ∈ select_keys joinType eidx nidx ->
  k ∈ map_keys eidx \/ k ∈ map_keys nidx.
Proof. rewrite select_keys_elem. destruct joinType; tauto. Qed.

(** A key present on both sides is selected by every join type. *)
Lemma select_keys_both (joinType : JoinType) (eidx : JsMap ExcelRow)
  (nidx : JsMap NotionPage) (k : string) :
  k ∈ map_keys eidx -> k ∈ map_keys nidx ->
  k ∈ select_keys joinType eidx nidx.
Proof. rewrite select_keys_elem. destruct joinType; tauto. Qed.

Section Loop.
Variable f : string -> result (list Plan).

Lemma plans_loop_inv (keys : list string) (acc plans : list Plan) :
  (forall k ps, k ∈ keys -> f k = Ok ps ->
                exists p, ps = [p] /\ plan_key p = k) ->
  plans_loop f keys acc = Ok plans ->
  exists new,
    plans = acc ++ new
    /\ List.map plan_key new = keys
    /\ forall q, q ∈ new -> f (plan_key q) = Ok [q].
Proof.
  revert acc. induction keys as [|k keys IH]; intros acc Hshape H;
    simpl in H.
  - injection H as <-. exists []. rewrite List.app_nil_r.
    repeat split. intros q Hq. inversion Hq.
  - destruct (f k) as [ps|] eqn:Hfk; [|discriminate]. simpl in H.
    destruct (Hshape k ps (list_elem_of_here _ _) Hfk) as (p & -> & Hp).
    apply IH in H as (new & -> & Hkeys & Hall).
    + exists (p :: new). rewrite <- List.app_assoc. simpl.
      repeat split; [congruence|].
      intros q Hq. apply elem_of_cons in Hq as [-> | Hq];
        [now rewrite Hp | now apply Hall].
    + intros k' ps' Hk'. apply Hshape. now apply list_elem_of_further.
Qed.

Lemma plans_loop_total (keys : list string) (acc : list Plan) :
  (forall k, k ∈ keys -> exists ps, f k = Ok ps) ->
  exists plans, plans_loop f keys acc = Ok plans.
Proof.
  revert acc. induction keys as [|k keys IH]; intros acc Hok; simpl.
  - eauto.
  - destruct (Hok k (list_elem_of_here _ _)) as [ps Hps]. rewrite Hps.
    simpl. apply IH. intros k' Hk'. apply Hok.
    now apply list_elem_of_further.
Qed.
End Loop.

Section WithHost.
Variable host : Host.
Variable rev : revision.
Variables (eidx : JsMap ExcelRow) (nidx : JsMap NotionPage).
Variable joinType : JoinType.
Variable mappings : list Mapping.
Variable dbProps : list NotionPropertyDef.
Variables onlyUpdateEmpty allowCreatePages : bool.

Let for_key :=
  plans_for_key host rev eidx nidx joinType mappings dbProps
    onlyUpdateEmpty allowCreatePages.
Let planned :=
  buildPlannedUpdates host rev eidx nidx joinType mappings dbProps
    onlyUpdateEmpty allowCreatePages.

Lemma plans_for_key_shape (k : string) (ps : list Plan) :
  k ∈ map_keys eidx \/ k ∈ map_keys nidx ->
  for_key k = Ok ps ->
  exists p, ps = [p] /\ plan_key p = k.
Proof.
  intros Hk. unfold for_key, plans_for_key.
  destruct (map_get eidx k) as [row|] eqn:He;
    destruct (map_get nidx k) as [page|] eqn:Hn.
  - destruct (update_changes _ _ _ _ _ _ _ _) as [changes|];
      [|discriminate].
    simpl. destruct (_ <? _)%nat; intros [= <-]; eauto.
  - destruct (_ && _); intros [= <-]; eauto.
  - intros [= <-]; eauto.
  - apply map_get_None in He, Hn. tauto.
Qed.

Lemma plans_for_key_total (k : string) :
  index_decodable host nidx = true ->
  exists ps, for_key k = Ok ps.
Proof.
  intros Hdec. unfold for_key, plans_for_key.
  destruct (map_get eidx k) as [row|] eqn:He;
    destruct (map_get nidx k) as [page|] eqn:Hn; eauto.
  - destruct (update_changes_ok host rev dbProps onlyUpdateEmpty row page
                mappings [] (index_decodable_get host _ _ _ Hdec Hn))
      as [changes Hc].
    rewrite Hc. simpl. destruct (_ <? _)%nat; eauto.
  - destruct (_ && _); eauto.
Qed.

(** The plans are one per selected key, in the order of the keys, and
    each is what the loop body pushes for its key. *)
Lemma buildPlannedUpdates_spec (plans : list Plan) :
  planned = Ok plans ->
  List.map plan_key plans = select_keys joinType eidx nidx
  /\ forall q, q ∈ plans -> for_key (plan_key q) = Ok [q].
Proof.
  intros H. unfold planned, buildPlannedUpdates in H.
  apply plans_loop_inv in H as (new & -> & Hkeys & Hall).
  - simpl. split; assumption.
  - intros k ps Hk. apply plans_for_key_shape.
    eapply select_keys_indexed, Hk.
Qed.

Lemma buildPlannedUpdates_total :
  index_decodable host nidx = true -> exists plans, planned = Ok plans.
Proof.
  intros Hdec. apply plans_loop_total. intros k _.
  now apply plans_for_key_total.
Qed.

(** The plan of a selected key is in the plans, and is the only one with
    that key. *)
Lemma plan_of_selected_key (plans : list Plan) (k : string) :
  planned = Ok plans ->
  k ∈ select_keys joinType eidx nidx ->
  exists p,
    for_key k = Ok [p] /\ p ∈ plans
    /\ forall q, q ∈ plans -> plan_key q = k -> q = p.
Proof.
  intros H Hk. apply buildPlannedUpdates_spec in H as [Hkeys Hall].
  rewrite <- Hkeys in Hk.
  assert (exists p, p ∈ plans /\ plan_key p = k) as (p & Hp & Hpk).
  { clear -Hk. induction plans as [|p plans IH]; [inversion Hk|].
    simpl in Hk. apply elem_of_cons in Hk as [-> | Hk].
    - exists p. split; [apply list_elem_of_here | reflexivity].
    - destruct (IH Hk) as (q & Hq & Hqk). exists q.
      split; [now apply list_elem_of_further | assumption]. }
  exists p. pose proof (Hall p Hp) as Hfp. rewrite Hpk in Hfp.
  repeat split; [assumption .. |].
  intros q Hq Hqk. pose proof (Hall q Hq) as Hfq. rewrite Hqk in Hfq.
  congruence.
Qed.

End WithHost.

End PlanFacts.

(** ** The join planner *)

Import Js.
Import CollectionFacts.
Import PlanFacts.

Lemma select_keys_universe (joinType : JoinType) (eidx : JsMap ExcelRow)
  (nidx : JsMap NotionPage) :
  list_to_set (select_keys joinType eidx nidx)
  = universe joinType (key_set eidx) (key_set nidx).
Proof.
  apply set_eq. intros k. rewrite elem_of_list_to_set, select_keys_elem.
  unfold universe, key_set. destruct joinType;
    rewrite ?elem_of_intersection, ?elem_of_union, !elem_of_list_to_set;
    reflexivity.
Qed.

(** C1.  Whatever the rows, the pages and the join type, the planner selects
    as many keys as the join type asks for: the keys of the spreadsheet
    index for a left join, those of the record index for a right join, the
    keys common to both for an inner join and the keys of either for an outer
    join; and it emits exactly one plan for each selected key, in the order
    of the keys.  The pages are taken to be decodable, so that the planner
    returns. *)
Theorem C1_one_plan_per_selected_key
  (host : Host) (rev : revision)
  (excelRows : list ExcelRow) (excelKey : string)
  (pages : list NotionPage) (notionKey : string)
  (joinType : JoinType) (mappings : list Mapping)
  (dbProps : list NotionPropertyDef) (onlyUpdateEmpty allowCreatePages : bool) :
  pages_decodable host pages = true ->
  exists nidx plans,
    let eidx := excelIndex host excelRows excelKey in
    let A := key_set eidx in
    let B := key_set nidx in
    notionIndex host pages notionKey = Ok nidx
    /\ buildPlannedUpdates host rev eidx nidx joinType mappings dbProps
         onlyUpdateEmpty allowCreatePages = Ok plans
    /\ size A = List.length eidx
    /\ size B = List.length nidx
    /\ List.map plan_key plans = select_keys joinType eidx nidx
    /\ NoDup (List.map plan_key plans)
    /\ list_to_set (List.map plan_key plans) = universe joinType A B
    /\ List.length plans = size (universe joinType A B).
Proof.
  intros Hdec.
  destruct (notionIndex_decodable host pages notionKey Hdec)
    as (nidx & Hidx & Hnd & Hidec).
  destruct (buildPlannedUpdates_total host rev
              (excelIndex host excelRows excelKey) nidx joinType mappings
              dbProps onlyUpdateEmpty allowCreatePages Hidec)
    as [plans Hplans].
  exists nidx, plans. cbv zeta.
  destruct (buildPlannedUpdates_spec _ _ _ _ _ _ _ _ _ _ Hplans)
    as [Hkeys _].
  pose proof (excelIndex_NoDup host excelRows excelKey) as Hend.
  repeat split; try assumption.
  - unfold key_set. rewrite size_list_to_set by assumption.
    unfold map_keys. now rewrite List.length_map.
  - unfold key_set. rewrite size_list_to_set by assumption.
    unfold map_keys. now rewrite List.length_map.
  - rewrite Hkeys. apply select_keys_NoDup.
  - rewrite Hkeys. apply select_keys_universe.
  - rewrite <- select_keys_universe,
      size_list_to_set by apply select_keys_NoDup.
    rewrite <- Hkeys. now rewrite List.length_map.
Qed.

Lemma C1_one_plan_per_selected_key_witness :
  pages_decodable Demo.host Demo.pages = true
  /\ exists nidx plans,
       notionIndex Demo.host Demo.pages "Key" = Ok nidx
       /\ buildPlannedUpdates Demo.host Backend
            (excelIndex Demo.host Demo.rows "Key") nidx outer
            [Demo.amount_mapping] Demo.schema false false = Ok plans
       /\ List.length plans
          = size (universe outer
                    (key_set (excelIndex Demo.host Demo.rows "Key"))
                    (key_set nidx)).
Proof.
  split; [reflexivity|].
  destruct (C1_one_plan_per_selected_key Demo.host Backend Demo.rows "Key"
              Demo.pages "Key" outer [Demo.amount_mapping] Demo.schema
              false false eq_refl)
    as (nidx & plans & H1 & H2 & _ & _ & _ & _ & _ & H8).
  exists nidx, plans. repeat split; assumption.
Defined.

Section PlannedFor.
Variable host : Host.
Variable rev : revision.
Variables (eidx : JsMap ExcelRow) (nidx : JsMap NotionPage).
Variable joinType : JoinType.
Variable mappings : list Mapping.
Variable dbProps : list NotionPropertyDef.
Variables onlyUpdateEmpty allowCreatePages : bool.

(** What the loop body pushes, by the sides the key is present on. *)
Lemma plans_for_key_cases (k : string) (ps : list Plan) :
  plans_for_key host rev eidx nidx joinType mappings dbProps
    onlyUpdateEmpty allowCreatePages k = Ok ps ->
  match map_get eidx k, map_get nidx k with
  | Some row, Some page =>
      exists changes,
        update_changes host rev dbProps onlyUpdateEmpty row page mappings []
        = Ok changes
        /\ ps = [matched_plan k row page changes]
  | Some row, None =>
      ps = [if creates joinType && allowCreatePages
            then Create k row (create_changes host rev dbProps row mappings)
            else Skip k (Some row) None "No matching Notion page"]
  | None, Some page => ps = [Skip k None (Some page) "No matching Excel row"]
  | None, None => ps = []
  end.
Proof.
  unfold plans_for_key.
  destruct (map_get eidx k) as [row|]; destruct (map_get nidx k) as [page|].
  - destruct (update_changes _ _ _ _ _ _ _ _) as [changes|]; [|discriminate].
    simpl. intros H. exists changes. split; [reflexivity|].
    destruct changes as [|c changes]; simpl in H; now injection H as <-.
  - unfold creates. destruct joinType, allowCreatePages; simpl;
      now intros [= <-].
  - now intros [= <-].
  - now intros [= <-].
Qed.

End PlannedFor.

(** C2.  For a key present on both sides the planner never emits an update
    whose changes are empty: the plan of the key is an update carrying the
    staged changes when there are some, and otherwise a skip whose reason is
    the literal ["No changes computed"] (the code's wording of the reason);
    no update plan, for any key, has empty changes.  The planner returns
    whenever the indexed pages are decodable. *)
Theorem C2_update_never_empty
  (host : Host) (rev : revision)
  (eidx : JsMap ExcelRow) (nidx : JsMap NotionPage)
  (joinType : JoinType) (mappings : list Mapping)
  (dbProps : list NotionPropertyDef) (onlyUpdateEmpty allowCreatePages : bool) :
  (forall plans,
     buildPlannedUpdates host rev eidx nidx joinType mappings dbProps
       onlyUpdateEmpty allowCreatePages = Ok plans ->
     (forall key row page changes,
        Update key row page changes ∈ plans -> changes <> [])
     /\ (forall key row page,
           map_get eidx key = Some row -> map_get nidx key = Some page ->
           exists changes p,
             update_changes host rev dbProps onlyUpdateEmpty row page
               mappings [] = Ok changes
             /\ p ∈ plans
             /\ (forall q, q ∈ plans -> plan_key q = key -> q = p)
             /\ p = match changes with
                    | [] => Skip key (Some row) (Some page)
                              "No changes computed"
                    | _ :: _ => Update key row page changes
                    end))
  /\ (index_decodable host nidx = true ->
      exists plans,
        buildPlannedUpdates host rev eidx nidx joinType mappings dbProps
          onlyUpdateEmpty allowCreatePages = Ok plans).
Proof.
  split; [|apply buildPlannedUpdates_total].
  intros plans Hplans. split.
  - intros key row page changes Hin.
    destruct (buildPlannedUpdates_spec _ _ _ _ _ _ _ _ _ _ Hplans)
      as [_ Hall].
    apply Hall, plans_for_key_cases in Hin. simpl in Hin.
    destruct (map_get eidx key) as [row'|];
      destruct (map_get nidx key) as [page'|].
    + destruct Hin as (changes' & _ & Heq).
      destruct changes' as [|c changes']; simpl in Heq; [discriminate|].
      injection Heq as _ _ ->. discriminate.
    + destruct (_ && _); discriminate.
    + discriminate.
    + discriminate.
  - intros key row page He Hn.
    assert (key ∈ select_keys joinType eidx nidx) as Hsel.
    { apply select_keys_both; apply map_get_Some_keys; eauto. }
    destruct (plan_of_selected_key _ _ _ _ _ _ _ _ _ _ _ Hplans Hsel)
      as (p & Hp & Hin & Huniq).
    apply plans_for_key_cases in Hp. rewrite He, Hn in Hp.
    destruct Hp as (changes & Hc & [= ->]).
    exists changes, (matched_plan key row page changes).
    repeat split; assumption.
Qed.

Lemma C2_update_never_empty_witness :
  exists plans,
    buildPlannedUpdates Demo.host SdkClient
      (excelIndex Demo.host Demo.rows "Key")
      [("A001", Demo.mk_page "p1" "A001" 5)] inner
      [Demo.amount_mapping] Demo.schema true false = Ok plans
    /\ Skip "A001" (Some Demo.row_A001) (Some (Demo.mk_page "p1" "A001" 5))
         "No changes computed" ∈ plans
    /\ forall key row page changes,
         Update key row page changes ∈ plans -> changes <> [].
Proof.
  destruct (C2_update_never_empty Demo.host SdkClient
              (excelIndex Demo.host Demo.rows "Key")
              [("A001", Demo.mk_page "p1" "A001" 5)] inner
              [Demo.amount_mapping] Demo.schema true false)
    as [Hinv Htotal].
  destruct (Htotal eq_refl) as [plans Hplans].
  exists plans. destruct (Hinv plans Hplans) as [Hne Hboth].
  split; [assumption|]. split; [|assumption].
  destruct (Hboth "A001" Demo.row_A001 (Demo.mk_page "p1" "A001" 5)
              eq_refl eq_refl)
    as (changes & p & Hc & Hin & _ & ->).
  vm_compute in Hc. injection Hc as <-. exact Hin.
Defined.

(** C3.  A create plan is emitted only for a key that the spreadsheet index
    has and the record index lacks, only under a left or an outer join, and
    only when page creation is allowed.  When it is not allowed no create
    plan occurs under any join type, and every selected key that only the
    spreadsheet has yields a skip whose reason is the literal
    ["No matching Notion page"] (the code's wording of the reason).  The
    planner returns whenever the indexed pages are decodable. *)
Theorem C3_create_only_when_allowed
  (host : Host) (rev : revision)
  (eidx : JsMap ExcelRow) (nidx : JsMap NotionPage)
  (joinType : JoinType) (mappings : list Mapping)
  (dbProps : list NotionPropertyDef) (onlyUpdateEmpty allowCreatePages : bool) :
  (forall plans,
     buildPlannedUpdates host rev eidx nidx joinType mappings dbProps
       onlyUpdateEmpty allowCreatePages = Ok plans ->
     (forall key row changes,
        Create key row changes ∈ plans ->
        map_get eidx key = Some row /\ map_get nidx key = None
        /\ (joinType = left \/ joinType = outer)
        /\ allowCreatePages = true)
     /\ (allowCreatePages = false ->
         (forall p, p ∈ plans -> is_create p = false)
         /\ forall key row,
              key ∈ select_keys joinType eidx nidx ->
              map_get eidx key = Some row -> map_get nidx key = None ->
              Skip key (Some row) None "No matching Notion page" ∈ plans
              /\ forall q, q ∈ plans -> plan_key q = key ->
                           q = Skip key (Some row) None
                                 "No matching Notion page"))
  /\ (index_decodable host nidx = true ->
      exists plans,
        buildPlannedUpdates host rev eidx nidx joinType mappings dbProps
          onlyUpdateEmpty allowCreatePages = Ok plans).
Proof.
  split; [|apply buildPlannedUpdates_total].
  intros plans Hplans.
  destruct (buildPlannedUpdates_spec _ _ _ _ _ _ _ _ _ _ Hplans) as [_ Hall].
  assert (forall key row changes,
            Create key row changes ∈ plans ->
            map_get eidx key = Some row /\ map_get nidx key = None
            /\ (joinType = left \/ joinType = outer)
            /\ allowCreatePages = true) as Hcreate.
  { intros key row changes Hin.
    apply Hall, plans_for_key_cases in Hin. simpl in Hin.
    destruct (map_get eidx key) as [row'|];
      destruct (map_get nidx key) as [page'|].
    - destruct Hin as (changes' & _ & Heq).
      destruct changes'; discriminate.
    - destruct (creates joinType) eqn:Hj, allowCreatePages; simpl in Hin;
        try discriminate.
      injection Hin as -> _. repeat split.
      destruct joinType; try discriminate; tauto.
    - discriminate.
    - discriminate. }
  split; [exact Hcreate|].
  intros Hoff. split.
  - intros p Hp. destruct p as [| key row changes |]; try reflexivity.
    apply Hcreate in Hp as (_ & _ & _ & Hon). congruence.
  - intros key row Hsel He Hn.
    destruct (plan_of_selected_key _ _ _ _ _ _ _ _ _ _ _ Hplans Hsel)
      as (p & Hp & Hin & Huniq).
    apply plans_for_key_cases in Hp. rewrite He, Hn, Hoff in Hp.
    rewrite andb_false_r in Hp. injection Hp as ->.
    split; assumption.
Qed.

Lemma C3_create_only_when_allowed_witness :
  exists plans,
    buildPlannedUpdates Demo.host Backend
      (excelIndex Demo.host Demo.rows "Key")
      [("A001", Demo.mk_page "p1" "A001" 5)] left
      [Demo.amount_mapping] Demo.schema false false = Ok plans
    /\ Skip "X999" (Some Demo.row_X999) None "No matching Notion page" ∈ plans
    /\ forall p, p ∈ plans -> is_create p = false.
Proof.
  destruct (C3_create_only_when_allowed Demo.host Backend
              (excelIndex Demo.host Demo.rows "Key")
              [("A001", Demo.mk_page "p1" "A001" 5)] left
              [Demo.amount_mapping] Demo.schema false false)
    as [Hinv Htotal].
  destruct (Htotal eq_refl) as [plans Hplans].
  exists plans. destruct (Hinv plans Hplans) as [_ Hoff].
  destruct (Hoff eq_refl) as [Hnone Hskip].
  split; [assumption|]. split; [|assumption].
  apply (Hskip "X999" Demo.row_X999); [|reflexivity..].
  apply select_keys_elem. simpl. apply list_elem_of_In. vm_compute. tauto.
Defined.

(** ** The key indexes *)

Import IndexFacts.

Lemma notionIndex_get (host : Host) (pages : list NotionPage)
  (notionKey : string) (idx : JsMap NotionPage) (k : string) (pg : NotionPage) :
  notionKey <> "" ->
  notionIndex host pages notionKey = Ok idx ->
  map_get idx k = Some pg
  <-> k <> "" /\ last_with_key (page_key host notionKey) k pages pg.
Proof.
  intros Hkey Hidx.
  assert (Forall (key_decodes host notionKey) pages) as Hall.
  { unfold notionIndex in Hidx. apply String.eqb_neq in Hkey.
    rewrite Hkey in Hidx. eapply notionIndex_loop_inv, Hidx. }
  rewrite (notionIndex_build host pages notionKey Hkey Hall) in Hidx.
  injection Hidx as <-. apply build_get.
Qed.

(** C4.  On both sides the index maps a key to the last row, or record, of
    the sequence whose trimmed key it is, and holds nothing under the empty
    key: a row whose key trims to the empty string is not in the index.  The
    key column and the key property are taken to be configured (with an empty
    name the index is empty), and the record index is what [notionIndex]
    returns, which it does whenever the pages are decodable. *)
Theorem C4_index_last_write_wins
  (host : Host) (excelRows : list ExcelRow) (excelKey : string)
  (pages : list NotionPage) (notionKey : string) :
  (excelKey <> "" ->
   forall k row,
     map_get (excelIndex host excelRows excelKey) k = Some row
     <-> k <> "" /\ last_with_key (excel_key_of host excelKey) k excelRows row)
  /\ (notionKey <> "" ->
      (forall idx,
         notionIndex host pages notionKey = Ok idx ->
         forall k pg,
           map_get idx k = Some pg
           <-> k <> "" /\ last_with_key (page_key host notionKey) k pages pg)
      /\ (pages_decodable host pages = true ->
          exists idx, notionIndex host pages notionKey = Ok idx)).
Proof.
  split.
  - intros Hkey k row. rewrite excelIndex_build by assumption.
    apply build_get.
  - intros Hkey. split.
    + intros idx Hidx k pg. now apply notionIndex_get.
    + intros Hdec.
      destruct (notionIndex_decodable host pages notionKey Hdec)
        as (idx & Hidx & _).
      now exists idx.
Qed.

Lemma C4_index_last_write_wins_witness :
  map_get (excelIndex Demo.host Demo.twin_rows "Key") "A001"
  = Some [("Key", VStr " A001 "); ("Amount", VStr "2")]
  /\ exists idx,
       notionIndex Demo.host Demo.twin_pages "Key" = Ok idx
       /\ map_get idx "A001" = Some (Demo.mk_page "p2" "A001" 6).
Proof.
  destruct (C4_index_last_write_wins Demo.host Demo.twin_rows "Key"
              Demo.twin_pages "Key") as [Hexcel Hnotion].
  split.
  - apply Hexcel; [discriminate|]. split; [discriminate|].
    exists [[("Key", VStr "A001"); ("Amount", VStr "1")]],
      [[("Key", VStr "  "); ("Amount", VStr "3")]].
    repeat split. constructor; [discriminate | constructor].
  - destruct (Hnotion ltac:(discriminate)) as [Hget Htotal].
    destruct (Htotal eq_refl) as [idx Hidx]. exists idx.
    split; [assumption|]. apply (Hget idx Hidx). split; [discriminate|].
    exists [Demo.mk_page "p1" "A001" 5], []. repeat split. constructor.
Defined.

(** The claim C5 makes fails on two records with the same key: the index
    keeps the second, not the first. *)
Lemma C5_first_write_counterexample :
  notion_key_of Demo.host "Key" (Demo.mk_page "p1" "A001" 5) = Ok "A001"
  /\ notion_key_of Demo.host "Key" (Demo.mk_page "p2" "A001" 6) = Ok "A001"
  /\ notionIndex Demo.host
       [Demo.mk_page "p1" "A001" 5; Demo.mk_page "p2" "A001" 6] "Key"
     = Ok [("A001", Demo.mk_page "p2" "A001" 6)]
  /\ map_get [("A001", Demo.mk_page "p2" "A001" 6)] "A001"
     <> Some (Demo.mk_page "p1" "A001" 5).
Proof. repeat split. discriminate. Qed.

(** C5, as amended.  When several records have the same non-empty key, the
    record index keeps the last of them in sequence order: the first is kept
    only if it is also the last. *)
Theorem C5_record_index_keeps_last
  (host : Host) (pages : list NotionPage) (notionKey : string)
  (idx : JsMap NotionPage) (k : string) (first last : NotionPage) :
  notionKey <> "" -> k <> "" ->
  notionIndex host pages notionKey = Ok idx ->
  first_with_key (page_key host notionKey) k pages first ->
  last_with_key (page_key host notionKey) k pages last ->
  map_get idx k = Some last
  /\ (first <> last -> map_get idx k <> Some first).
Proof.
  intros Hkey Hk Hidx _ Hlast.
  assert (map_get idx k = Some last) as Hget.
  { apply (notionIndex_get host pages notionKey idx k last Hkey Hidx).
    now split. }
  split; [assumption|]. intros Hne. rewrite Hget. congruence.
Qed.

Lemma C5_record_index_keeps_last_witness :
  map_get [("A001", Demo.mk_page "p2" "A001" 6)] "A001"
  = Some (Demo.mk_page "p2" "A001" 6)
  /\ map_get [("A001", Demo.mk_page "p2" "A001" 6)] "A001"
     <> Some (Demo.mk_page "p1" "A001" 5).
Proof.
  assert (Demo.mk_page "p1" "A001" 5 <> Demo.mk_page "p2" "A001" 6) as Hne
    by discriminate.
  destruct (C5_record_index_keeps_last Demo.host Demo.twin_pages "Key"
              [("A001", Demo.mk_page "p2" "A001" 6)] "A001"
              (Demo.mk_page "p1" "A001" 5) (Demo.mk_page "p2" "A001" 6))
    as [Hget Hfirst].
  - discriminate.
  - discriminate.
  - reflexivity.
  - exists [], [Demo.mk_page "p2" "A001" 6]. repeat split. constructor.
  - exists [Demo.mk_page "p1" "A001" 5], []. repeat split. constructor.
  - split; [exact Hget | exact (Hfirst Hne)].
Defined.

(** ** Facts about the numbers *)

Module NumberFacts.
Import Js.
Import Executor.
Local Open Scope Z_scope.

Lemma digits2_iter_xO p k :
  digits2_pos (Pos.iter xO p k) = (digits2_pos p + k)%positive.
Proof.
  induction k using Pos.peano_ind.
  - simpl. lia.
  - rewrite Pos.iter_succ. simpl. rewrite IHk. lia.
Qed.

Lemma digits2_lower (p : positive) :
  (2 ^ (Z.pos (digits2_pos p) - 1) <= Z.pos p)%Z.
Proof.
  induction p as [p IH | p IH |]; simpl digits2_pos.
  - rewrite Pos2Z.inj_succ.
    replace (Z.succ (Z.pos (digits2_pos p)) - 1)%Z
      with (Z.succ (Z.pos (digits2_pos p) - 1))%Z by lia.
    rewrite Z.pow_succ_r by lia. lia.
  - rewrite Pos2Z.inj_succ.
    replace (Z.succ (Z.pos (digits2_pos p)) - 1)%Z
      with (Z.succ (Z.pos (digits2_pos p) - 1))%Z by lia.
    rewrite Z.pow_succ_r by lia. lia.
  - simpl. lia.
Qed.

Lemma round_aux_canonical (m : positive) (e : Z) :
  Z.pos (digits2_pos m) = 53%Z -> (-52 <= e <= 0)%Z ->
  binary_round_aux prec emax false (Z.pos m) e loc_Exact = S754_finite false m e.
Proof.
  intros Hd He. unfold binary_round_aux, shr_fexp. simpl Zdigits2. rewrite Hd.
  assert (fexp prec emax (53 + e) = e) as ->.
  { unfold fexp, emin, prec, emax. lia. }
  rewrite Z.sub_diag. simpl. rewrite Hd.
  assert (fexp prec emax (53 + e) = e) as ->.
  { unfold fexp, emin, prec, emax. lia. }
  rewrite Z.sub_diag. simpl.
  assert ((e <=? emax - prec)%Z = true) as ->.
  { apply Z.leb_le. unfold emax, prec. lia. }
  reflexivity.
Qed.

Lemma of_Z_small (p : positive) :
  (Z.pos p < 2 ^ 53)%Z ->
  exists m e, of_Z (Z.pos p) = S754_finite false m e.
Proof.
  intros Hp. unfold of_Z, binary_normalize, binary_round.
  assert (Z.pos (digits2_pos p) <= 53)%Z as Hd.
  { destruct (Z_le_gt_dec (Z.pos (digits2_pos p)) 53) as [H | H]; [exact H|].
    exfalso. pose proof (digits2_lower p) as Hl.
    assert (2 ^ 53 <= 2 ^ (Z.pos (digits2_pos p) - 1))%Z
      by (apply Z.pow_le_mono_r; lia).
    lia. }
  assert (fexp prec emax (Z.pos (digits2_pos p) + 0) = Z.pos (digits2_pos p) - 53)%Z as ->.
  { unfold fexp, emin, prec, emax. lia. }
  unfold shl_align.
  destruct (Z.pos (digits2_pos p) - 53 - 0)%Z as [|k|k] eqn:Hk.
  - eexists _, _. apply round_aux_canonical; lia.
  - lia.
  - eexists _, _. apply round_aux_canonical.
    + rewrite digits2_iter_xO. lia.
    + lia.
Qed.

Lemma div_self (s : bool) (m : positive) (e : Z) :
  div (S754_finite s m e) (S754_finite s m e) = one.
Proof.
  unfold div, SFdiv, SFdiv_core_binary.
  replace (Zdigits2 (Z.pos m) + e - (Zdigits2 (Z.pos m) + e))%Z with 0%Z by lia.
  rewrite Z.sub_diag.
  change (Z.min (fexp prec emax 0) 0) with (-53)%Z.
  change (0 - -53)%Z with 53%Z. cbv iota.
  rewrite Z.shiftl_mul_pow2 by lia.
  assert (Z.div_eucl (Z.pos m * 2 ^ 53) (Z.pos m) = (2 ^ 53, 0)%Z) as ->.
  { pose proof (Z.div_eucl_eq (Z.pos m * 2 ^ 53) (Z.pos m) ltac:(lia)) as Heq.
    pose proof (Z.mod_pos_bound (Z.pos m * 2 ^ 53) (Z.pos m) ltac:(lia)) as Hb.
    unfold Z.modulo in Hb.
    destruct (Z.div_eucl (Z.pos m * 2 ^ 53) (Z.pos m)) as [q r].
    assert (r = 0)%Z as ->.
    { assert (Z.pos m * (2 ^ 53 - q) = r)%Z as Hr by lia.
      destruct (Z.eq_dec (2 ^ 53 - q) 0) as [Hz | Hz]; [rewrite Hz in Hr; lia|].
      exfalso. nia. }
    f_equal. nia. }
  assert (new_location (Z.pos m) 0 = loc_Exact) as ->.
  { unfold new_location. destruct (Z.even _); reflexivity. }
  rewrite Bool.xorb_nilpotent. reflexivity.
Qed.

Lemma percent_full (n : nat) :
  (0 < n)%nat -> (Z.of_nat n < 2 ^ 53)%Z -> percent n n = hundred.
Proof.
  intros Hpos Hn. unfold percent, of_nat.
  destruct (Z.of_nat n) as [|p|p] eqn:E; [lia | | lia].
  destruct (of_Z_small p Hn) as (m & e & ->).
  rewrite div_self. reflexivity.
Qed.

End NumberFacts.

(** ** The dispatch loop *)

Module ExecutorFacts.
Import Js.
Import Executor.

Section Loop.
Variable host : Host.
Variable store : Store.
Variable databaseId : string.
Variable dbProps : list NotionPropertyDef.
Variable total : nat.

Let fn := run_plan host store databaseId dbProps total.

Lemma run_plan_fulfilled (plan : Plan) (st st' : ExecState) :
  fn plan st = (st', Fulfilled) ->
  completed st' = completed st + 1
  /\ progress st' = percent (completed st + 1) total.
Proof.
  unfold fn, run_plan, send.
  destruct plan as [key row page changes | key row changes | key row page why].
  - destruct (store _ _); [|discriminate]. now intros [= <-].
  - destruct (store _ _); [|discriminate]. now intros [= <-].
  - now intros [= <-].
Qed.

Lemma run_plan_skip (plan : Plan) (st : ExecState) :
  is_skip plan = true ->
  fn plan st
  = ({| completed := completed st + 1;
        progress := percent (completed st + 1) total;
        trace := trace st |}, Fulfilled).
Proof. destruct plan; try discriminate. reflexivity. Qed.

Lemma run_plan_accepted (plan : Plan) (st : ExecState) :
  (forall tr r, store tr r = true) -> snd (fn plan st) = Fulfilled.
Proof.
  intros Hstore. unfold fn, run_plan, send.
  destruct plan; rewrite ?Hstore; reflexivity.
Qed.

(** Every turn of the loop that returns counts its plan once. *)
Lemma pMapSerial_count (items : list Plan) (delayMs : nat)
  (st st' : ExecState) :
  pMapSerial fn items delayMs st = (st', Fulfilled) ->
  completed st' = completed st + List.length items
  /\ (items <> [] -> progress st' = percent (completed st') total).
Proof.
  revert st. induction items as [|item items IH]; intros st H; simpl in H.
  - injection H as <-. split; [simpl; lia | congruence].
  - destruct (fn item st) as [st1 [|]] eqn:Hfn; [|discriminate].
    apply run_plan_fulfilled in Hfn as [Hc Hp].
    destruct items as [|item' items].
    + rewrite andb_false_r in H. simpl in H. injection H as <-.
      split; [simpl; lia|]. intros _. now rewrite Hp, Hc.
    + apply IH in H as [Hc' Hp'].
      assert (completed st' = completed st1 + List.length (item' :: items))
        as Hcount.
      { rewrite Hc'. now destruct (_ && _). }
      split; [simpl in *; lia|]. intros _. apply Hp'. discriminate.
Qed.

Lemma pMapSerial_skips (items : list Plan) (delayMs : nat) (st : ExecState) :
  List.forallb is_skip items = true ->
  exists st',
    pMapSerial fn items delayMs st = (st', Fulfilled)
    /\ List.filter is_call (trace st') = List.filter is_call (trace st).
Proof.
  revert st. induction items as [|item items IH]; intros st Hall; simpl.
  - now exists st.
  - simpl in Hall. apply andb_true_iff in Hall as [Hitem Hall].
    rewrite (run_plan_skip item st Hitem).
    match goal with |- context [pMapSerial fn items delayMs ?s] =>
      destruct (IH s Hall) as (st' & Hrun & Htrace) end.
    exists st'. split; [exact Hrun|]. rewrite Htrace.
    destruct (_ && _); simpl; [|reflexivity].
    rewrite List.filter_app. simpl. apply List.app_nil_r.
Qed.

Lemma pMapSerial_accepted (items : list Plan) (delayMs : nat)
  (st : ExecState) :
  (forall tr r, store tr r = true) ->
  snd (pMapSerial fn items delayMs st) = Fulfilled.
Proof.
  intros Hstore. revert st.
  induction items as [|item items IH]; intros st; simpl; [reflexivity|].
  pose proof (run_plan_accepted item st Hstore) as Hok.
  destruct (fn item st) as [st1 o]. simpl in Hok. subst o. apply IH.
Qed.

End Loop.

End ExecutorFacts.

Import NumberFacts.
Import ExecutorFacts.

(** C10.  The dispatch loop counts every plan once, dispatched or not: when
    the loop runs to its end the completed count is the number of plans and
    the progress last reported is exactly 100.  It does run to its end when
    every plan is a skip, without sending any request, and whenever the
    record store fulfils the requests it gets.  (The number of plans is below
    [2^53], as the length of an array is.) *)
Theorem C10_progress_reaches_100
  (host : Host) (rev : revision) (store : Store) (databaseId : string)
  (dbProps : list NotionPropertyDef) (plans : list Plan) (st : ExecState) :
  plans <> [] ->
  (Z.of_nat (List.length plans) < 2 ^ 53)%Z ->
  let run := dispatch_plans host rev store databaseId dbProps plans st in
  (snd run = Fulfilled ->
   completed (fst run) = List.length plans /\ progress (fst run) = hundred)
  /\ (List.forallb is_skip plans = true ->
      snd run = Fulfilled
      /\ List.filter is_call (trace (fst run)) = List.filter is_call (trace st)
      /\ completed (fst run) = List.length plans
      /\ progress (fst run) = hundred)
  /\ ((forall tr r, store tr r = true) -> snd run = Fulfilled).
Proof.
  intros Hne Hlen run.
  assert (snd run = Fulfilled ->
          completed (fst run) = List.length plans
          /\ progress (fst run) = hundred) as Hend.
  { subst run. unfold dispatch_plans.
    match goal with |- context [pMapSerial ?f ?l ?d ?s] =>
      destruct (pMapSerial f l d s) as [st' o] eqn:Hrun end.
    simpl. intros ->.
    apply pMapSerial_count in Hrun as [Hc Hp]. simpl in Hc.
    split; [exact Hc|]. rewrite (Hp Hne), Hc. apply percent_full; [|exact Hlen].
    destruct plans; [congruence | simpl; lia]. }
  split; [exact Hend|]. split.
  - intros Hskips.
    assert (snd run = Fulfilled
            /\ List.filter is_call (trace (fst run))
               = List.filter is_call (trace st)) as [Hok Htrace].
    { subst run. unfold dispatch_plans.
      match goal with |- context [pMapSerial ?f ?l ?d ?s] =>
        destruct (pMapSerial_skips host store databaseId dbProps
                    (List.length plans) l d s Hskips)
          as (st' & -> & Htrace) end.
      split; [reflexivity | exact Htrace]. }
    destruct (Hend Hok) as [Hc Hp]. repeat split; assumption.
  - intros Hstore. subst run. unfold dispatch_plans.
    now apply pMapSerial_accepted.
Qed.

Lemma C10_progress_reaches_100_witness :
  let run :=
    dispatch_plans Demo.host Backend (fun _ _ => false) "db" Demo.schema
      [Skip "A001" None None "No changes computed";
       Skip "A002" None None "No matching Excel row"]
      {| completed := 0; progress := zero; trace := [] |} in
  snd run = Fulfilled
  /\ List.filter is_call (trace (fst run)) = []
  /\ completed (fst run) = 2
  /\ progress (fst run) = hundred.
Proof.
  apply (C10_progress_reaches_100 Demo.host Backend (fun _ _ => false) "db"
           Demo.schema
           [Skip "A001" None None "No changes computed";
            Skip "A002" None None "No matching Excel row"]
           {| completed := 0; progress := zero; trace := [] |}).
  - discriminate.
  - reflexivity.
  - reflexivity.
Defined.

(** ** The value codec *)

(** How [getNotionPropertyPlainValue] starts on an object that carries a
    string [type]: it reads the value stored under that type. *)
Lemma decode_typed (host : Host) (fields : list (string * value)) (t : string) :
  obj_get fields "type" = Some (VStr t) ->
  getNotionPropertyPlainValue host (VObj fields)
  = let v := of_option (obj_get fields t) in
    if nullish v then Ok VNull
    else if String.eqb t "title" then
      call_trim (coalesce (get_opt (get_opt v "0") "plain_text") (VStr ""))
    else if String.eqb t "rich_text" then
      call_trim (coalesce (get_opt (get_opt v "0") "plain_text") (VStr ""))
    else if String.eqb t "number" then
      Ok (match v with
          | VNum _ => v
          | _ => VNum (ToNumber host (coalesce v (VNum NaN)))
          end)
    else if String.eqb t "email" || String.eqb t "url"
            || String.eqb t "phone_number" then
      Ok (coalesce v VNull)
    else if String.eqb t "select" then
      Ok (coalesce (get_opt v "name") VNull)
    else if String.eqb t "multi_select" then
      Ok (match v with
          | VArr items =>
              VStr (join_values host ", "
                      (filter_truthy
                         (List.map (fun x => get_opt x "name") items)))
          | _ => VNull
          end)
    else if String.eqb t "date" then
      Ok (coalesce (get_opt v "start") VNull)
    else if String.eqb t "checkbox" then
      Ok (VStr (if truthy v then "true" else "false"))
    else if String.eqb t "status" then
      Ok (coalesce (get_opt v "name") VNull)
    else Ok VNull.
Proof.
  intros Htype. unfold getNotionPropertyPlainValue, get_computed.
  cbn [truthy negb]. cbv iota.
  change (get (VObj fields) "type") with (of_option (obj_get fields "type")).
  rewrite Htype. cbn [of_option ToString is_str].
  change (get (VObj fields) t) with (of_option (obj_get fields t)).
  reflexivity.
Qed.

(** On an empty list of text runs the plain value is the empty string, not
    [null]: the claim C8 makes fails there. *)
Lemma C8_empty_runs_counterexample :
  getNotionPropertyPlainValue Demo.host
    (VObj [("type", VStr "rich_text"); ("rich_text", VArr [])])
  = Ok (VStr "")
  /\ VStr "" <> VNull.
Proof. split; [reflexivity | discriminate]. Qed.

(** C8, as amended.  For a property of type title or rich_text, the plain
    value is the plain text of the first text run, trimmed; it is [null] when
    the list of text runs is absent, and the empty string when the list is
    empty or its first run carries no plain text. *)
Theorem C8_text_plain_value
  (host : Host) (fields : list (string * value)) (t : string) :
  t = "title" \/ t = "rich_text" ->
  obj_get fields "type" = Some (VStr t) ->
  match of_option (obj_get fields t) with
  | VUndefined | VNull =>
      getNotionPropertyPlainValue host (VObj fields) = Ok VNull
  | VArr [] =>
      getNotionPropertyPlainValue host (VObj fields) = Ok (VStr "")
  | VArr (run :: _) =>
      (forall s,
         get_opt run "plain_text" = VStr s ->
         getNotionPropertyPlainValue host (VObj fields)
         = Ok (VStr (JsString.trim s)))
      /\ (nullish (get_opt run "plain_text") = true ->
          getNotionPropertyPlainValue host (VObj fields) = Ok (VStr ""))
  | _ => True
  end.
Proof.
  intros Ht Htype. rewrite (decode_typed host fields t Htype). cbv zeta.
  destruct (of_option (obj_get fields t)) as [| | b | n | s | items | fs];
    try exact I; try reflexivity.
  destruct items as [|run items].
  - destruct Ht as [-> | ->]; reflexivity.
  - assert (get_opt (VArr (run :: items)) "0" = run) as Hrun by reflexivity.
    split.
    + intros s Hs. destruct Ht as [-> | ->]; simpl nullish; cbv iota;
        simpl String.eqb; cbv iota; rewrite Hrun, Hs; reflexivity.
    + intros Hnull. destruct Ht as [-> | ->]; simpl nullish; cbv iota;
        simpl String.eqb; cbv iota; rewrite Hrun; unfold coalesce;
        rewrite Hnull; reflexivity.
Qed.

Lemma C8_text_plain_value_witness :
  getNotionPropertyPlainValue Demo.host (Demo.text_prop "title" "  A001 ")
  = Ok (VStr "A001").
Proof.
  pose proof (C8_text_plain_value Demo.host
                [("type", VStr "title");
                 ("title",
                  VArr [VObj [("type", VStr "text");
                              ("text", VObj [("content", VStr "  A001 ")]);
                              ("plain_text", VStr "  A001 ")]])]
                "title" (or_introl eq_refl) eq_refl) as H.
  cbn [of_option obj_get String.eqb Ascii.eqb Bool.eqb] in H.
  destruct H as [H _]. exact (H "  A001 " eq_refl).
Defined.

Lemma obj_get_insert_index {A : Type} (o : obj A) (i : nat) (k : string)
  (v : A) :
  obj_get o k = None -> obj_get (obj_insert_index o i k v) k = Some v.
Proof.
  induction o as [|[k' v'] o IH]; simpl; intros Hnone.
  - now rewrite String.eqb_refl.
  - destruct (String.eqb k' k) eqn:E; [discriminate|].
    destruct (JsString.array_index k') as [j|].
    + destruct (i <? j)%nat; simpl.
      * now rewrite String.eqb_refl.
      * rewrite E. now apply IH.
    + simpl. now rewrite String.eqb_refl.
Qed.

(** A property reads back what was last written to it. *)
Lemma obj_get_set_eq {A : Type} (o : obj A) (k : string) (v : A) :
  obj_get (obj_set o k v) k = Some v.
Proof.
  unfold obj_set. destruct (obj_has o k) eqn:E.
  - now apply obj_get_replace_eq.
  - assert (obj_get o k = None) as Hnone.
    { unfold obj_has in E. now destruct (obj_get o k). }
    destruct (JsString.array_index k) as [i|].
    + now apply obj_get_insert_index.
    + rewrite obj_get_app, Hnone. simpl. now rewrite String.eqb_refl.
Qed.


Lemma join_option_names (host : Host) (names : list string) :
  join_values host ", "
    (filter_truthy
       (List.map (fun x => get_opt x "name") (List.map name_obj names)))
  = JsString.join ", " (List.filter non_empty names).
Proof.
  rewrite List.map_map.
  assert (forall l,
            join_values host ", " (List.map VStr l) = JsString.join ", " l)
    as Hjoin.
  { unfold join_values. intros l. rewrite List.map_map. simpl.
    now rewrite List.map_id. }
  rewrite <- Hjoin. f_equal. unfold filter_truthy.
  induction names as [|nm names IH]; [reflexivity|].
  simpl List.map. simpl List.filter. unfold non_empty at 1.
  change (get_opt (name_obj nm) "name") with (VStr nm). simpl truthy.
  destruct (negb (String.eqb nm "")); simpl; now rewrite IH.
Qed.

(** Whatever was encoded, the typed value has no [type] tag, and its plain
    value is [null]. *)
Lemma decode_untagged (host : Host) (p : payload) :
  getNotionPropertyPlainValue host (to_json p) = Ok VNull.
Proof. destruct p as [| | | | | | [nm|] | | | |]; reflexivity. Qed.

Lemma decode_tagged (host : Host) (p : payload) :
  getNotionPropertyPlainValue host (tagged p) = Ok (plain_of p).
Proof.
  destruct p as [c | c | n | s | s | s | [nm|] | names | start | b | nm];
    try reflexivity.
  - unfold tagged, to_json, payload_type.
    rewrite (decode_typed host _ "multi_select") by reflexivity.
    cbn [obj_get of_option String.eqb Ascii.eqb Bool.eqb nullish orb].
    cbv iota. now rewrite join_option_names.
Qed.

(** The round trip the claim C6 states fails: decoding what was encoded
    yields [null], for a select name and for a number alike. *)
Lemma C6_round_trip_counterexample :
  buildNotionPropertyValue Demo.host "select" (VStr "Done")
  = Some (PSelect (Some "Done"))
  /\ getNotionPropertyPlainValue Demo.host (to_json (PSelect (Some "Done")))
     = Ok VNull
  /\ VNull <> VStr "Done"
  /\ buildNotionPropertyValue Demo.host "number" (VStr "10")
     = Some (PNumber (of_Z 10))
  /\ getNotionPropertyPlainValue Demo.host (to_json (PNumber (of_Z 10)))
     = Ok VNull
  /\ VNull <> VNum (of_Z 10).
Proof. repeat split; discriminate. Qed.

(** Case analysis on the target type, following the chain of comparisons of
    [buildNotionPropertyValue]. *)
Ltac case_target_type t :=
  repeat match goal with
         | H : context [String.eqb t ?lit] |- _ =>
             destruct (String.eqb_spec t lit) as [-> | ?];
             cbn [String.eqb Ascii.eqb Bool.eqb] in H
         end.

Ltac close_other_types :=
  repeat match goal with
         | |- _ /\ _ => split
         | |- _ -> _ => intros
         | H : _ \/ _ |- _ => destruct H
         | H : ?a = ?b |- _ => first [discriminate H | contradiction]
         end.

(** C6, as amended.  Decoding what was encoded does not give the original
    value back: the typed value [buildNotionPropertyValue] builds carries no
    [type] tag, and its plain value is [null].  Once it carries the tag (as
    when the record store returns it), the plain value is: the encoded
    number for number; [String(value)] for email, url, phone_number and
    status, and for select unless the value is the empty string (then
    [null]); "true" or "false" as encoded for checkbox; the encoded calendar
    date for date; the non-empty option names joined by ", " for
    multi_select; and the empty string for title and rich_text, whose
    encoded text run carries no [plain_text]. *)
Theorem C6_decode_of_encoded
  (host : Host) (t : string) (value : Js.value) (p : payload) :
  buildNotionPropertyValue host t value = Some p ->
  getNotionPropertyPlainValue host (to_json p) = Ok VNull
  /\ getNotionPropertyPlainValue host (tagged p) = Ok (plain_of p)
  /\ (t = "number" -> plain_of p = VNum (ToNumber host value))
  /\ (t = "email" \/ t = "url" \/ t = "phone_number" \/ t = "status" ->
      plain_of p = VStr (ToString host value))
  /\ (t = "select" ->
      plain_of p
      = if is_str value "" then VNull else VStr (ToString host value))
  /\ (t = "checkbox" -> plain_of p = VStr (bool_to_string (in_truthy_list value)))
  /\ (t = "date" ->
      exists iso,
        DateToISOString host value = Some iso
        /\ plain_of p = VStr (JsString.slice0 10 iso))
  /\ (t = "multi_select" ->
      exists names,
        p = PMultiSelect names
        /\ plain_of p = VStr (JsString.join ", " (List.filter non_empty names)))
  /\ (t = "title" \/ t = "rich_text" -> plain_of p = VStr "").
Proof.
  intros H. split; [apply decode_untagged|]. split; [apply decode_tagged|].
  unfold buildNotionPropertyValue, buildNotionPropertyValue_opt in H.
  destruct (nullish value) eqn:Hnull; [discriminate|].
  case_target_type t.
  - injection H as <-. close_other_types. reflexivity.
  - injection H as <-. close_other_types. reflexivity.
  - destruct (isFinite (ToNumber host value)); [|discriminate].
    injection H as <-. close_other_types. reflexivity.
  - injection H as <-. close_other_types. reflexivity.
  - injection H as <-. close_other_types. reflexivity.
  - injection H as <-. close_other_types. reflexivity.
  - injection H as <-. close_other_types.
    rewrite orb_false_r. now destruct (is_str value "").
  - assert (exists names, p = PMultiSelect names) as [names ->].
    { destruct value; try destruct createMultiFromCSV;
        injection H as <-; eauto. }
    close_other_types. now exists names.
  - destruct (DateToISOString host value) as [iso|]; [|discriminate].
    injection H as <-. close_other_types. now exists iso.
  - destruct (in_truthy_list value) eqn:Ht.
    + injection H as <-. close_other_types. reflexivity.
    + destruct (in_falsy_list value); [|discriminate].
      injection H as <-. close_other_types. reflexivity.
  - injection H as <-. close_other_types. reflexivity.
  - injection H as <-. close_other_types.
Qed.

Lemma C6_decode_of_encoded_witness :
  getNotionPropertyPlainValue Demo.host (to_json (PSelect (Some "Done")))
  = Ok VNull
  /\ getNotionPropertyPlainValue Demo.host (tagged (PSelect (Some "Done")))
     = Ok (VStr "Done").
Proof.
  destruct (C6_decode_of_encoded Demo.host "select" (VStr "Done")
              (PSelect (Some "Done")) eq_refl)
    as (Hraw & Htagged & _).
  split; [exact Hraw | exact Htagged].
Defined.

(** ** The option reconciler *)

Module ReconcilerFacts.
Import Js.
Import CollectionFacts.
Import Executor.

Lemma set_has_ext (s1 s2 : StrSet) :
  (forall y, y ∈ s1 <-> y ∈ s2) -> forall y, set_has s1 y = set_has s2 y.
Proof.
  intros H y. destruct (set_has s1 y) eqn:E1, (set_has s2 y) eqn:E2;
    try reflexivity.
  - apply set_has_true, H, set_has_true in E1. congruence.
  - apply set_has_true, H, set_has_true in E2. congruence.
Qed.

Lemma first_seen_from_ext (s1 s2 : StrSet) (l : list string) :
  (forall y, y ∈ s1 <-> y ∈ s2) ->
  first_seen_from s1 l = first_seen_from s2 l.
Proof.
  revert s1 s2. induction l as [|x l IH]; intros s1 s2 H; simpl.
  - reflexivity.
  - rewrite (set_has_ext s1 s2 H x). destruct (set_has s2 x).
    + now apply IH.
    + f_equal. apply IH. intros y. rewrite !elem_of_cons, H. tauto.
Qed.

(** The set built by [add] from a sequence lists its elements in first-seen
    order. *)
Lemma fold_set_add_first_seen (l : list string) (acc : StrSet) :
  List.fold_left set_add l acc = acc ++ first_seen_from acc l.
Proof.
  revert acc. induction l as [|x l IH]; intros acc; simpl.
  - now rewrite List.app_nil_r.
  - rewrite IH. unfold set_add. destruct (set_has acc x); [reflexivity|].
    rewrite <- List.app_assoc. simpl. do 2 f_equal.
    apply first_seen_from_ext. intros y.
    rewrite elem_of_app, list_elem_of_singleton, elem_of_cons. tauto.
Qed.

Lemma set_of_list_first_seen (l : list string) : set_of_list l = first_seen l.
Proof. unfold set_of_list. now rewrite fold_set_add_first_seen. Qed.

Lemma names_to_add_missing (opts : list SelectOption) (asked : list string) :
  names_to_add opts (set_of_list asked) = missing_names opts asked.
Proof.
  unfold names_to_add, missing_names. rewrite (set_of_list_first_seen asked).
  apply List.filter_ext. intros nm. f_equal. apply set_has_ext.
  intros y. apply set_of_list_elem.
Qed.

(** *** The groups *)

Section Groups.

Let group_step (grouped : JsMap (NotionPropertyDef * StrSet)) (n : Needed)
  : JsMap (NotionPropertyDef * StrSet) :=
  let g := match map_get grouped (name (prop n)) with
           | Some g => g
           | None => (prop n, [])
           end in
  map_set grouped (name (prop n)) (fst g, set_add (snd g) (needed_name n)).

Lemma group_fold_get (needed : list Needed)
  (acc : JsMap (NotionPropertyDef * StrSet)) (k : string) :
  map_get (List.fold_left group_step needed acc) k
  = match map_get acc k with
    | Some (p, s) =>
        Some (p, List.fold_left set_add (names_for k needed) s)
    | None =>
        option_map
          (fun n0 => (prop n0, List.fold_left set_add (names_for k needed) []))
          (List.find (fun n => String.eqb (name (prop n)) k) needed)
    end.
Proof.
  revert acc. induction needed as [|n needed IH]; intros acc.
  - simpl. destruct (map_get acc k) as [[p s]|]; reflexivity.
  - simpl List.fold_left. rewrite IH. unfold group_step.
    unfold names_for. simpl List.filter. simpl List.find.
    destruct (String.eqb_spec (name (prop n)) k) as [<- | Hne].
    + rewrite map_get_set_eq. simpl fst. simpl snd.
      destruct (map_get acc (name (prop n))) as [[p s]|]; reflexivity.
    + rewrite map_get_set_ne by assumption.
      destruct (map_get acc k) as [[p s]|]; reflexivity.
Qed.

Lemma group_needed_get (needed : list Needed) (k : string) :
  map_get (group_needed needed) k
  = option_map (fun n0 => (prop n0, set_of_list (names_for k needed)))
      (List.find (fun n => String.eqb (name (prop n)) k) needed).
Proof. apply (group_fold_get needed map_empty k). Qed.

Lemma group_needed_NoDup (needed : list Needed) :
  NoDup (map_keys (group_needed needed)).
Proof.
  unfold group_needed.
  change (NoDup (map_keys (List.fold_left group_step needed map_empty))).
  assert (forall acc : JsMap (NotionPropertyDef * StrSet),
            NoDup (map_keys acc) ->
            NoDup (map_keys (List.fold_left group_step needed acc))) as Hgen.
  { induction needed as [|n needed IH]; intros acc Hacc; simpl.
    - exact Hacc.
    - apply IH. unfold group_step. now apply map_set_NoDup. }
  apply Hgen, NoDup_nil_2.
Qed.

End Groups.

End ReconcilerFacts.

Module ObjectFacts.
Import Js.
Import CollectionFacts.

Section Objects.
Context {A : Type}.
Implicit Types (o : obj A) (k : string) (v : A).

Lemma elem_obj_get o k v :
  NoDup (obj_keys o) -> (k, v) ∈ o -> obj_get o k = Some v.
Proof.
  induction o as [|[k' v'] o IH]; intros Hnd Hin; [inversion Hin|].
  simpl in Hnd. apply NoDup_cons in Hnd as [Hk' Hnd].
  apply elem_of_cons in Hin as [[= -> ->] | Hin]; simpl.
  - now rewrite String.eqb_refl.
  - destruct (String.eqb_spec k' k) as [-> | Hne]; [|now apply IH].
    exfalso. apply Hk'. eapply elem_keys, Hin.
Qed.

Lemma obj_get_None_nil o : (forall k, obj_get o k = None) -> o = [].
Proof.
  destruct o as [|[k v] o]; [reflexivity|]. intros H. specialize (H k).
  simpl in H. rewrite String.eqb_refl in H. discriminate.
Qed.

Lemma obj_insert_index_split o (i : nat) k v :
  exists l1 l2, o = l1 ++ l2 /\ obj_insert_index o i k v = l1 ++ (k, v) :: l2.
Proof.
  induction o as [|[k' v'] o IH]; simpl.
  - now exists [], [].
  - destruct (JsString.array_index k') as [j|].
    + destruct (i <? j)%nat.
      * now exists [], ((k', v') :: o).
      * destruct IH as (l1 & l2 & -> & ->).
        now exists ((k', v') :: l1), l2.
    + now exists [], ((k', v') :: o).
Qed.

Lemma obj_get_middle (l1 l2 : obj A) k k' v :
  k <> k' -> obj_get (l1 ++ (k, v) :: l2) k' = obj_get (l1 ++ l2) k'.
Proof.
  intros Hne. rewrite !obj_get_app. simpl.
  destruct (String.eqb_spec k k') as [-> | _]; [contradiction | reflexivity].
Qed.

(** Writing a property leaves the others as they are. *)
Lemma obj_get_set_ne o k k' v :
  k <> k' -> obj_get (obj_set o k v) k' = obj_get o k'.
Proof.
  intros Hne. unfold obj_set. destruct (obj_has o k).
  - now apply obj_get_replace_ne.
  - destruct (JsString.array_index k) as [i|].
    + destruct (obj_insert_index_split o i k v) as (l1 & l2 & -> & ->).
      now apply obj_get_middle.
    + rewrite obj_get_app. destruct (obj_get o k'); [reflexivity|]. simpl.
      destruct (String.eqb_spec k k') as [-> | _];
        [contradiction | reflexivity].
Qed.

Lemma obj_set_NoDup o k v : NoDup (obj_keys o) -> NoDup (obj_keys (obj_set o k v)).
Proof.
  intros Hnd. unfold obj_set. destruct (obj_has o k) eqn:E.
  - change (NoDup (map_keys (obj_replace o k v))).
    now rewrite obj_replace_keys.
  - assert (k ∉ obj_keys o) as Hk.
    { intros Hin. apply map_has_keys in Hin. unfold map_has in Hin.
      congruence. }
    destruct (JsString.array_index k) as [i|].
    + destruct (obj_insert_index_split o i k v) as (l1 & l2 & -> & ->).
      unfold obj_keys in *. rewrite List.map_app in *. simpl.
      apply NoDup_app in Hnd as (H1 & H12 & H2).
      rewrite elem_of_app in Hk.
      apply NoDup_app. repeat split; [assumption | |].
      * intros x Hx Hx'. apply elem_of_cons in Hx' as [-> | Hx'];
          [tauto | now apply (H12 x)].
      * apply NoDup_cons. split; [tauto | assumption].
    + unfold obj_keys in *. rewrite List.map_app. simpl.
      apply NoDup_app. repeat split; [assumption | | apply NoDup_singleton].
      intros x Hx Hx'. apply list_elem_of_singleton in Hx'. now subst.
Qed.

End Objects.

End ObjectFacts.

Module PatchFacts.
Import Js.
Import CollectionFacts.
Import ObjectFacts.
Import ReconcilerFacts.
Import Executor.

Lemma filter_none {A : Type} (f : A -> bool) (l : list A) :
  (forall x, x ∈ l -> f x = false) -> List.filter f l = [].
Proof.
  induction l as [|x l IH]; intros H; simpl; [reflexivity|].
  rewrite (H x (list_elem_of_here _ _)). apply IH.
  intros y Hy. apply H. now apply list_elem_of_further.
Qed.

Lemma first_seen_from_elem (seen l : list string) (x : string) :
  x ∈ first_seen_from seen l -> x ∈ l.
Proof.
  revert seen. induction l as [|y l IH]; intros seen; simpl.
  - intros H. inversion H.
  - destruct (set_has seen y).
    + intros H. apply list_elem_of_further. eapply IH, H.
    + intros H. apply elem_of_cons in H as [-> | H].
      * apply list_elem_of_here.
      * apply list_elem_of_further. eapply IH, H.
Qed.

(** Nothing is missing when every name asked for is an option. *)
Lemma missing_names_none (opts : list SelectOption) (asked : list string) :
  (forall nm, nm ∈ asked -> nm ∈ List.map option_name opts) ->
  missing_names opts asked = [].
Proof.
  intros H. unfold missing_names. apply filter_none. intros nm Hnm.
  apply first_seen_from_elem, H, set_has_true in Hnm. now rewrite Hnm.
Qed.

Lemma names_for_elem (pname : string) (needed : list Needed) (nm : string) :
  nm ∈ names_for pname needed ->
  exists n, n ∈ needed /\ name (prop n) = pname /\ needed_name n = nm.
Proof.
  unfold names_for. intros H. apply list_elem_of_In, List.in_map_iff in H.
  destruct H as (n & Hnm & Hn). apply List.filter_In in Hn as [Hn Hp].
  exists n. repeat split;
    [now apply list_elem_of_In | now apply String.eqb_eq | assumption].
Qed.

Section Patch.

Let patch_step (updateProps : obj SchemaPatch)
  (entry : string * (NotionPropertyDef * StrSet)) : obj SchemaPatch :=
  let '(_, (p, names)) := entry in
  let toAdd := names_to_add (options_or_empty (Some p)) names in
  if (0 <? List.length toAdd)%nat then
    let current := options_or_empty (Some p) in
    obj_set updateProps (name p)
      {| patch_type := type p;
         patch_options := current ++ List.map new_option toAdd |}
  else updateProps.

Lemma patch_fold_get (grouped : JsMap (NotionPropertyDef * StrSet))
  (acc : obj SchemaPatch) (pname : string) :
  NoDup (map_keys grouped) ->
  (forall k p names, (k, (p, names)) ∈ grouped -> name p = k) ->
  obj_get (List.fold_left patch_step grouped acc) pname
  = match map_get grouped pname with
    | Some (p, names) =>
        let toAdd := names_to_add (options_or_empty (Some p)) names in
        if (0 <? List.length toAdd)%nat
        then Some {| patch_type := type p;
                     patch_options :=
                       options_or_empty (Some p) ++ List.map new_option toAdd |}
        else obj_get acc pname
    | None => obj_get acc pname
    end.
Proof.
  revert acc.
  induction grouped as [|[k [p names]] grouped IH]; intros acc Hnd Hkeys.
  - reflexivity.
  - simpl in Hnd. apply NoDup_cons in Hnd as [Hk Hnd].
    assert (name p = k) as Hp by (eapply Hkeys, list_elem_of_here).
    cbn [List.fold_left]. rewrite IH; [|assumption|].
    2: { intros k' p' names' Hin. eapply Hkeys, list_elem_of_further, Hin. }
    unfold map_get at 2. cbn [obj_get].
    destruct (String.eqb_spec k pname) as [<- | Hne].
    + apply map_get_None in Hk. rewrite Hk. unfold patch_step. cbv zeta.
      destruct (0 <? _)%nat; [|reflexivity].
      rewrite Hp. apply obj_get_set_eq.
    + assert (obj_get (patch_step acc (k, (p, names))) pname
              = obj_get acc pname) as ->.
      { unfold patch_step. cbv zeta. destruct (0 <? _)%nat; [|reflexivity].
        rewrite Hp. now apply obj_get_set_ne. }
      reflexivity.
Qed.

Lemma patch_fold_NoDup (grouped : JsMap (NotionPropertyDef * StrSet))
  (acc : obj SchemaPatch) :
  NoDup (obj_keys acc) ->
  NoDup (obj_keys (List.fold_left patch_step grouped acc)).
Proof.
  revert acc. induction grouped as [|[k [p names]] grouped IH];
    intros acc Hacc; simpl; [assumption|].
  apply IH. unfold patch_step. cbv zeta.
  destruct (0 <? _)%nat; [now apply obj_set_NoDup | assumption].
Qed.

Lemma group_needed_names (needed : list Needed) (k : string)
  (p : NotionPropertyDef) (names : StrSet) :
  (k, (p, names)) ∈ group_needed needed ->
  exists n0,
    n0 ∈ needed /\ name (prop n0) = k /\ p = prop n0
    /\ names = set_of_list (names_for k needed).
Proof.
  intros Hin.
  apply (elem_obj_get _ _ _ (group_needed_NoDup needed)) in Hin.
  change (map_get (group_needed needed) k = Some (p, names)) in Hin.
  rewrite group_needed_get in Hin.
  destruct (List.find _ needed) as [n0|] eqn:Hfind; [|discriminate].
  injection Hin as <- <-. apply List.find_some in Hfind as [Hn0 Hk].
  exists n0. repeat split;
    [now apply list_elem_of_In | now apply String.eqb_eq].
Qed.

(** What the patch holds for a property, by the entries of [needed]. *)
Lemma build_update_props_get (needed : list Needed) (pname : string) :
  obj_get (build_update_props (group_needed needed)) pname
  = match List.find (fun n => String.eqb (name (prop n)) pname) needed with
    | Some n0 =>
        let opts := options_or_empty (Some (prop n0)) in
        let missing := missing_names opts (names_for pname needed) in
        if (0 <? List.length missing)%nat
        then Some {| patch_type := type (prop n0);
                     patch_options := opts ++ List.map new_option missing |}
        else None
    | None => None
    end.
Proof.
  unfold build_update_props.
  change (obj_get (List.fold_left patch_step (group_needed needed) []) pname
          = match List.find (fun n => String.eqb (name (prop n)) pname) needed
            with
            | Some n0 =>
                let opts := options_or_empty (Some (prop n0)) in
                let missing := missing_names opts (names_for pname needed) in
                if (0 <? List.length missing)%nat
                then Some {| patch_type := type (prop n0);
                             patch_options :=
                               opts ++ List.map new_option missing |}
                else None
            | None => None
            end).
  rewrite patch_fold_get.
  - rewrite group_needed_get.
    destruct (List.find _ needed) as [n0|]; [|reflexivity].
    cbn [option_map]. cbv beta iota zeta.
    now rewrite names_to_add_missing.
  - apply group_needed_NoDup.
  - intros k p names Hin.
    apply group_needed_names in Hin as (n0 & _ & Hk & -> & _). exact Hk.
Qed.

Lemma build_update_props_NoDup (needed : list Needed) :
  NoDup (obj_keys (build_update_props (group_needed needed))).
Proof.
  unfold build_update_props.
  change (NoDup (obj_keys (List.fold_left patch_step (group_needed needed) []))).
  apply patch_fold_NoDup, NoDup_nil_2.
Qed.

End Patch.

End PatchFacts.

Module NeededFacts.
Import Js.
Import CollectionFacts.
Import Executor.

Lemma selectedDbPropDefs_name (dbProps : list NotionPropertyDef) (n : string)
  (def : NotionPropertyDef) :
  map_get (selectedDbPropDefs dbProps) n = Some def -> name def = n.
Proof.
  unfold selectedDbPropDefs.
  induction dbProps as [|p dbProps IH] using List.rev_ind.
  - discriminate.
  - rewrite List.fold_left_app. simpl.
    destruct (String.eqb_spec (name p) n) as [<- | Hne].
    + rewrite map_get_set_eq. now intros [= <-].
    + rewrite map_get_set_ne by assumption. exact IH.
Qed.

(** A definition is found under its own name. *)
Lemma find_def_name (rev : revision) (dbProps : list NotionPropertyDef)
  (n : string) (def : NotionPropertyDef) :
  find_def rev dbProps n = Some def -> name def = n.
Proof.
  destruct rev; simpl.
  - apply selectedDbPropDefs_name.
  - intros H. apply List.find_some in H as [_ H]. now apply String.eqb_eq.
Qed.

Lemma needed_of_value_elem (def : NotionPropertyDef) (val : payload)
  (n : Needed) :
  n ∈ needed_of_value def val ->
  prop n = def /\ is_enumerated (type def) = true
  /\ needed_name n ∈ payload_names val.
Proof.
  unfold needed_of_value, is_enumerated. rewrite !elem_of_app.
  intros [H | [H | H]].
  - destruct (String.eqb (type def) "select"); [|inversion H].
    destruct val as [| | | | | | [nm|] | | | |]; try (inversion H; fail).
    destruct (negb (String.eqb nm "")); [|inversion H].
    apply list_elem_of_singleton in H. subst n. simpl.
    repeat split. apply list_elem_of_here.
  - destruct (String.eqb (type def) "multi_select"); [|inversion H].
    destruct val; try (inversion H; fail).
    apply list_elem_of_In, List.in_map_iff in H as (nm & <- & Hnm). simpl.
    repeat split; [|now apply list_elem_of_In].
    destruct (String.eqb (type def) "select"); reflexivity.
  - destruct (String.eqb (type def) "status"); [|inversion H].
    destruct val as [| | | | | | | | | | nm]; try (inversion H; fail).
    destruct (negb (String.eqb nm "")); [|inversion H].
    apply list_elem_of_singleton in H. subst n. simpl.
    repeat split; [|apply list_elem_of_here].
    destruct (String.eqb (type def) "select"),
      (String.eqb (type def) "multi_select"); reflexivity.
Qed.

(** Where an entry of [needed] comes from. *)
Lemma collect_needed_elem (rev : revision) (dbProps : list NotionPropertyDef)
  (plans : list Plan) (n : Needed) :
  n ∈ collect_needed rev dbProps plans ->
  exists plan changes propName val,
    plan ∈ plans
    /\ plan_changes plan = Some changes
    /\ (propName, val) ∈ changes
    /\ find_def rev dbProps propName = Some (prop n)
    /\ name (prop n) = propName
    /\ is_enumerated (type (prop n)) = true
    /\ needed_name n ∈ payload_names val.
Proof.
  unfold collect_needed. intros H.
  apply list_elem_of_In, List.in_flat_map in H as (plan & Hplan & H).
  destruct (plan_changes plan) as [changes|] eqn:Hc; [|destruct H].
  apply List.in_flat_map in H as ([propName val] & Hentry & H).
  destruct (find_def rev dbProps propName) as [def|] eqn:Hdef; [|destruct H].
  apply list_elem_of_In, needed_of_value_elem in H as (<- & Henum & Hnm).
  exists plan, changes, propName, val.
  repeat split; try assumption; try now apply list_elem_of_In.
  eapply find_def_name, Hdef.
Qed.

End NeededFacts.

Import ObjectFacts.
Import ReconcilerFacts.
Import PatchFacts.
Import NeededFacts.

(** The entries of [needed] under one property name carry the definition the
    schema has under that name. *)
Lemma collect_needed_first (rev : revision) (dbProps : list NotionPropertyDef)
  (plans : list Plan) (pname : string) (n0 : Needed) :
  List.find (fun n => String.eqb (name (prop n)) pname)
    (collect_needed rev dbProps plans) = Some n0 ->
  find_def rev dbProps pname = Some (prop n0).
Proof.
  intros H. apply List.find_some in H as [Hin Hname].
  apply String.eqb_eq in Hname.
  apply list_elem_of_In, collect_needed_elem in Hin
    as (_ & _ & propName & _ & _ & _ & _ & Hdef & Hn & _).
  congruence.
Qed.

(** *** What the scan collects is what the plans refer to *)

Lemma needed_of_value_names (def : NotionPropertyDef) (val : payload) :
  List.map needed_name (needed_of_value def val)
  = referred_names (type def) val
  /\ Forall (fun n => prop n = def) (needed_of_value def val).
Proof.
  split.
  - unfold needed_of_value, referred_names, non_empty.
    destruct (String.eqb (type def) "select"),
      (String.eqb (type def) "multi_select"),
      (String.eqb (type def) "status");
      destruct val as [| | | | | | [nm|] | names | | | nm]; simpl;
      rewrite ?List.app_nil_r, ?List.map_map; simpl; rewrite ?List.map_id;
      try reflexivity;
      destruct (negb (String.eqb nm "")); reflexivity.
  - apply Forall_forall. intros n Hn.
    now apply needed_of_value_elem in Hn as [Hn _].
Qed.

Lemma filter_same_prop (def : NotionPropertyDef) (pname : string)
  (l : list Needed) :
  Forall (fun n => prop n = def) l ->
  List.filter (fun n => String.eqb (name (prop n)) pname) l
  = if String.eqb (name def) pname then l else [].
Proof.
  induction 1 as [|n l Hn _ IH]; simpl.
  - now destruct (String.eqb (name def) pname).
  - rewrite Hn, IH. now destruct (String.eqb (name def) pname).
Qed.

Lemma names_for_app (pname : string) (a b : list Needed) :
  names_for pname (a ++ b) = names_for pname a ++ names_for pname b.
Proof. unfold names_for. now rewrite List.filter_app, List.map_app. Qed.

(** The names the scan of [onExecute] gathers under a property are the names
    the plans refer to under it, in the same order. *)
Lemma names_for_collect_needed (rev : revision)
  (dbProps : list NotionPropertyDef) (plans : list Plan) (pname : string) :
  names_for pname (collect_needed rev dbProps plans)
  = asked_names rev dbProps plans pname.
Proof.
  unfold collect_needed, asked_names.
  induction plans as [|plan plans IH]; [reflexivity|].
  simpl List.flat_map. rewrite names_for_app, IH. f_equal. clear IH.
  destruct (plan_changes plan) as [changes|]; [|reflexivity].
  induction changes as [|[k val] changes IH]; [reflexivity|].
  simpl List.flat_map. rewrite names_for_app, IH. f_equal. clear IH.
  simpl fst. simpl snd.
  destruct (find_def rev dbProps k) as [def|] eqn:Hdef.
  - destruct (needed_of_value_names def val) as [Hnames Hprop].
    unfold names_for. rewrite (filter_same_prop def pname _ Hprop).
    rewrite (find_def_name rev dbProps k def Hdef).
    destruct (String.eqb_spec k pname) as [<- | Hne]; [|reflexivity].
    now rewrite Hdef.
  - destruct (String.eqb_spec k pname) as [<- | Hne]; [|reflexivity].
    now rewrite Hdef.
Qed.

Lemma names_for_no_entry (pname : string) (needed : list Needed) :
  List.find (fun n => String.eqb (name (prop n)) pname) needed = None ->
  names_for pname needed = [].
Proof.
  intros H. unfold names_for.
  induction needed as [|n needed IH]; [reflexivity|]. simpl in *.
  destruct (String.eqb (name (prop n)) pname); [discriminate | now apply IH].
Qed.

Lemma find_def_asked (rev : revision) (dbProps : list NotionPropertyDef)
  (plans : list Plan) (pname : string) :
  find_def rev dbProps pname = None -> asked_names rev dbProps plans pname = [].
Proof.
  intros Hdef. unfold asked_names.
  induction plans as [|plan plans IH]; [reflexivity|]. simpl.
  rewrite IH, List.app_nil_r.
  destruct (plan_changes plan) as [changes|]; [|reflexivity].
  induction changes as [|[k val] changes IHc]; [reflexivity|]. simpl.
  rewrite IHc, List.app_nil_r, Hdef. now destruct (String.eqb k pname).
Qed.

(** The entry of the patch under each property name, from the plans. *)
Lemma update_props_of_plans (rev : revision)
  (dbProps : list NotionPropertyDef) (plans : list Plan) (pname : string) :
  obj_get
    (build_update_props (group_needed (collect_needed rev dbProps plans)))
    pname
  = match find_def rev dbProps pname with
    | Some def =>
        match
          missing_names (options_or_empty (Some def))
            (asked_names rev dbProps plans pname)
        with
        | [] => None
        | missing =>
            Some {| patch_type := type def;
                    patch_options :=
                      options_or_empty (Some def)
                      ++ List.map new_option missing |}
        end
    | None => None
    end.
Proof.
  rewrite build_update_props_get, <- names_for_collect_needed.
  destruct (List.find _ (collect_needed rev dbProps plans)) as [n0|] eqn:Hfind.
  - rewrite (collect_needed_first rev dbProps plans pname n0 Hfind).
    cbv zeta. now destruct (missing_names _ _).
  - rewrite (names_for_no_entry _ _ Hfind).
    now destruct (find_def rev dbProps pname).
Qed.

(** C7.  The option reconciler sends no schema patch when every option name
    the plans refer to already exists in the options of its property; it
    does send one, outside the mock, as soon as one name is missing under
    some property.  The patch is the one request to update the database; it
    has an entry for every property with a missing name and for no other, and
    in each entry the new option list is the existing list, as it is,
    followed by the names that were missing, in the order in which the plans
    first refer to them: no existing option is moved or dropped.  The names
    asked for under a property are read off the plans; the scan of the code
    gathers exactly these. *)
Theorem C7_reconciler_appends_missing_options
  (rev : revision) (useMock : bool) (databaseId : string)
  (dbProps : list NotionPropertyDef) (plans : list Plan) :
  let needed := collect_needed rev dbProps plans in
  let rec := ensureSelectOptions rev useMock databaseId dbProps needed in
  let missing pname :=
    missing_names (options_or_empty (find_def rev dbProps pname))
      (asked_names rev dbProps plans pname) in
  (all_options_exist rev dbProps plans -> patch rec = None)
  /\ (forall r,
        patch rec = Some r ->
        exists props,
          r = DatabasesUpdate (JsString.trim databaseId) props
          /\ props <> []
          /\ NoDup (obj_keys props)
          /\ (forall pname sp,
                (pname, sp) ∈ props ->
                exists def,
                  find_def rev dbProps pname = Some def
                  /\ let existing := options_or_empty (Some def) in
                     let missing :=
                       missing_names existing (names_for pname needed) in
                     missing <> []
                     /\ patch_type sp = type def
                     /\ patch_options sp
                        = existing ++ List.map new_option missing)
          /\ (forall pname,
                obj_get props pname
                = match find_def rev dbProps pname, missing pname with
                  | Some def, _ :: _ =>
                      Some {| patch_type := type def;
                              patch_options :=
                                options_or_empty (Some def)
                                ++ List.map new_option (missing pname) |}
                  | _, _ => None
                  end))
  /\ (forall pname, names_for pname needed = asked_names rev dbProps plans pname)
  /\ ((forall pname, missing pname = []) -> patch rec = None)
  /\ ((rev = Backend -> useMock = false) ->
      forall pname,
        missing pname <> [] ->
        exists props,
          patch rec = Some (DatabasesUpdate (JsString.trim databaseId) props)
          /\ is_Some (obj_get props pname)).
Proof.
  intros needed rec missing.
  assert (forall pname,
            obj_get (build_update_props (group_needed needed)) pname
            = match find_def rev dbProps pname, missing pname with
              | Some def, _ :: _ =>
                  Some {| patch_type := type def;
                          patch_options :=
                            options_or_empty (Some def)
                            ++ List.map new_option (missing pname) |}
              | _, _ => None
              end) as Hget.
  { intros pname. subst needed missing. cbv beta.
    rewrite update_props_of_plans.
    destruct (find_def rev dbProps pname) as [def|]; [|reflexivity].
    now destruct (missing_names _ _). }
  split; [|split; [|split; [|split]]].
  - intros Hall. subst rec. unfold ensureSelectOptions.
    destruct (_ =? 0)%nat; [reflexivity|].
    destruct (match rev with SdkClient => false | Backend => useMock end);
      [reflexivity|].
    assert (build_update_props (group_needed needed) = []) as ->;
      [|reflexivity].
    apply obj_get_None_nil. intros pname. rewrite build_update_props_get.
    destruct (List.find _ needed) as [n0|] eqn:Hfind; [|reflexivity].
    cbv zeta. rewrite missing_names_none; [reflexivity|].
    intros nm Hnm.
    apply names_for_elem in Hnm as (n & Hn & Hname & <-).
    pose proof (collect_needed_first rev dbProps plans pname n0 Hfind) as Hdef0.
    apply collect_needed_elem in Hn
      as (plan & changes & propName & val & Hplan & Hc & Hentry & Hdef & Hpn
          & Henum & Hnm).
    assert (prop n = prop n0) as Heq by congruence. rewrite <- Heq.
    eapply Hall; eassumption.
  - intros r Hr. subst rec. unfold ensureSelectOptions in Hr.
    destruct (_ =? 0)%nat; [discriminate|].
    destruct (match rev with SdkClient => false | Backend => useMock end);
      [discriminate|].
    destruct (0 <? _)%nat eqn:Hlen; [|discriminate].
    cbv beta iota delta [patch] in Hr. injection Hr as <-.
    eexists. split; [reflexivity|]. split.
    { intros Hnil. rewrite Hnil in Hlen. discriminate. }
    split; [apply build_update_props_NoDup|]. split; [|exact Hget].
    intros pname sp Hin.
    apply (elem_obj_get _ _ _ (build_update_props_NoDup needed)) in Hin.
    rewrite build_update_props_get in Hin.
    destruct (List.find _ needed) as [n0|] eqn:Hfind; [|discriminate].
    cbv zeta in Hin.
    match type of Hin with context [(0 <? ?n)%nat] =>
      destruct (0 <? n)%nat eqn:Hmissing; [|discriminate] end.
    injection Hin as <-. exists (prop n0).
    split; [now apply (collect_needed_first rev dbProps plans)|].
    cbv zeta. repeat split.
    intros Hnil. rewrite Hnil in Hmissing. discriminate.
  - intros pname. apply names_for_collect_needed.
  - intros Hnone. subst rec. unfold ensureSelectOptions.
    destruct (_ =? 0)%nat; [reflexivity|].
    destruct (match rev with SdkClient => false | Backend => useMock end);
      [reflexivity|].
    assert (build_update_props (group_needed needed) = []) as ->;
      [|reflexivity].
    apply obj_get_None_nil. intros pname. rewrite Hget, Hnone.
    now destruct (find_def rev dbProps pname).
  - intros Hreal pname Hmiss.
    assert (exists sp,
              obj_get (build_update_props (group_needed needed)) pname
              = Some sp) as [sp Hsp].
    { rewrite Hget.
      destruct (find_def rev dbProps pname) as [def|] eqn:Hdef.
      - destruct (missing pname); [congruence | now eexists].
      - exfalso. apply Hmiss. subst missing. cbv beta.
        now rewrite Hdef, (find_def_asked rev dbProps plans pname Hdef). }
    assert (needed <> []) as Hneeded.
    { intros Hnil. rewrite Hnil in Hsp. discriminate. }
    assert (match rev with SdkClient => false | Backend => useMock end
            = false) as Hmock.
    { destruct rev; [reflexivity | now apply Hreal]. }
    subst rec. unfold ensureSelectOptions. rewrite Hmock.
    destruct needed as [|n0 needed0] eqn:En; [congruence|].
    simpl Nat.eqb. cbv iota. rewrite <- En in *.
    assert ((0 <? List.length
                    (obj_keys (build_update_props (group_needed needed))))%nat
            = true) as ->.
    { destruct (build_update_props (group_needed needed));
        [discriminate | reflexivity]. }
    eexists. split; [reflexivity|]. rewrite Hsp. now eexists.
Qed.

Lemma C7_reconciler_appends_missing_options_witness :
  exists props,
    patch (ensureSelectOptions Backend false " db " Demo.schema
             (collect_needed Backend Demo.schema
                [Create "X1" [("Key", VStr "X1")]
                   [("Tags", PMultiSelect ["red"; "green"]);
                    ("Status", PSelect (Some "Open"))];
                 Create "X2" [("Key", VStr "X2")]
                   [("Tags", PMultiSelect ["teal"; "green"])]]))
    = Some (DatabasesUpdate "db" props)
    /\ obj_get props "Tags"
       = Some {| patch_type := "multi_select";
                 patch_options :=
                   [new_option "red"; new_option "blue";
                    new_option "green"; new_option "teal"] |}
    /\ obj_get props "Status"
       = Some {| patch_type := "select";
                 patch_options :=
                   [new_option "New"; new_option "Done"; new_option "Open"] |}
    /\ obj_get props "Amount" = None
    /\ NoDup (obj_keys props).
Proof.
  destruct (C7_reconciler_appends_missing_options Backend false " db "
              Demo.schema
              [Create "X1" [("Key", VStr "X1")]
                 [("Tags", PMultiSelect ["red"; "green"]);
                  ("Status", PSelect (Some "Open"))];
               Create "X2" [("Key", VStr "X2")]
                 [("Tags", PMultiSelect ["teal"; "green"])]])
    as (_ & Hpatch & _).
  destruct (Hpatch _ eq_refl) as (props & Hr & _ & Hnd & _ & Hget).
  injection Hr as <-. eexists. split; [reflexivity|].
  split; [exact (Hget "Tags")|]. split; [exact (Hget "Status")|].
  split; [exact (Hget "Amount") | exact Hnd].
Defined.

(** ** Worked examples

    The self-tests of the component ([runSelfTests]) and a run of the
    planner and of the executor on a small table. *)

Example encode_number_parses :
  buildNotionPropertyValue Demo.host "number" (VStr "42")
  = Some (PNumber (of_Z 42)).
Proof. reflexivity. Qed.

Example encode_not_a_number :
  buildNotionPropertyValue Demo.host "number" (VStr "not-a-number") = None.
Proof. reflexivity. Qed.

Example encode_multi_select_csv :
  buildNotionPropertyValue Demo.host "multi_select" (VStr "red, blue")
  = Some (PMultiSelect ["red"; "blue"]).
Proof. reflexivity. Qed.

Example encode_date_parse :
  buildNotionPropertyValue Demo.host "date" (VStr "2024-01-02")
  = Some (PDate "2024-01-02").
Proof. reflexivity. Qed.

Example encode_checkbox_yes :
  buildNotionPropertyValue Demo.host "checkbox" (VStr "yes")
  = Some (PCheckbox true).
Proof. reflexivity. Qed.

Example plan_update_amount :
  buildPlannedUpdates Demo.host Backend
    (excelIndex Demo.host [Demo.row_A001] "Key")
    [("A001", Demo.mk_page "p1" "A001" 5)] left
    [Demo.amount_mapping] Demo.schema false false
  = Ok [Update "A001" Demo.row_A001 (Demo.mk_page "p1" "A001" 5)
          [("Amount", PNumber (of_Z 10))]].
Proof. reflexivity. Qed.

Example plan_only_update_empty :
  buildPlannedUpdates Demo.host Backend
    (excelIndex Demo.host [Demo.row_A001] "Key")
    [("A001", Demo.mk_page "p1" "A001" 5)] left
    [Demo.amount_mapping] Demo.schema true false
  = Ok [Skip "A001" (Some Demo.row_A001)
          (Some (Demo.mk_page "p1" "A001" 5)) "No changes computed"].
Proof. reflexivity. Qed.

Example plan_source_only :
  buildPlannedUpdates Demo.host SdkClient
    (excelIndex Demo.host [Demo.row_X999] "Key") [] left
    [Demo.amount_mapping] Demo.schema false false
  = Ok [Skip "X999" (Some Demo.row_X999) None "No matching Notion page"]
  /\ buildPlannedUpdates Demo.host SdkClient
       (excelIndex Demo.host [Demo.row_X999] "Key") [] left
       [Demo.amount_mapping] Demo.schema false true
     = Ok [Create "X999" Demo.row_X999 [("Amount", PNumber (of_Z 7))]]
  /\ create_properties Demo.host Demo.schema "X999"
       [("Amount", PNumber (of_Z 7))]
     = [("Amount", PNumber (of_Z 7)); ("Key", PTitle "X999")].
Proof. repeat split. Qed.

Example execute_two_plans :
  onExecute Demo.host Backend Demo.always false "" " db " Demo.schema true
    (Some [Update "A001" Demo.row_A001 (Demo.mk_page "p1" "A001" 5)
             [("Amount", PNumber (of_Z 10))];
           Skip "A002" None (Some (Demo.mk_page "p2" "A002" 5))
             "No matching Excel row"])
    Throw idle zero
  = {| runStatus := done;
       run_progress := hundred;
       run_trace :=
         [Call (PagesUpdate "p1" [("Amount", PNumber (of_Z 10))]);
          Delay 100;
          Call (DatabasesQuery "db")];
       run_schema := Demo.schema |}.
Proof. reflexivity. Qed.

(** * Further properties *)

(** ** More facts about objects and sets *)

Module MoreFacts.
Import Js.
Import CollectionFacts.
Import ObjectFacts.
Import ReconcilerFacts.
Export Vocabulary.

Lemma obj_get_set {A : Type} (o : obj A) (k k' : string) (v : A) :
  obj_get (obj_set o k v) k'
  = if String.eqb k k' then Some v else obj_get o k'.
Proof.
  destruct (String.eqb_spec k k') as [<- | Hne].
  - apply obj_get_set_eq.
  - now apply obj_get_set_ne.
Qed.

Lemma set_has_map_has {V : Type} (m : JsMap V) (k : string) :
  set_has (map_keys m) k = map_has m k.
Proof.
  destruct (map_has m k) eqn:E.
  - now apply set_has_true, map_has_keys.
  - apply set_has_false. intros H. apply map_has_keys in H. congruence.
Qed.

(** On a list without duplicates the first-seen order is the order of the
    list, less what was seen before. *)
Lemma first_seen_from_NoDup (seen l : list string) :
  NoDup l ->
  first_seen_from seen l = List.filter (fun k => negb (set_has seen k)) l.
Proof.
  revert seen. induction l as [|x l IH]; intros seen Hnd; simpl.
  - reflexivity.
  - apply NoDup_cons in Hnd as [Hx Hnd]. destruct (set_has seen x); simpl.
    + now apply IH.
    + f_equal. rewrite IH by assumption. apply List.filter_ext_in.
      intros y Hy. f_equal. simpl.
      destruct (String.eqb_spec y x) as [-> | _]; [|reflexivity].
      exfalso. apply Hx. now apply list_elem_of_In.
Qed.

Lemma filter_all {A : Type} (f : A -> bool) (l : list A) :
  (forall x, x ∈ l -> f x = true) -> List.filter f l = l.
Proof.
  induction l as [|x l IH]; intros H; simpl; [reflexivity|].
  rewrite (H x (list_elem_of_here _ _)). f_equal. apply IH.
  intros y Hy. apply H. now apply list_elem_of_further.
Qed.

Lemma set_of_list_NoDup_id (l : list string) : NoDup l -> set_of_list l = l.
Proof.
  intros Hnd. rewrite set_of_list_first_seen. unfold first_seen.
  rewrite first_seen_from_NoDup by assumption. now apply filter_all.
Qed.

Lemma fold_set_add_NoDup_app (l acc : list string) :
  NoDup l ->
  List.fold_left set_add l acc
  = acc ++ List.filter (fun k => negb (set_has acc k)) l.
Proof.
  intros Hnd. rewrite fold_set_add_first_seen. f_equal.
  now apply first_seen_from_NoDup.
Qed.

Lemma fold_add_if_filter (keep : string -> bool) (l acc : list string) :
  List.fold_left (add_if keep) l acc
  = List.fold_left set_add (List.filter keep l) acc.
Proof.
  revert acc. induction l as [|x l IH]; intros acc; simpl; [reflexivity|].
  unfold add_if at 2. destruct (keep x); simpl; apply IH.
Qed.

(** The keys the join types select, for indexes (whose keys are distinct). *)
Lemma select_keys_explicit (joinType : JoinType) (eidx : JsMap ExcelRow)
  (nidx : JsMap NotionPage) :
  NoDup (map_keys eidx) -> NoDup (map_keys nidx) ->
  select_keys joinType eidx nidx
  = match joinType with
    | left => map_keys eidx
    | right => map_keys nidx
    | inner => List.filter (map_has nidx) (map_keys eidx)
    | outer =>
        map_keys eidx
        ++ List.filter (fun k => negb (map_has eidx k)) (map_keys nidx)
    end.
Proof.
  intros He Hn. unfold select_keys.
  rewrite !set_of_list_NoDup_id by assumption. destruct joinType.
  - now apply (set_of_list_NoDup_id (map_keys eidx)).
  - now apply (set_of_list_NoDup_id (map_keys nidx)).
  - change (List.fold_left _ (map_keys eidx) [])
      with (List.fold_left (add_if (set_has (map_keys nidx)))
              (map_keys eidx) []).
    rewrite fold_add_if_filter.
    change (List.fold_left set_add ?l []) with (set_of_list l).
    rewrite set_of_list_NoDup_id.
    + apply List.filter_ext. intros k. apply set_has_map_has.
    + now apply NoDup_ListNoDup, List.NoDup_filter, NoDup_ListNoDup.
  - change (List.fold_left set_add (map_keys eidx) [])
      with (set_of_list (map_keys eidx)).
    rewrite set_of_list_NoDup_id by assumption.
    rewrite fold_set_add_NoDup_app by assumption. f_equal.
    apply List.filter_ext. intros k. f_equal. apply set_has_map_has.
Qed.

End MoreFacts.

(** ** Order of the indexes and of the plans *)

Import MoreFacts.

Lemma build_keys_order {R : Type} (key_of : R -> string) (rows : list R) :
  map_keys (build key_of rows)
  = set_of_list (List.filter non_empty (List.map key_of rows)).
Proof.
  induction rows as [|r rows IH] using List.rev_ind; [reflexivity|].
  rewrite build_snoc, List.map_app, List.filter_app. unfold set_of_list.
  rewrite List.fold_left_app. fold (set_of_list
    (List.filter non_empty (List.map key_of rows))). rewrite <- IH.
  unfold index_step. simpl. unfold non_empty.
  destruct (negb (String.eqb (key_of r) "")); simpl; [|reflexivity].
  rewrite map_set_keys. unfold set_add. now rewrite set_has_map_has.
Qed.

Lemma first_seen_from_length (seen l : list string) :
  (List.length (first_seen_from seen l) <= List.length l)%nat.
Proof.
  revert seen. induction l as [|x l IH]; intros seen; simpl; [lia|].
  destruct (set_has seen x); simpl.
  - specialize (IH seen). lia.
  - specialize (IH (x :: seen)). lia.
Qed.

Lemma notionIndex_is_build (host : Host) (pages : list NotionPage)
  (notionKey : string) (idx : JsMap NotionPage) :
  notionKey <> "" ->
  notionIndex host pages notionKey = Ok idx ->
  idx = build (page_key host notionKey) pages.
Proof.
  intros Hkey Hidx.
  assert (Forall (key_decodes host notionKey) pages) as Hall.
  { unfold notionIndex in Hidx. apply String.eqb_neq in Hkey.
    rewrite Hkey in Hidx. eapply notionIndex_loop_inv, Hidx. }
  rewrite (notionIndex_build host pages notionKey Hkey Hall) in Hidx.
  now injection Hidx.
Qed.

Lemma notionIndex_NoDup (host : Host) (pages : list NotionPage)
  (notionKey : string) (idx : JsMap NotionPage) :
  notionIndex host pages notionKey = Ok idx -> NoDup (map_keys idx).
Proof.
  intros Hidx. destruct (String.eqb_spec notionKey "") as [-> | Hkey].
  - injection Hidx as <-. apply NoDup_nil_2.
  - rewrite (notionIndex_is_build host pages notionKey idx Hkey Hidx).
    apply build_NoDup.
Qed.

(** X1.  The keys of an index come in the order in which the rows (or the
    records) first show them: they are the non-empty trimmed keys of the
    sequence, each once, by first occurrence, although the row kept under a
    key is the last one.  So an index never has more entries than there are
    rows. *)
Theorem X1_index_keys_in_first_seen_order
  (host : Host) (excelRows : list ExcelRow) (excelKey : string)
  (pages : list NotionPage) (notionKey : string) :
  (excelKey <> "" ->
   map_keys (excelIndex host excelRows excelKey)
   = first_seen
       (List.filter non_empty
          (List.map (excel_key_of host excelKey) excelRows))
   /\ (List.length (excelIndex host excelRows excelKey)
       <= List.length excelRows)%nat)
  /\ (notionKey <> "" ->
      forall idx,
        notionIndex host pages notionKey = Ok idx ->
        map_keys idx
        = first_seen
            (List.filter non_empty
               (List.map (page_key host notionKey) pages))
        /\ (List.length idx <= List.length pages)%nat).
Proof.
  assert (forall (R : Type) (key_of : R -> string) (rows : list R),
            map_keys (build key_of rows)
            = first_seen (List.filter non_empty (List.map key_of rows))
            /\ (List.length (build key_of rows) <= List.length rows)%nat)
    as Hbuild.
  { intros R key_of rows.
    assert (map_keys (build key_of rows)
            = first_seen (List.filter non_empty (List.map key_of rows)))
      as Hkeys
      by (rewrite build_keys_order; apply set_of_list_first_seen).
    split; [exact Hkeys|].
    rewrite <- (List.length_map fst (build key_of rows)).
    change (List.map fst (build key_of rows))
      with (map_keys (build key_of rows)).
    rewrite Hkeys.
    pose proof (first_seen_from_length []
                  (List.filter non_empty (List.map key_of rows))) as H1.
    pose proof (List.filter_length_le non_empty (List.map key_of rows)) as H2.
    rewrite List.length_map in H2. unfold first_seen. lia. }
  split.
  - intros Hkey. rewrite excelIndex_build by assumption. apply Hbuild.
  - intros Hkey idx Hidx.
    rewrite (notionIndex_is_build host pages notionKey idx Hkey Hidx).
    apply Hbuild.
Qed.

Lemma X1_index_keys_in_first_seen_order_witness :
  map_keys (excelIndex Demo.host Demo.twin_rows "Key") = ["A001"]
  /\ (List.length (excelIndex Demo.host Demo.twin_rows "Key") <= 3)%nat.
Proof.
  destruct (X1_index_keys_in_first_seen_order Demo.host Demo.twin_rows "Key"
              Demo.twin_pages "Key") as [Hexcel _].
  assert ("Key" <> "") as Hkey by discriminate.
  destruct (Hexcel Hkey) as [Hkeys Hlen]. split; [|exact Hlen].
  rewrite Hkeys. reflexivity.
Defined.

(** X2.  The plans come in the order of the indexes: for a left join the
    keys of the spreadsheet index, for a right join those of the record
    index, for an inner join the spreadsheet keys that the record index
    has, and for an outer join the spreadsheet keys followed by the record
    keys that the spreadsheet lacks. *)
Theorem X2_plans_in_index_order
  (host : Host) (rev : revision)
  (excelRows : list ExcelRow) (excelKey : string)
  (pages : list NotionPage) (notionKey : string)
  (joinType : JoinType) (mappings : list Mapping)
  (dbProps : list NotionPropertyDef) (onlyUpdateEmpty allowCreatePages : bool)
  (nidx : JsMap NotionPage) (plans : list Plan) :
  notionIndex host pages notionKey = Ok nidx ->
  buildPlannedUpdates host rev (excelIndex host excelRows excelKey) nidx
    joinType mappings dbProps onlyUpdateEmpty allowCreatePages = Ok plans ->
  let eidx := excelIndex host excelRows excelKey in
  List.map plan_key plans
  = match joinType with
    | left => map_keys eidx
    | right => map_keys nidx
    | inner => List.filter (map_has nidx) (map_keys eidx)
    | outer =>
        map_keys eidx
        ++ List.filter (fun k => negb (map_has eidx k)) (map_keys nidx)
    end.
Proof.
  intros Hidx Hplans eidx.
  destruct (buildPlannedUpdates_spec _ _ _ _ _ _ _ _ _ _ Hplans)
    as [Hkeys _].
  rewrite Hkeys. apply select_keys_explicit.
  - apply excelIndex_NoDup.
  - eapply notionIndex_NoDup, Hidx.
Qed.

Lemma X2_plans_in_index_order_witness :
  exists plans,
    buildPlannedUpdates Demo.host Backend
      (excelIndex Demo.host Demo.rows "Key")
      [("A001", Demo.mk_page "p1" "A001" 5);
       ("A002", Demo.mk_page "p2" "A002" 5)] outer
      [Demo.amount_mapping] Demo.schema false false = Ok plans
    /\ List.map plan_key plans = ["A001"; "X999"; "A002"].
Proof.
  eexists. split; [reflexivity|].
  apply (X2_plans_in_index_order Demo.host Backend Demo.rows "Key"
           Demo.pages "Key" outer [Demo.amount_mapping] Demo.schema
           false false
           [("A001", Demo.mk_page "p1" "A001" 5);
            ("A002", Demo.mk_page "p2" "A002" 5)] _ eq_refl eq_refl).
Defined.

(** ** What the planner stages, and for which keys *)



Section Staged.
Variable host : Host.
Variable rev : revision.
Variable dbProps : list NotionPropertyDef.
Variable excelRow : ExcelRow.

(** What holds of a value staged under the property [k]: some mapping
    targets [k], and the value is the encoding of the cell that mapping
    reads. *)
Let staged_from (mappings : list Mapping) (k : string) (v : payload) : Prop :=
  k <> ""
  /\ exists m,
       m ∈ mappings /\ notionProperty m = k
       /\ buildNotionPropertyValue host
            (type_or_rich_text (find_def rev dbProps k))
            (of_option (obj_get excelRow (excelColumn m))) = Some v.

Lemma create_changes_staged (mappings : list Mapping) (k : string)
  (v : payload) :
  obj_get (create_changes host rev dbProps excelRow mappings) k = Some v ->
  staged_from mappings k v.
Proof.
  unfold create_changes.
  assert (forall done todo acc,
            (forall k v, obj_get acc k = Some v -> staged_from done k v) ->
            forall k v,
              obj_get (List.fold_left (create_step host rev dbProps excelRow)
                         todo acc) k = Some v ->
              staged_from (done ++ todo) k v) as Hgen.
  { intros done todo. revert done.
    induction todo as [|m todo IH]; intros done acc Hacc k' v' H.
    - rewrite List.app_nil_r. now apply Hacc.
    - simpl in H.
      replace (done ++ m :: todo) with ((done ++ [m]) ++ todo)
        by now rewrite <- List.app_assoc.
      eapply IH; [|exact H]. clear H k' v'. intros k' v' H.
      assert (forall k v, staged_from done k v ->
                          staged_from (done ++ [m]) k v) as Hmono.
      { intros k0 v0 (Hk0 & m0 & Hm0 & Hrest). split; [assumption|].
        exists m0. split; [apply elem_of_app; now left | assumption]. }
      unfold create_step in H.
      destruct (String.eqb_spec (notionProperty m) "") as [He | Hne];
        [now apply Hmono, Hacc|].
      destruct (buildNotionPropertyValue host _ _) as [built|] eqn:Hb;
        [|now apply Hmono, Hacc].
      rewrite obj_get_set in H.
      destruct (String.eqb_spec (notionProperty m) k') as [<- | Hk'];
        [|now apply Hmono, Hacc].
      injection H as <-. split; [assumption|]. exists m.
      split; [apply elem_of_app; right; apply list_elem_of_here|].
      split; [reflexivity | exact Hb]. }
  intros H. apply (Hgen [] mappings [] ltac:(discriminate) k v H).
Qed.

Variable onlyUpdateEmpty : bool.
Variable page : NotionPage.

(** The same for a page to update, with what the flags add. *)
Let staged_update (mappings : list Mapping) (k : string) (v : payload)
  : Prop :=
  staged_from mappings k v
  /\ (rev = SdkClient -> is_Some (find_def rev dbProps k))
  /\ (onlyUpdateEmpty = true ->
      getNotionPropertyPlainValue host
        (of_option (obj_get (properties page) k)) = Ok VNull
      \/ getNotionPropertyPlainValue host
           (of_option (obj_get (properties page) k)) = Ok (VStr "")).

Lemma update_changes_staged (mappings : list Mapping)
  (changes : obj payload) (k : string) (v : payload) :
  update_changes host rev dbProps onlyUpdateEmpty excelRow page mappings []
  = Ok changes ->
  obj_get changes k = Some v ->
  staged_update mappings k v.
Proof.
  assert (forall done todo acc changes,
            (forall k v, obj_get acc k = Some v -> staged_update done k v) ->
            update_changes host rev dbProps onlyUpdateEmpty excelRow page
              todo acc = Ok changes ->
            forall k v, obj_get changes k = Some v ->
                        staged_update (done ++ todo) k v) as Hgen.
  { intros done todo. revert done.
    induction todo as [|m todo IH]; intros done acc changes' Hacc Hrun k' v' H.
    - simpl in Hrun. injection Hrun as <-. rewrite List.app_nil_r.
      now apply Hacc.
    - simpl in Hrun.
      destruct (update_step host rev dbProps onlyUpdateEmpty excelRow page
                  acc m) as [acc'|] eqn:Hstep; [|discriminate].
      simpl in Hrun.
      replace (done ++ m :: todo) with ((done ++ [m]) ++ todo)
        by now rewrite <- List.app_assoc.
      eapply IH; [|exact Hrun|exact H]. clear H k' v'. intros k' v' H.
      assert (forall k v, staged_update done k v ->
                          staged_update (done ++ [m]) k v) as Hmono.
      { intros k0 v0 ((Hk0 & m0 & Hm0 & Hrest) & Hsdk & Hempty).
        split; [|split; assumption]. split; [assumption|].
        exists m0. split; [apply elem_of_app; now left | assumption]. }
      unfold update_step in Hstep.
      match type of Hstep with (if ?c then _ else _) = _ =>
        destruct c eqn:Henters end;
        [|injection Hstep as <-; now apply Hmono, Hacc].
      destruct (getNotionPropertyPlainValue host _) as [existing|] eqn:Hex;
        [|discriminate].
      simpl in Hstep.
      match type of Hstep with (if ?c then _ else _) = _ =>
        destruct c eqn:Hblocked end;
        [injection Hstep as <-; now apply Hmono, Hacc|].
      destruct (buildNotionPropertyValue host _ _) as [built|] eqn:Hb;
        [|injection Hstep as <-; now apply Hmono, Hacc].
      injection Hstep as <-. rewrite obj_get_set in H.
      destruct (String.eqb_spec (notionProperty m) k') as [<- | Hk'];
        [|now apply Hmono, Hacc].
      injection H as <-.
      assert (notionProperty m <> "") as Hne.
      { intros He. rewrite He in Henters. now destruct rev. }
      split; [|split].
      + split; [assumption|]. exists m.
        split; [apply elem_of_app; right; apply list_elem_of_here|].
        split; [reflexivity | exact Hb].
      + intros Hrev. rewrite Hrev in Henters |- *. simpl in Henters.
        apply andb_true_iff in Henters as [_ Hhas].
        unfold map_has, obj_has in Hhas. simpl. unfold map_get.
        destruct (obj_get _ _); [eauto | discriminate].
      + intros Hflag. rewrite Hflag in Hblocked. simpl in Hblocked.
        destruct existing; simpl in Hblocked; try discriminate;
          [now left|].
        right. destruct (String.eqb_spec s "") as [Hs | _];
          [now rewrite Hs in Hex | discriminate]. }
  intros Hrun H. apply (Hgen [] mappings [] changes); try assumption.
  discriminate.
Qed.

End Staged.

Lemma update_plan_changes
  (host : Host) (rev : revision)
  (eidx : JsMap ExcelRow) (nidx : JsMap NotionPage)
  (joinType : JoinType) (mappings : list Mapping)
  (dbProps : list NotionPropertyDef) (onlyUpdateEmpty allowCreatePages : bool)
  (plans : list Plan) (key : string) (row : ExcelRow) (page : NotionPage)
  (changes : obj payload) :
  buildPlannedUpdates host rev eidx nidx joinType mappings dbProps
    onlyUpdateEmpty allowCreatePages = Ok plans ->
  Update key row page changes ∈ plans ->
  map_get eidx key = Some row /\ map_get nidx key = Some page
  /\ update_changes host rev dbProps onlyUpdateEmpty row page mappings []
     = Ok changes.
Proof.
  intros Hplans Hin.
  destruct (buildPlannedUpdates_spec _ _ _ _ _ _ _ _ _ _ Hplans) as [_ Hall].
  apply Hall, plans_for_key_cases in Hin. simpl in Hin.
  destruct (map_get eidx key) as [row'|];
    destruct (map_get nidx key) as [page'|].
  - destruct Hin as (changes' & Hc & Heq).
    destruct changes' as [|c changes']; simpl in Heq; [discriminate|].
    injection Heq as -> -> ->. now repeat split.
  - destruct (_ && _); discriminate.
  - discriminate.
  - discriminate.
Qed.

Lemma create_plan_changes
  (host : Host) (rev : revision)
  (eidx : JsMap ExcelRow) (nidx : JsMap NotionPage)
  (joinType : JoinType) (mappings : list Mapping)
  (dbProps : list NotionPropertyDef) (onlyUpdateEmpty allowCreatePages : bool)
  (plans : list Plan) (key : string) (row : ExcelRow)
  (changes : obj payload) :
  buildPlannedUpdates host rev eidx nidx joinType mappings dbProps
    onlyUpdateEmpty allowCreatePages = Ok plans ->
  Create key row changes ∈ plans ->
  changes = create_changes host rev dbProps row mappings.
Proof.
  intros Hplans Hin.
  destruct (buildPlannedUpdates_spec _ _ _ _ _ _ _ _ _ _ Hplans) as [_ Hall].
  apply Hall, plans_for_key_cases in Hin. simpl in Hin.
  destruct (map_get eidx key) as [row'|];
    destruct (map_get nidx key) as [page'|].
  - destruct Hin as (changes' & _ & Heq). destruct changes'; discriminate.
  - destruct (_ && _); [|discriminate]. now injection Hin as -> ->.
  - discriminate.
  - discriminate.
Qed.

(** X4.  Whatever a plan stages comes from a mapping: each property in the
    changes of an update or of a create plan has a non-empty name that some
    mapping targets, and its value is the encoding of the cell of the plan's
    row that this mapping reads, for the type the schema gives the property
    (rich text when the schema does not have it).  In the first revision an
    update only stages properties that the schema has. *)
Theorem X4_staged_changes_come_from_mappings
  (host : Host) (rev : revision)
  (eidx : JsMap ExcelRow) (nidx : JsMap NotionPage)
  (joinType : JoinType) (mappings : list Mapping)
  (dbProps : list NotionPropertyDef) (onlyUpdateEmpty allowCreatePages : bool)
  (plans : list Plan) :
  buildPlannedUpdates host rev eidx nidx joinType mappings dbProps
    onlyUpdateEmpty allowCreatePages = Ok plans ->
  forall p key row changes k v,
    p ∈ plans ->
    (exists page, p = Update key row page changes)
    \/ p = Create key row changes ->
    obj_get changes k = Some v ->
    k <> ""
    /\ (exists m,
          m ∈ mappings /\ notionProperty m = k
          /\ buildNotionPropertyValue host
               (type_or_rich_text (find_def rev dbProps k))
               (of_option (obj_get row (excelColumn m))) = Some v)
    /\ (rev = SdkClient -> is_create p = false ->
        is_Some (find_def rev dbProps k)).
Proof.
  intros Hplans p key row changes k v Hin Hp Hget.
  destruct Hp as [[page ->] | ->].
  - destruct (update_plan_changes _ _ _ _ _ _ _ _ _ _ _ _ _ _ Hplans Hin)
      as (_ & _ & Hc).
    destruct (update_changes_staged _ _ _ _ _ _ _ _ _ _ Hc Hget)
      as ((Hk & Hm) & Hsdk & _).
    repeat split; [assumption .. |]. intros Hrev _. now apply Hsdk.
  - rewrite (create_plan_changes _ _ _ _ _ _ _ _ _ _ _ _ _ Hplans Hin)
      in Hget.
    destruct (create_changes_staged _ _ _ _ _ _ _ Hget) as (Hk & Hm).
    repeat split; [assumption .. |]. intros _ [=].
Qed.

Lemma X4_staged_changes_come_from_mappings_witness :
  "Amount" <> ""
  /\ (exists m,
        m ∈ [Demo.amount_mapping] /\ notionProperty m = "Amount"
        /\ buildNotionPropertyValue Demo.host
             (type_or_rich_text (find_def SdkClient Demo.schema "Amount"))
             (of_option (obj_get Demo.row_A001 (excelColumn m)))
           = Some (PNumber (of_Z 10)))
  /\ (SdkClient = SdkClient ->
      is_create (Update "A001" Demo.row_A001 (Demo.mk_page "p1" "A001" 5)
                   [("Amount", PNumber (of_Z 10))]) = false ->
      is_Some (find_def SdkClient Demo.schema "Amount")).
Proof.
  apply (X4_staged_changes_come_from_mappings Demo.host SdkClient
           (excelIndex Demo.host [Demo.row_A001] "Key")
           [("A001", Demo.mk_page "p1" "A001" 5)] left
           [Demo.amount_mapping] Demo.schema false false _ eq_refl
           _ "A001" Demo.row_A001 [("Amount", PNumber (of_Z 10))]
           "Amount" (PNumber (of_Z 10))).
  - apply list_elem_of_here.
  - left. eexists. reflexivity.
  - reflexivity.
Defined.

(** X5.  With "only update empty" switched on, an update never stages a
    property whose current value on the page is something else than null or
    the empty string: a number (zero included), a checked or unchecked box and
    a non-empty text all stay as they are. *)
Theorem X5_only_update_empty_keeps_values
  (host : Host) (rev : revision)
  (eidx : JsMap ExcelRow) (nidx : JsMap NotionPage)
  (joinType : JoinType) (mappings : list Mapping)
  (dbProps : list NotionPropertyDef) (allowCreatePages : bool)
  (plans : list Plan) :
  buildPlannedUpdates host rev eidx nidx joinType mappings dbProps
    true allowCreatePages = Ok plans ->
  forall key row page changes k v,
    Update key row page changes ∈ plans ->
    obj_get changes k = Some v ->
    getNotionPropertyPlainValue host
      (of_option (obj_get (properties page) k)) = Ok VNull
    \/ getNotionPropertyPlainValue host
         (of_option (obj_get (properties page) k)) = Ok (VStr "").
Proof.
  intros Hplans key row page changes k v Hin Hget.
  destruct (update_plan_changes _ _ _ _ _ _ _ _ _ _ _ _ _ _ Hplans Hin)
    as (_ & _ & Hc).
  destruct (update_changes_staged _ _ _ _ _ _ _ _ _ _ Hc Hget)
    as (_ & _ & Hempty).
  now apply Hempty.
Qed.

Lemma X5_only_update_empty_keeps_values_witness :
  getNotionPropertyPlainValue Demo.host
    (of_option
       (obj_get [("Key", Demo.text_prop "title" "A001");
                 ("Note", Demo.text_prop "rich_text" "")] "Note")) = Ok VNull
  \/ getNotionPropertyPlainValue Demo.host
       (of_option
          (obj_get [("Key", Demo.text_prop "title" "A001");
                    ("Note", Demo.text_prop "rich_text" "")] "Note"))
     = Ok (VStr "").
Proof.
  apply (X5_only_update_empty_keeps_values Demo.host Backend
           (excelIndex Demo.host [Demo.row_A001] "Key")
           [("A001",
             {| page_id := "p1";
                properties := [("Key", Demo.text_prop "title" "A001");
                               ("Note", Demo.text_prop "rich_text" "")] |})]
           left
           [{| mapping_id := "m2"; excelColumn := "Amount";
               notionProperty := "Note" |};
            {| mapping_id := "m3"; excelColumn := "Amount";
               notionProperty := "Key" |}]
           Demo.schema false _ eq_refl
           "A001" Demo.row_A001
           {| page_id := "p1";
              properties := [("Key", Demo.text_prop "title" "A001");
                             ("Note", Demo.text_prop "rich_text" "")] |}
           [("Note", PRichText "10")] "Note" (PRichText "10")).
  - apply list_elem_of_here.
  - reflexivity.
Defined.

(** ** The dispatch loop, request by request *)

Module LoopFacts.
Import Js.
Import Executor.
Import MoreVocabulary.

Lemma accepted_app (store : Store) (base a b : list event) :
  accepted store base (a ++ b)
  = accepted store base a && accepted store (base ++ a) b.
Proof.
  revert base. induction a as [|e a IH]; intros base; simpl.
  - now rewrite List.app_nil_r.
  - destruct e as [r | ms]; rewrite IH, <- List.app_assoc; simpl;
      [now rewrite andb_assoc | reflexivity].
Qed.

Lemma calls_of_app (host : Host) (databaseId : string)
  (dbProps : list NotionPropertyDef) (a b : list Plan) :
  calls_of host databaseId dbProps (a ++ b)
  = calls_of host databaseId dbProps a ++ calls_of host databaseId dbProps b.
Proof. apply List.flat_map_app. Qed.

Lemma calls_of_no_patch (host : Host) (databaseId : string)
  (dbProps : list NotionPropertyDef) (plans : list Plan) (e : event) :
  e ∈ calls_of host databaseId dbProps plans ->
  is_call e = true /\ is_schema_patch e = false /\ is_query e = false.
Proof.
  unfold calls_of. rewrite list_elem_of_In, List.in_flat_map.
  intros (plan & _ & Hin). destruct plan; simpl in Hin;
    try destruct Hin as [<- | []]; try destruct Hin; now repeat split.
Qed.

Section Loop.
Variable host : Host.
Variable store : Store.
Variable databaseId : string.
Variable dbProps : list NotionPropertyDef.
Variable total : nat.

Let fn := run_plan host store databaseId dbProps total.
Let req := request_of host databaseId dbProps.
Let calls := calls_of host databaseId dbProps.

Lemma run_plan_trace (plan : Plan) (st st' : ExecState) (o : outcome) :
  fn plan st = (st', o) ->
  match req plan with
  | Some r =>
      trace st' = trace st ++ [Call r]
      /\ o = (if store (trace st) r then Fulfilled else Rejected)
  | None => trace st' = trace st /\ o = Fulfilled
  end
  /\ (o = Rejected -> completed st' = completed st).
Proof.
  unfold fn, req, run_plan, send.
  destruct plan as [key row page changes | key row changes | key row page why];
    simpl.
  - destruct (store _ _); intros [= <- <-]; simpl; now repeat split.
  - destruct (store _ _); intros [= <- <-]; simpl; now repeat split.
  - intros [= <- <-]; simpl; now repeat split.
Qed.

(** A loop that returns: what it added to the trace. *)
Lemma pMapSerial_fulfilled (items : list Plan) (delayMs : nat)
  (st st' : ExecState) :
  (0 < delayMs)%nat ->
  pMapSerial fn items delayMs st = (st', Fulfilled) ->
  exists added,
    trace st' = trace st ++ added
    /\ List.filter is_call added = calls items
    /\ List.filter is_delay added
       = List.repeat (Delay delayMs) (List.length items - 1)
    /\ accepted store (trace st) added = true.
Proof.
  intros Hd. apply Nat.ltb_lt in Hd.
  revert st. induction items as [|item items IH]; intros st H; simpl in H.
  - injection H as <-. exists []. now rewrite List.app_nil_r.
  - destruct (fn item st) as [st1 [|]] eqn:Hfn; [|discriminate].
    apply run_plan_trace in Hfn as [Hfn _].
    rewrite Hd in H. simpl in H.
    apply IH in H as (added & Ht & Hcalls & Hdelays & Hacc). clear IH.
    unfold calls, calls_of in *. simpl List.flat_map. fold req.
    destruct items as [|item' items].
    + simpl in Ht, Hcalls, Hdelays, Hacc.
      destruct added as [|e added]; [|
        destruct e; simpl in Hcalls, Hdelays; discriminate].
      rewrite List.app_nil_r in Ht.
      destruct (req item) as [r|].
      * destruct Hfn as [Hfn Ho]. exists [Call r]. rewrite Ht, Hfn.
        simpl. repeat split. rewrite andb_true_r.
        now destruct (store (trace st) r).
      * destruct Hfn as [Hfn _]. exists []. rewrite Ht, Hfn.
        now rewrite List.app_nil_r.
    + simpl in Ht, Hacc.
      destruct (req item) as [r|].
      * destruct Hfn as [Hfn Ho].
        exists (Call r :: Delay delayMs :: added).
        rewrite Ht, Hfn, <- !List.app_assoc. simpl.
        rewrite Hcalls, Hdelays. repeat split.
        -- simpl. now rewrite Nat.sub_0_r.
        -- rewrite Hfn, <- List.app_assoc in Hacc. simpl in Hacc.
           rewrite <- List.app_assoc. simpl. rewrite Hacc.
           now destruct (store (trace st) r).
      * destruct Hfn as [Hfn _].
        exists (Delay delayMs :: added).
        rewrite Ht, Hfn, <- !List.app_assoc. simpl.
        rewrite Hcalls, Hdelays. repeat split.
        -- simpl. now rewrite Nat.sub_0_r.
        -- now rewrite Hfn in Hacc.
Qed.

(** A loop that returns: the trace it leaves, event by event. *)
Lemma pMapSerial_paced (items : list Plan) (delayMs : nat)
  (st st' : ExecState) :
  (0 < delayMs)%nat ->
  pMapSerial fn items delayMs st = (st', Fulfilled) ->
  trace st'
  = trace st
    ++ paced delayMs (List.map (turn_events host databaseId dbProps) items).
Proof.
  intros Hd. apply Nat.ltb_lt in Hd.
  revert st. induction items as [|item items IH]; intros st H; simpl in H.
  - injection H as <-. simpl. now rewrite List.app_nil_r.
  - destruct (fn item st) as [st1 [|]] eqn:Hfn; [|discriminate].
    apply run_plan_trace in Hfn as [Hfn _].
    assert (trace st1
            = trace st ++ turn_events host databaseId dbProps item) as Hturn.
    { unfold turn_events. fold req. destruct (req item) as [r|].
      - now destruct Hfn.
      - destruct Hfn as [-> _]. now rewrite List.app_nil_r. }
    rewrite Hd in H. simpl andb in H.
    destruct items as [|item' items].
    + simpl in H. injection H as <-. exact Hturn.
    + apply IH in H. rewrite H. simpl trace. rewrite Hturn.
      change (List.map ?f (item :: item' :: items))
        with (f item :: List.map f (item' :: items)).
      remember (List.map _ (item' :: items)) as turns eqn:Et.
      destruct turns as [|turn turns]; [discriminate|].
      cbn [paced]. now rewrite <- !List.app_assoc.
Qed.

(** A loop that stops: where it stopped, and what it had added. *)
Lemma pMapSerial_rejected (items : list Plan) (delayMs : nat)
  (st st' : ExecState) :
  pMapSerial fn items delayMs st = (st', Rejected) ->
  exists before plan after r added,
    items = before ++ plan :: after
    /\ req plan = Some r
    /\ trace st' = trace st ++ added ++ [Call r]
    /\ List.filter is_call added = calls before
    /\ accepted store (trace st) added = true
    /\ store (trace st ++ added) r = false
    /\ completed st' = completed st + List.length before.
Proof.
  revert st. induction items as [|item items IH]; intros st H; simpl in H;
    [discriminate|].
  destruct (fn item st) as [st1 o] eqn:Hfn.
  pose proof (run_plan_trace _ _ _ _ Hfn) as [Htr Hdone].
  destruct o.
  - apply run_plan_fulfilled in Hfn as [Hc _].
    match type of H with pMapSerial _ _ _ ?s = _ =>
      assert (trace s = trace st1
              \/ trace s = trace st1 ++ [Delay delayMs]) as Hs
        by (destruct (_ && _); simpl; auto);
      assert (completed s = completed st1) as Hcs
        by (now destruct (_ && _));
      remember s as st2 eqn:Est2 end.
    clear Est2.
    apply IH in H
      as (before & plan & after & r & added & -> & Hr & Ht & Hcalls & Hacc
          & Hrej & Hcount).
    clear IH.
    exists (item :: before), plan, after, r.
    assert (exists mid,
              trace st2 = trace st ++ mid
              /\ List.filter is_call mid = calls [item]
              /\ accepted store (trace st) mid = true)
      as (mid & Hmid & Hmc & Hma).
    { unfold calls, calls_of. simpl. fold req. rewrite List.app_nil_r.
      destruct (req item) as [r0|].
      - destruct Htr as [Htr Ho].
        assert (store (trace st) r0 = true) as Hst
          by (destruct (store (trace st) r0); [reflexivity|discriminate]).
        destruct Hs as [Hs | Hs]; rewrite Hs, Htr.
        + exists [Call r0]. simpl. now rewrite Hst.
        + exists [Call r0; Delay delayMs]. rewrite <- List.app_assoc.
          simpl. now rewrite Hst.
      - destruct Htr as [Htr _].
        destruct Hs as [Hs | Hs]; rewrite Hs, Htr.
        + exists []. now rewrite List.app_nil_r.
        + now exists [Delay delayMs]. }
    exists (mid ++ added). rewrite Hmid in Ht, Hacc, Hrej.
    repeat split.
    + assumption.
    + now rewrite Ht, <- !List.app_assoc.
    + rewrite List.filter_app, Hmc, Hcalls.
      change (item :: before) with ([item] ++ before).
      unfold calls. now rewrite calls_of_app.
    + now rewrite accepted_app, Hma, Hacc.
    + now rewrite List.app_assoc.
    + rewrite Hcount, Hcs, Hc. simpl. lia.
  - injection H as <-. exists [], item, items.
    destruct (req item) as [r|]; [|destruct Htr; discriminate].
    destruct Htr as [Htr Ho].
    exists r, []. rewrite List.app_nil_r. simpl.
    repeat split; try assumption.
    + destruct (store (trace st) r); [discriminate | reflexivity].
    + rewrite Hdone by reflexivity. lia.
Qed.

End Loop.

End LoopFacts.

Import MoreVocabulary.
Import LoopFacts.

(** X6.  A dispatch loop that runs to its end leaves exactly this trace:
    the turns of the plans in their order, the turn of an update or a create
    plan being its one request and that of a skip plan nothing, with one wait
    between every two consecutive turns, skip plans included (350 ms in the
    first revision, 100 ms in the second), none before the first turn and
    none after the last.  So the requests are those of the plans, in order;
    there is one wait less than there are plans; every request was
    fulfilled; and every plan was counted. *)
Theorem X6_dispatch_requests_in_plan_order
  (host : Host) (rev : revision) (store : Store) (databaseId : string)
  (dbProps : list NotionPropertyDef) (plans : list Plan)
  (st st' : ExecState) :
  dispatch_plans host rev store databaseId dbProps plans st
  = (st', Fulfilled) ->
  exists added,
    trace st' = trace st ++ added
    /\ added
       = paced (delay_of rev)
           (List.map (turn_events host databaseId dbProps) plans)
    /\ List.filter is_call added = calls_of host databaseId dbProps plans
    /\ List.filter is_delay added
       = List.repeat (Delay (delay_of rev)) (List.length plans - 1)
    /\ accepted store (trace st) added = true
    /\ completed st' = List.length plans.
Proof.
  unfold dispatch_plans. intros H.
  assert (0 < delay_of rev)%nat as Hd by (destruct rev; simpl; lia).
  destruct (pMapSerial_fulfilled _ _ _ _ _ _ _ _ _ Hd H)
    as (added & Ht & Hc & Hdl & Ha).
  pose proof (pMapSerial_paced _ _ _ _ _ _ _ _ _ Hd H) as Hp.
  simpl trace in Ht, Hp, Ha.
  exists added. repeat split; try assumption.
  - rewrite Ht in Hp. now apply List.app_inv_head in Hp.
  - now apply pMapSerial_count in H as [-> _].
Qed.

Lemma X6_dispatch_requests_in_plan_order_witness :
  exists added,
    [Call (PagesUpdate "p1" [("Amount", PNumber (of_Z 10))]);
     Delay 350; Delay 350;
     Call (PagesCreate "db"
             [("Amount", PNumber (of_Z 7)); ("Key", PTitle "X999")])]
    = [] ++ added
    /\ added
       = paced 350
           (List.map (turn_events Demo.host " db " Demo.schema)
              [Update "A001" Demo.row_A001 (Demo.mk_page "p1" "A001" 5)
                 [("Amount", PNumber (of_Z 10))];
               Skip "A002" None (Some (Demo.mk_page "p2" "A002" 5))
                 "No matching Excel row";
               Create "X999" Demo.row_X999 [("Amount", PNumber (of_Z 7))]])
    /\ List.filter is_call added
       = calls_of Demo.host " db " Demo.schema
           [Update "A001" Demo.row_A001 (Demo.mk_page "p1" "A001" 5)
              [("Amount", PNumber (of_Z 10))];
            Skip "A002" None (Some (Demo.mk_page "p2" "A002" 5))
              "No matching Excel row";
            Create "X999" Demo.row_X999 [("Amount", PNumber (of_Z 7))]]
    /\ List.filter is_delay added = List.repeat (Delay 350) (3 - 1)
    /\ accepted Demo.always [] added = true
    /\ 3 = 3.
Proof.
  apply (X6_dispatch_requests_in_plan_order Demo.host SdkClient Demo.always
           " db " Demo.schema
           [Update "A001" Demo.row_A001 (Demo.mk_page "p1" "A001" 5)
              [("Amount", PNumber (of_Z 10))];
            Skip "A002" None (Some (Demo.mk_page "p2" "A002" 5))
              "No matching Excel row";
            Create "X999" Demo.row_X999 [("Amount", PNumber (of_Z 7))]]
           {| completed := 0; progress := zero; trace := [] |}
           {| completed := 3; progress := hundred;
              trace :=
                [Call (PagesUpdate "p1" [("Amount", PNumber (of_Z 10))]);
                 Delay 350; Delay 350;
                 Call (PagesCreate "db"
                         [("Amount", PNumber (of_Z 7));
                          ("Key", PTitle "X999")])] |}).
  reflexivity.
Defined.

(** X7.  A dispatch loop that fails stops at the first request the store
    rejects: that request is the last event of the trace, it belongs to an
    update or a create plan, the requests before it are those of the plans
    before that plan, all fulfilled, no plan after it is touched, and the
    count of completed plans is the number of plans before it. *)
Theorem X7_dispatch_stops_at_first_rejection
  (host : Host) (rev : revision) (store : Store) (databaseId : string)
  (dbProps : list NotionPropertyDef) (plans : list Plan)
  (st st' : ExecState) :
  dispatch_plans host rev store databaseId dbProps plans st
  = (st', Rejected) ->
  exists before plan after r added,
    plans = before ++ plan :: after
    /\ request_of host databaseId dbProps plan = Some r
    /\ trace st' = trace st ++ added ++ [Call r]
    /\ List.filter is_call added = calls_of host databaseId dbProps before
    /\ accepted store (trace st) added = true
    /\ store (trace st ++ added) r = false
    /\ completed st' = List.length before.
Proof.
  unfold dispatch_plans. intros H.
  apply pMapSerial_rejected in H
    as (before & plan & after & r & added & H).
  now exists before, plan, after, r, added.
Qed.

Lemma X7_dispatch_stops_at_first_rejection_witness :
  exists before plan after r added,
    [Update "A001" Demo.row_A001 (Demo.mk_page "p1" "A001" 5)
       [("Amount", PNumber (of_Z 10))];
     Create "X999" Demo.row_X999 [("Amount", PNumber (of_Z 7))];
     Update "A002" Demo.row_A001 (Demo.mk_page "p2" "A002" 5)
       [("Amount", PNumber (of_Z 10))]]
    = before ++ plan :: after
    /\ request_of Demo.host "db" Demo.schema plan = Some r
    /\ [Call (PagesUpdate "p1" [("Amount", PNumber (of_Z 10))]);
        Delay 100;
        Call (PagesCreate "db"
                [("Amount", PNumber (of_Z 7)); ("Key", PTitle "X999")])]
       = [] ++ added ++ [Call r]
    /\ List.filter is_call added = calls_of Demo.host "db" Demo.schema before
    /\ accepted
         (fun _ r => match r with PagesCreate _ _ => false | _ => true end)
         [] added = true
    /\ match r with PagesCreate _ _ => false | _ => true end = false
    /\ 1 = List.length before.
Proof.
  apply (X7_dispatch_stops_at_first_rejection Demo.host Backend
           (fun _ r => match r with PagesCreate _ _ => false | _ => true end)
           "db" Demo.schema
           [Update "A001" Demo.row_A001 (Demo.mk_page "p1" "A001" 5)
              [("Amount", PNumber (of_Z 10))];
            Create "X999" Demo.row_X999 [("Amount", PNumber (of_Z 7))];
            Update "A002" Demo.row_A001 (Demo.mk_page "p2" "A002" 5)
              [("Amount", PNumber (of_Z 10))]]
           {| completed := 0; progress := zero; trace := [] |}
           {| completed := 1; progress := percent 1 3;
              trace :=
                [Call (PagesUpdate "p1" [("Amount", PNumber (of_Z 10))]);
                 Delay 100;
                 Call (PagesCreate "db"
                         [("Amount", PNumber (of_Z 7));
                          ("Key", PTitle "X999")])] |}).
  vm_compute. reflexivity.
Defined.

(** ** A whole run *)

Module RunFacts.
Import Js.
Import Executor.
Import MoreVocabulary.
Import LoopFacts.

Lemma ensureSelectOptions_patch (rev : revision) (useMock : bool)
  (databaseId : string) (dbProps : list NotionPropertyDef)
  (needed : list Needed) (r : request) :
  patch (ensureSelectOptions rev useMock databaseId dbProps needed) = Some r ->
  (rev = Backend -> useMock = false)
  /\ needed <> []
  /\ exists props, r = DatabasesUpdate (JsString.trim databaseId) props.
Proof.
  unfold ensureSelectOptions.
  destruct needed as [|n needed]; [discriminate|]. simpl Nat.eqb. cbv iota.
  destruct rev, useMock; simpl; try discriminate;
    destruct (0 <? _)%nat; try discriminate;
    intros [= <-]; (repeat split; [congruence .. | eauto]).
Qed.

Section Run.
Variable host : Host.
Variable rev : revision.
Variable store : Store.
Variable useMock : bool.
Variables notionToken databaseId : string.
Variable dbProps : list NotionPropertyDef.
Variable createMissingSelectOptions : bool.
Variable dryRun : option (list Plan).
Variable planned : result (list Plan).
Variable status0 : RunStatus.
Variable progress0 : number.

Let run :=
  onExecute host rev store useMock notionToken databaseId dbProps
    createMissingSelectOptions dryRun planned status0 progress0.
Let source :=
  match dryRun with Some plans => Ok plans | None => planned end.
Let query := DatabasesQuery (JsString.trim databaseId).
Let calls := calls_of host databaseId dbProps.

Hypothesis has_database : databaseId <> "".
Hypothesis has_token : rev = SdkClient -> notionToken <> "".

Lemma guard_passes :
  match rev with
  | SdkClient => String.eqb notionToken "" || String.eqb databaseId ""
  | Backend => String.eqb databaseId ""
  end = false.
Proof.
  apply String.eqb_neq in has_database. rewrite has_database.
  destruct rev; [|reflexivity].
  specialize (has_token eq_refl). apply String.eqb_neq in has_token.
  now rewrite has_token.
Qed.

Lemma onExecute_throw :
  source = Throw -> runStatus run = error /\ run_trace run = [].
Proof.
  intros Hs. unfold run, onExecute. rewrite guard_passes.
  fold source. now rewrite Hs.
Qed.

(** The ways a run with plans can go. *)
Lemma onExecute_shape (plans : list Plan) :
  source = Ok plans ->
  exists patchc,
    (patchc = []
     \/ createMissingSelectOptions = true
        /\ (rev = Backend -> useMock = false)
        /\ exists props,
             patchc = [Call (DatabasesUpdate (JsString.trim databaseId)
                               props)])
    /\ (runStatus run = error /\ run_trace run = patchc
        /\ (exists r, patchc = [Call r] /\ store [] r = false)
        \/ accepted store [] patchc = true
           /\ ((exists before plan after r added,
                   runStatus run = error
                   /\ plans = before ++ plan :: after
                   /\ request_of host databaseId dbProps plan = Some r
                   /\ run_trace run = patchc ++ added ++ [Call r]
                   /\ List.filter is_call added = calls before
                   /\ accepted store patchc added = true
                   /\ store (patchc ++ added) r = false)
               \/ exists added,
                    List.filter is_call added = calls plans
                    /\ accepted store patchc added = true
                    /\ (rev = SdkClient /\ runStatus run = done
                        /\ run_trace run = patchc ++ added
                        \/ rev = Backend
                           /\ run_trace run = patchc ++ added ++ [Call query]
                           /\ runStatus run
                              = (if store (patchc ++ added) query
                                 then done else error)))).
Proof.
  intros Hs. unfold run, onExecute. rewrite guard_passes.
  fold source. rewrite Hs.
  set (rec := if createMissingSelectOptions then _ else _).
  exists (match patch rec with Some r => [Call r] | None => [] end).
  assert (forall r, patch rec = Some r ->
                    createMissingSelectOptions = true
                    /\ (rev = Backend -> useMock = false)
                    /\ exists props,
                         r = DatabasesUpdate (JsString.trim databaseId) props)
    as Hpatch.
  { intros r. unfold rec.
    destruct createMissingSelectOptions; [|discriminate].
    intros H. apply ensureSelectOptions_patch in H as (Hm & _ & Hp).
    now repeat split. }
  split.
  { destruct (patch rec) as [r|]; [right | now left].
    destruct (Hpatch r eq_refl) as (Hc & Hm & props & ->).
    repeat split; [assumption .. | now exists props]. }
  assert (forall st1,
            completed st1 = 0 ->
            accepted store [] (trace st1) = true ->
            let out :=
              match dispatch_plans host rev store databaseId dbProps plans st1
              with
              | (st2, Rejected) =>
                  {| runStatus := error; run_progress := progress st2;
                     run_trace := trace st2; run_schema := schema rec |}
              | (st2, Fulfilled) =>
                  let '(st3, o3) :=
                    match rev with
                    | SdkClient => (st2, Fulfilled)
                    | Backend => send store query st2
                    end in
                  match o3 with
                  | Rejected =>
                      {| runStatus := error; run_progress := progress st3;
                         run_trace := trace st3; run_schema := schema rec |}
                  | Fulfilled =>
                      {| runStatus := done; run_progress := progress st3;
                         run_trace := trace st3; run_schema := schema rec |}
                  end
              end in
            (exists before plan after r added,
                runStatus out = error
                /\ plans = before ++ plan :: after
                /\ request_of host databaseId dbProps plan = Some r
                /\ run_trace out = trace st1 ++ added ++ [Call r]
                /\ List.filter is_call added = calls before
                /\ accepted store (trace st1) added = true
                /\ store (trace st1 ++ added) r = false)
            \/ exists added,
                 List.filter is_call added = calls plans
                 /\ accepted store (trace st1) added = true
                 /\ (rev = SdkClient /\ runStatus out = done
                     /\ run_trace out = trace st1 ++ added
                     \/ rev = Backend
                        /\ run_trace out = trace st1 ++ added ++ [Call query]
                        /\ runStatus out
                           = (if store (trace st1 ++ added) query
                              then done else error))) as Hloop.
  { intros st1 Hc0 Hacc0 out. subst out. unfold dispatch_plans.
    assert (0 < delay_of rev)%nat as Hd by (destruct rev; simpl; lia).
    match goal with |- context [pMapSerial ?f ?p ?d ?s] =>
      destruct (pMapSerial f p d s) as [st2 o] eqn:Hrun end.
    destruct o.
    - right.
      destruct (pMapSerial_fulfilled _ _ _ _ _ _ _ _ _ Hd Hrun)
        as (added & Ht & Hcalls & _ & Hacc).
      simpl in Ht, Hacc. exists added. repeat split; try assumption.
      destruct rev; [left | right]; simpl.
      + now repeat split.
      + split; [reflexivity|]. unfold send. rewrite Ht.
        destruct (store (trace st1 ++ added) query); simpl;
          now rewrite <- List.app_assoc.
    - left.
      destruct (pMapSerial_rejected _ _ _ _ _ _ _ _ _ Hrun)
        as (before & plan & after & r & added & Hp & Hr & Ht & Hcalls & Hacc
            & Hrej & _).
      simpl in Ht, Hacc, Hrej.
      exists before, plan, after, r, added. now repeat split. }
  unfold send. simpl trace.
  destruct (patch rec) as [r|] eqn:Hr.
  - simpl List.app. destruct (store [] r) eqn:Hst.
    + right. split; [simpl; now rewrite Hst|].
      match goal with |- context [dispatch_plans _ _ _ _ _ _ ?s] =>
        specialize (Hloop s eq_refl) end.
      simpl trace in Hloop. apply Hloop. simpl. now rewrite Hst.
    + left. repeat split. now exists r.
  - right. split; [reflexivity|].
    match goal with |- context [dispatch_plans _ _ _ _ _ _ ?s] =>
      specialize (Hloop s eq_refl eq_refl) end.
    exact Hloop.
Qed.

End Run.

End RunFacts.

Import RunFacts.

Lemma calls_of_page_requests (host : Host) (databaseId : string)
  (dbProps : list NotionPropertyDef) (plans : list Plan) :
  List.filter is_page_request (calls_of host databaseId dbProps plans)
  = calls_of host databaseId dbProps plans.
Proof.
  induction plans as [|plan plans IH]; [reflexivity|].
  change (plan :: plans) with ([plan] ++ plans).
  rewrite calls_of_app, List.filter_app, IH. f_equal.
  now destruct plan.
Qed.

Lemma page_requests_of_calls (l : list event) :
  List.filter is_page_request (List.filter is_call l)
  = List.filter is_page_request l.
Proof.
  induction l as [|e l IH]; [reflexivity|].
  destruct e as [r | ms]; simpl; [|exact IH].
  destruct (is_page_request (Call r)); now rewrite IH.
Qed.

Lemma added_page_requests (host : Host) (databaseId : string)
  (dbProps : list NotionPropertyDef) (plans : list Plan)
  (added : list event) :
  List.filter is_call added = calls_of host databaseId dbProps plans ->
  List.filter is_page_request added = calls_of host databaseId dbProps plans
  /\ List.filter is_query added = []
  /\ forall e, e ∈ added -> is_schema_patch e = false.
Proof.
  intros H. split; [|split].
  - now rewrite <- page_requests_of_calls, H, calls_of_page_requests.
  - assert (List.filter is_query (List.filter is_call added)
            = List.filter is_query added) as <-.
    { clear H. induction added as [|e l IH]; [reflexivity|].
      destruct e as [r | ms]; simpl; [|exact IH].
      destruct (is_query (Call r)); now rewrite IH. }
    rewrite H. clear H. induction plans as [|plan plans IH]; [reflexivity|].
    change (plan :: plans) with ([plan] ++ plans).
    rewrite calls_of_app, List.filter_app, IH. now destruct plan.
  - intros e He. destruct (is_schema_patch e) eqn:Ep; [|reflexivity].
    assert (e ∈ calls_of host databaseId dbProps plans) as Hin.
    { rewrite <- H. apply list_elem_of_In, List.filter_In.
      split; [now apply list_elem_of_In | now destruct e]. }
    apply calls_of_no_patch in Hin as (_ & Hp & _). congruence.
Qed.

(** X8.  A run that ends with the status "done" had plans to work on, every
    request it sent was fulfilled, and its page requests are exactly those
    of the update and create plans, in the order of the plans.  The second
    revision then reloads the records, with a query as its last request; the
    first revision never queries. *)
Theorem X8_done_run_sent_every_plan
  (host : Host) (rev : revision) (store : Store) (useMock : bool)
  (notionToken databaseId : string) (dbProps : list NotionPropertyDef)
  (createMissingSelectOptions : bool) (dryRun : option (list Plan))
  (planned : result (list Plan)) (status0 : RunStatus) (progress0 : number) :
  databaseId <> "" ->
  (rev = SdkClient -> notionToken <> "") ->
  let run :=
    onExecute host rev store useMock notionToken databaseId dbProps
      createMissingSelectOptions dryRun planned status0 progress0 in
  runStatus run = done ->
  exists plans,
    match dryRun with Some plans => Ok plans | None => planned end = Ok plans
    /\ accepted store [] (run_trace run) = true
    /\ List.filter is_page_request (run_trace run)
       = calls_of host databaseId dbProps plans
    /\ List.filter is_query (run_trace run)
       = match rev with
         | SdkClient => []
         | Backend => [Call (DatabasesQuery (JsString.trim databaseId))]
         end
    /\ (rev = Backend ->
        List.last (run_trace run) (Delay 0)
        = Call (DatabasesQuery (JsString.trim databaseId))).
Proof.
  intros Hdb Htok run Hdone.
  destruct (match dryRun with Some plans => Ok plans | None => planned end)
    as [plans|] eqn:Hs.
  2: { destruct (onExecute_throw host rev store useMock notionToken
                   databaseId dbProps createMissingSelectOptions dryRun
                   planned status0 progress0 Hdb Htok Hs) as [He _].
       fold run in He. congruence. }
  exists plans. split; [reflexivity|].
  destruct (onExecute_shape host rev store useMock notionToken databaseId
              dbProps createMissingSelectOptions dryRun planned status0
              progress0 Hdb Htok plans Hs) as (patchc & Hpatch & Hcases).
  fold run in Hcases.
  assert (List.filter is_page_request patchc = []
          /\ List.filter is_query patchc = []) as [Hpp Hpq].
  { destruct Hpatch as [-> | (_ & _ & props & ->)]; now split. }
  destruct Hcases as [(He & _) | (Hacc & [Hrej | Hok])]; [congruence | |].
  { destruct Hrej as (? & ? & ? & ? & ? & He & _). congruence. }
  destruct Hok as (added & Hcalls & Hadded & Hend).
  apply added_page_requests in Hcalls as (Hpr & Hq & _).
  destruct Hend as [(-> & _ & Ht) | (-> & Ht & Hst)]; rewrite Ht.
  - rewrite accepted_app, !List.filter_app. cbn [List.app].
    rewrite Hacc, Hadded, Hpp, Hpq, Hpr, Hq.
    repeat split. discriminate.
  - rewrite Hdone in Hst.
    destruct (store (patchc ++ added) _) eqn:Hquery; [|discriminate].
    rewrite !accepted_app, !List.filter_app. cbn [List.app].
    rewrite Hacc, Hadded, Hpp, Hpq, Hpr, Hq.
    simpl. rewrite Hquery, List.app_nil_r. repeat split.
    intros _. now rewrite List.app_assoc, List.last_last.
Qed.

Lemma X8_done_run_sent_every_plan_witness :
  exists plans,
    Ok [Update "A001" Demo.row_A001 (Demo.mk_page "p1" "A001" 5)
          [("Amount", PNumber (of_Z 10))];
        Skip "A002" None (Some (Demo.mk_page "p2" "A002" 5))
          "No matching Excel row"] = Ok plans
    /\ accepted Demo.always []
         [Call (PagesUpdate "p1" [("Amount", PNumber (of_Z 10))]);
          Delay 100; Call (DatabasesQuery "db")] = true
    /\ [Call (PagesUpdate "p1" [("Amount", PNumber (of_Z 10))])]
       = calls_of Demo.host " db " Demo.schema plans
    /\ [Call (DatabasesQuery "db")] = [Call (DatabasesQuery "db")]
    /\ (Backend = Backend ->
        Call (DatabasesQuery "db") = Call (DatabasesQuery "db")).
Proof.
  apply (X8_done_run_sent_every_plan Demo.host Backend Demo.always false ""
           " db " Demo.schema true
           (Some [Update "A001" Demo.row_A001 (Demo.mk_page "p1" "A001" 5)
                    [("Amount", PNumber (of_Z 10))];
                  Skip "A002" None (Some (Demo.mk_page "p2" "A002" 5))
                    "No matching Excel row"])
           Throw idle zero).
  - discriminate.
  - discriminate.
  - reflexivity.
Defined.

(** X9.  A run that ends with the status "error" either had no plans, the
    planner having thrown, and then it sent nothing; or a request was
    rejected, and then that request is the last event of the run and every
    request before it was fulfilled. *)
Theorem X9_failed_run_ends_at_rejection
  (host : Host) (rev : revision) (store : Store) (useMock : bool)
  (notionToken databaseId : string) (dbProps : list NotionPropertyDef)
  (createMissingSelectOptions : bool) (dryRun : option (list Plan))
  (planned : result (list Plan)) (status0 : RunStatus) (progress0 : number) :
  databaseId <> "" ->
  (rev = SdkClient -> notionToken <> "") ->
  let run :=
    onExecute host rev store useMock notionToken databaseId dbProps
      createMissingSelectOptions dryRun planned status0 progress0 in
  runStatus run = error ->
  dryRun = None /\ planned = Throw /\ run_trace run = []
  \/ exists pre r,
       run_trace run = pre ++ [Call r]
       /\ accepted store [] pre = true
       /\ store pre r = false.
Proof.
  intros Hdb Htok run Herr.
  destruct (match dryRun with Some plans => Ok plans | None => planned end)
    as [plans|] eqn:Hs.
  2: { left.
       destruct (onExecute_throw host rev store useMock notionToken
                   databaseId dbProps createMissingSelectOptions dryRun
                   planned status0 progress0 Hdb Htok Hs) as [_ Ht].
       destruct dryRun; [discriminate | now repeat split]. }
  right.
  destruct (onExecute_shape host rev store useMock notionToken databaseId
              dbProps createMissingSelectOptions dryRun planned status0
              progress0 Hdb Htok plans Hs) as (patchc & Hpatch & Hcases).
  fold run in Hcases.
  destruct Hcases as [(_ & Ht & r & -> & Hr) | (Hacc & [Hrej | Hok])].
  - exists [], r. now rewrite Ht.
  - destruct Hrej as (before & plan & after & r & added & _ & _ & _ & Ht
                      & _ & Hadded & Hr).
    exists (patchc ++ added), r. rewrite Ht, accepted_app. cbn [List.app].
    rewrite Hacc, Hadded. now rewrite List.app_assoc.
  - destruct Hok as (added & _ & Hadded & Hend).
    destruct Hend as [(_ & Hd & _) | (_ & Ht & Hst)]; [congruence|].
    rewrite Herr in Hst.
    destruct (store (patchc ++ added) _) eqn:Hquery; [discriminate|].
    eexists (patchc ++ added), _.
    rewrite Ht, accepted_app. cbn [List.app].
    rewrite Hacc, Hadded, List.app_assoc.
    repeat split. exact Hquery.
Qed.

Lemma X9_failed_run_ends_at_rejection_witness :
  Some Demo.tag_plans = None /\ Throw = Throw (A := list Plan)
  /\ [Call (DatabasesUpdate "db"
              [("Tags",
                {| patch_type := "multi_select";
                   patch_options :=
                     [new_option "red"; new_option "blue";
                      new_option "green"; new_option "teal"] |})])]
     = []
  \/ exists pre r,
       [Call (DatabasesUpdate "db"
                [("Tags",
                  {| patch_type := "multi_select";
                     patch_options :=
                       [new_option "red"; new_option "blue";
                        new_option "green"; new_option "teal"] |})])]
       = pre ++ [Call r]
       /\ accepted (fun _ _ => false) [] pre = true
       /\ false = false.
Proof.
  apply (X9_failed_run_ends_at_rejection Demo.host SdkClient
           (fun _ _ => false) false "secret" "db" Demo.schema true
           (Some Demo.tag_plans) Throw idle zero).
  - discriminate.
  - discriminate.
  - reflexivity.
Defined.

(** X10.  A run sends at most one schema patch, and only as its very first
    request: no later event is one.  It sends one only when "create missing
    select options" is on and, in the second revision, the mock backend is
    off. *)
Theorem X10_schema_patch_comes_first
  (host : Host) (rev : revision) (store : Store) (useMock : bool)
  (notionToken databaseId : string) (dbProps : list NotionPropertyDef)
  (createMissingSelectOptions : bool) (dryRun : option (list Plan))
  (planned : result (list Plan)) (status0 : RunStatus) (progress0 : number) :
  databaseId <> "" ->
  (rev = SdkClient -> notionToken <> "") ->
  let run :=
    onExecute host rev store useMock notionToken databaseId dbProps
      createMissingSelectOptions dryRun planned status0 progress0 in
  (forall e, e ∈ List.tl (run_trace run) -> is_schema_patch e = false)
  /\ (forall e,
        e ∈ run_trace run -> is_schema_patch e = true ->
        createMissingSelectOptions = true
        /\ (rev = Backend -> useMock = false)).
Proof.
  intros Hdb Htok run.
  destruct (match dryRun with Some plans => Ok plans | None => planned end)
    as [plans|] eqn:Hs.
  2: { destruct (onExecute_throw host rev store useMock notionToken
                   databaseId dbProps createMissingSelectOptions dryRun
                   planned status0 progress0 Hdb Htok Hs) as [_ Ht].
       fold run in Ht. rewrite Ht. simpl.
       split; intros e He; now apply elem_of_nil in He. }
  destruct (onExecute_shape host rev store useMock notionToken databaseId
              dbProps createMissingSelectOptions dryRun planned status0
              progress0 Hdb Htok plans Hs) as (patchc & Hpatch & Hcases).
  fold run in Hcases.
  assert (exists rest,
            run_trace run = patchc ++ rest
            /\ forall e, e ∈ rest -> is_schema_patch e = false)
    as (rest & Ht & Hrest).
  { destruct Hcases as [(_ & Ht & _) | (_ & [Hrej | Hok])].
    - exists []. rewrite List.app_nil_r. split; [assumption|].
      intros e He. now apply elem_of_nil in He.
    - destruct Hrej as (before & plan & after & r & added & _ & _ & Hr & Ht
                        & Hcalls & _).
      exists (added ++ [Call r]). split; [assumption|].
      apply added_page_requests in Hcalls as (_ & _ & Hno).
      intros e [He | He%list_elem_of_singleton]%elem_of_app;
        [now apply Hno|].
      subst e. destruct plan; simpl in Hr; now inversion Hr.
    - destruct Hok as (added & Hcalls & _ & Hend).
      apply added_page_requests in Hcalls as (_ & _ & Hno).
      destruct Hend as [(_ & _ & Ht) | (_ & Ht & _)].
      + now exists added.
      + exists (added ++ [Call (DatabasesQuery (JsString.trim databaseId))]).
        split; [assumption|].
        intros e [He | He%list_elem_of_singleton]%elem_of_app;
          [now apply Hno | now subst e]. }
  rewrite Ht.
  destruct Hpatch as [-> | (Hon & Hmock & props & ->)]; simpl.
  - split.
    + intros e He. apply Hrest. destruct rest; simpl in He;
        [now apply elem_of_nil in He | now apply elem_of_cons; right].
    + intros e He Hp. apply Hrest in He. congruence.
  - split; [exact Hrest | now intros].
Qed.

Lemma X10_schema_patch_comes_first_witness :
  (forall e,
      e ∈ List.tl
            (run_trace
               (onExecute Demo.host SdkClient Demo.always false "secret" "db"
                  Demo.schema true (Some Demo.tag_plans) Throw idle zero)) ->
      is_schema_patch e = false)
  /\ (forall e,
        e ∈ run_trace
              (onExecute Demo.host SdkClient Demo.always false "secret" "db"
                 Demo.schema true (Some Demo.tag_plans) Throw idle zero) ->
        is_schema_patch e = true ->
        true = true /\ (SdkClient = Backend -> false = false)).
Proof.
  apply (X10_schema_patch_comes_first Demo.host SdkClient Demo.always false
           "secret" "db" Demo.schema true (Some Demo.tag_plans) Throw idle
           zero); discriminate.
Defined.

(** ** Creating a page: the title *)

Lemma obj_has_get {A : Type} (o : obj A) (k : string) :
  obj_has o k = true <-> is_Some (obj_get o k).
Proof.
  unfold obj_has. destruct (obj_get o k); split; intros H;
    try discriminate; try reflexivity; [now eexists | now destruct H].
Qed.

(** X11.  The properties of a page to create are the staged changes, to which
    only a title can be added: every staged value is sent as it is, a title
    staged by a mapping included; when the schema has a title property that
    the changes do not set, the page gets the plan's key as its title, unless
    the property bears a name that every object inherits ([constructor],
    [toString], ...): reading the changes under such a name finds the
    inherited member, and the page is sent without a title; and no other
    property is touched. *)
Theorem X11_created_page_gets_title
  (host : Host) (dbProps : list NotionPropertyDef) (key : string)
  (changes : obj payload) :
  let props := create_properties host dbProps key changes in
  (forall k v, obj_get changes k = Some v -> obj_get props k = Some v)
  /\ (forall t,
        titlePropName dbProps = Some t -> t <> "" -> inherited t = false ->
        obj_get props t
        = Some (match obj_get changes t with
                | Some v => v
                | None => PTitle key
                end))
  /\ (forall t,
        titlePropName dbProps = Some t -> inherited t = true ->
        props = changes)
  /\ (forall k,
        titlePropName dbProps <> Some k ->
        obj_get props k = obj_get changes k).
Proof.
  cbv zeta. unfold create_properties.
  destruct (titlePropName dbProps) as [t|]; [|repeat split; congruence].
  destruct (String.eqb_spec t "") as [-> | Ht]; simpl negb; cbv iota;
    simpl andb; cbv iota.
  { repeat split; congruence. }
  unfold obj_has. destruct (obj_get changes t) as [v|] eqn:Hget; simpl.
  - repeat split; try congruence. intros t' [= <-] _ _. now rewrite Hget.
  - destruct (inherited t) eqn:Hin; simpl.
    { repeat split; congruence. }
    repeat split.
    + intros k v Hk. rewrite obj_get_set.
      destruct (String.eqb_spec t k) as [<- | _]; congruence.
    + intros t' [= <-] _ _. rewrite obj_get_set, String.eqb_refl.
      now rewrite Hget.
    + intros t' [= <-]. congruence.
    + intros k Hk. rewrite obj_get_set.
      destruct (String.eqb_spec t k) as [<- | _]; congruence.
Qed.

Lemma X11_created_page_gets_title_witness :
  obj_get
    (create_properties Demo.host Demo.schema "X999"
       [("Amount", PNumber (of_Z 7))]) "Key"
  = Some (PTitle "X999")
  /\ create_properties Demo.host
       [ {| name := "constructor"; type := "title"; options := Some [] |};
         {| name := "Amount"; type := "number"; options := Some [] |} ]
       "X999" [("Amount", PNumber (of_Z 7))]
     = [("Amount", PNumber (of_Z 7))].
Proof.
  split.
  - exact (proj1 (proj2 (X11_created_page_gets_title Demo.host Demo.schema
                           "X999" [("Amount", PNumber (of_Z 7))]))
             "Key" eq_refl ltac:(discriminate) eq_refl).
  - exact (proj1 (proj2 (proj2 (X11_created_page_gets_title Demo.host
                                   [ {| name := "constructor"; type := "title";
                                        options := Some [] |};
                                     {| name := "Amount"; type := "number";
                                        options := Some [] |} ]
                                   "X999" [("Amount", PNumber (of_Z 7))])))
             "constructor" eq_refl eq_refl).
Defined.

(** ** Encoding: when a value is staged, and under which key *)

(** X12.  Nothing is staged for a cell that is null or undefined, whatever
    the type.  Any other cell is staged for every target type but number,
    date and checkbox, the three that can refuse a value.  What is staged is
    filed under the target type, and under rich text when the type is not one
    the encoder knows. *)
Theorem X12_encode_defined_and_typed
  (host : Host) (targetType : string) (value : Js.value) :
  (nullish value = true ->
   buildNotionPropertyValue host targetType value = None)
  /\ (nullish value = false -> partial_type targetType = false ->
      is_Some (buildNotionPropertyValue host targetType value))
  /\ (forall p,
        buildNotionPropertyValue host targetType value = Some p ->
        nullish value = false
        /\ payload_type p = encoded_type targetType).
Proof.
  unfold buildNotionPropertyValue, buildNotionPropertyValue_opt.
  destruct (nullish value) eqn:Hn.
  { repeat split; discriminate. }
  split; [discriminate|]. split.
  - intros _. unfold partial_type. simpl List.existsb.
    destruct (String.eqb_spec targetType "number") as [-> | Hnum];
      [discriminate|].
    destruct (String.eqb_spec targetType "date") as [-> | Hdate];
      [discriminate|].
    destruct (String.eqb_spec targetType "checkbox") as [-> | Hbox];
      [discriminate|].
    intros _.
    destruct (String.eqb targetType "title"); [now eexists|].
    destruct (String.eqb targetType "rich_text"); [now eexists|].
    destruct (String.eqb targetType "email"); [now eexists|].
    destruct (String.eqb targetType "url"); [now eexists|].
    destruct (String.eqb targetType "phone_number"); [now eexists|].
    destruct (String.eqb targetType "select"); [now eexists|].
    destruct (String.eqb targetType "multi_select").
    { destruct value; now eexists. }
    destruct (String.eqb targetType "status"); now eexists.
  - intros p. unfold encoded_type. simpl List.existsb.
    destruct (String.eqb_spec targetType "title") as [-> | ?].
    { intros [= <-]. now split. }
    destruct (String.eqb_spec targetType "rich_text") as [-> | ?].
    { intros [= <-]. now split. }
    destruct (String.eqb_spec targetType "number") as [-> | ?].
    { destruct (isFinite _); intros [= <-]. now split. }
    destruct (String.eqb_spec targetType "email") as [-> | ?].
    { intros [= <-]. now split. }
    destruct (String.eqb_spec targetType "url") as [-> | ?].
    { intros [= <-]. now split. }
    destruct (String.eqb_spec targetType "phone_number") as [-> | ?].
    { intros [= <-]. now split. }
    destruct (String.eqb_spec targetType "select") as [-> | ?].
    { intros [= <-]. now split. }
    destruct (String.eqb_spec targetType "multi_select") as [-> | ?].
    { destruct value; intros [= <-]; now split. }
    destruct (String.eqb_spec targetType "date") as [-> | ?].
    { destruct (DateToISOString host value); intros [= <-]. now split. }
    destruct (String.eqb_spec targetType "checkbox") as [-> | ?].
    { destruct (in_truthy_list value); [intros [= <-]; now split|].
      destruct (in_falsy_list value); intros [= <-]. now split. }
    destruct (String.eqb_spec targetType "status") as [-> | ?].
    { intros [= <-]. now split. }
    intros [= <-]. now split.
Qed.

Lemma X12_encode_defined_and_typed_witness :
  (nullish (VStr "hello") = true ->
   buildNotionPropertyValue Demo.host "formula" (VStr "hello") = None)
  /\ (nullish (VStr "hello") = false -> partial_type "formula" = false ->
      is_Some (buildNotionPropertyValue Demo.host "formula" (VStr "hello")))
  /\ (forall p,
        buildNotionPropertyValue Demo.host "formula" (VStr "hello") = Some p ->
        nullish (VStr "hello") = false
        /\ payload_type p = encoded_type "formula").
Proof.
  exact (X12_encode_defined_and_typed Demo.host "formula" (VStr "hello")).
Defined.

(** ** Decoding, then encoding again *)

Module SplitFacts.
Import Js.
Import JsString.

Lemma string_of_rev_rev (s : string) :
  string_of_list_ascii (List.rev (List.rev (list_ascii_of_string s))) = s.
Proof. now rewrite List.rev_involutive, string_of_list_ascii_of_string. Qed.

Lemma append_empty_r (s : string) : (s ++ "")%string = s.
Proof.
  induction s as [|c s IH]; [reflexivity|].
  change (String c (s ++ "")%string = String c s). now rewrite IH.
Qed.

(** Reading a stretch without separators only grows the current segment. *)
Lemma split_sep_plain (n rest : string) (cur : list ascii) :
  List.forallb (fun c => negb (is_separator c)) (list_ascii_of_string n)
  = true ->
  split_sep (n ++ rest) cur false
  = split_sep rest (List.rev (list_ascii_of_string n) ++ cur) false.
Proof.
  revert cur. induction n as [|c n IH]; intros cur H; [reflexivity|].
  simpl in H. apply andb_true_iff in H as [Hc Hn].
  apply negb_true_iff in Hc. simpl. rewrite Hc, (IH _ Hn).
  now rewrite <- List.app_assoc.
Qed.

Lemma split_sep_clean (n rest : string) (cur : list ascii) (eating : bool) :
  clean_name n = true ->
  split_sep (n ++ rest) cur eating
  = split_sep rest (List.rev (list_ascii_of_string n) ++ cur) false.
Proof.
  destruct n as [|c n]; [discriminate|]. unfold clean_name.
  intros H. apply andb_true_iff in H as [Hsp Hall].
  apply negb_true_iff in Hsp. simpl in Hall.
  apply andb_true_iff in Hall as [Hc Hn]. apply negb_true_iff in Hc.
  simpl. rewrite Hsp, andb_false_r, Hc, (split_sep_plain _ _ _ Hn).
  now rewrite <- List.app_assoc.
Qed.

Lemma split_sep_join (names : list string) (eating : bool) :
  names <> [] ->
  List.forallb clean_name names = true ->
  split_sep (join ", " names) [] eating = names.
Proof.
  revert eating. induction names as [|x names IH]; intros eating Hne Hall;
    [congruence|].
  simpl in Hall. apply andb_true_iff in Hall as [Hx Hall].
  destruct names as [|y names].
  - simpl. rewrite <- (append_empty_r x) at 1.
    rewrite (split_sep_clean _ _ _ _ Hx). simpl.
    now rewrite List.app_nil_r, string_of_rev_rev.
  - change (join ", " (x :: y :: names))
      with (x ++ ", " ++ join ", " (y :: names))%string.
    rewrite (split_sep_clean _ _ _ _ Hx).
    remember (y :: names) as tail eqn:Et. simpl.
    rewrite List.app_nil_r, string_of_rev_rev. f_equal.
    apply IH; [subst tail; discriminate | assumption].
Qed.

Lemma clean_names_non_empty (names : list string) :
  List.forallb clean_name names = true ->
  List.filter (fun seg => negb (String.eqb seg "")) names = names.
Proof.
  induction names as [|x names IH]; [reflexivity|]. simpl.
  intros H. apply andb_true_iff in H as [Hx Hall].
  destruct x; [discriminate|]. simpl. now rewrite IH.
Qed.

(** Joining clean names and splitting them again gives the names back. *)
Lemma split_csv_join (names : list string) :
  List.forallb clean_name names = true ->
  List.filter (fun seg => negb (String.eqb seg ""))
    (split_csv (join ", " names)) = names.
Proof.
  intros Hall. destruct names as [|x names]; [reflexivity|].
  unfold split_csv. rewrite split_sep_join by (assumption || discriminate).
  now apply clean_names_non_empty.
Qed.

End SplitFacts.

(** X13.  Reading a property as the record store returns it and encoding
    the plain value for the same type gives the stored value back, for a
    finite number, an e-mail address, a URL, a phone number, a status, a
    check box, a select option with a name, and a multi-select whose names
    are clean (not empty, no leading white space, no comma or semicolon):
    such a property written back from its own plain value does not
    change. *)
Theorem X13_decode_then_encode_is_identity (host : Host) (p : payload) :
  restageable p = true ->
  exists plain,
    getNotionPropertyPlainValue host (tagged p) = Ok plain
    /\ buildNotionPropertyValue host (payload_type p) plain = Some p.
Proof.
  intros Hp. exists (plain_of p). split; [apply decode_tagged|].
  unfold buildNotionPropertyValue, buildNotionPropertyValue_opt.
  destruct p as [c | c | n | s | s | s | [nm|] | names | start | b | nm];
    try discriminate; try reflexivity.
  - simpl in *. now rewrite Hp.
  - simpl in *. unfold is_str. simpl.
    apply negb_true_iff in Hp. now rewrite Hp.
  - simpl in Hp. simpl. unfold non_empty.
    rewrite (SplitFacts.clean_names_non_empty _ Hp).
    now rewrite (SplitFacts.split_csv_join _ Hp).
  - now destruct b.
Qed.

Lemma X13_decode_then_encode_is_identity_witness :
  exists plain,
    getNotionPropertyPlainValue Demo.host
      (tagged (PMultiSelect ["red"; "dark blue"])) = Ok plain
    /\ buildNotionPropertyValue Demo.host "multi_select" plain
       = Some (PMultiSelect ["red"; "dark blue"]).
Proof.
  apply (X13_decode_then_encode_is_identity Demo.host
           (PMultiSelect ["red"; "dark blue"])).
  reflexivity.
Defined.

(** ** Keys are trimmed *)

Module TrimFacts.
Import JsString.

Lemma reverse_involutive (s : string) : reverse (reverse s) = s.
Proof.
  unfold reverse.
  now rewrite list_ascii_of_string_of_list_ascii, List.rev_involutive,
    string_of_list_ascii_of_string.
Qed.

Lemma trimStart_idempotent (s : string) : trimStart (trimStart s) = trimStart s.
Proof.
  induction s as [|c s IH]; [reflexivity|]. simpl.
  destruct (is_space c) eqn:Hc; [exact IH|]. simpl. now rewrite Hc.
Qed.

Lemma trimEnd_idempotent (s : string) : trimEnd (trimEnd s) = trimEnd s.
Proof.
  unfold trimEnd. now rewrite reverse_involutive, trimStart_idempotent.
Qed.

(** What [trimStart] leaves is empty or begins with a character that is not
    white space. *)
Lemma trimStart_head (s : string) :
  trimStart s = ""
  \/ exists c rest, trimStart s = String c rest /\ is_space c = false.
Proof.
  induction s as [|c s IH]; [now left|]. simpl.
  destruct (is_space c) eqn:Hc; [exact IH|]. right. now exists c, s.
Qed.

Lemma trimStart_snoc (l : list ascii) (c : ascii) :
  is_space c = false ->
  exists l',
    trimStart (string_of_list_ascii (l ++ [c])) = string_of_list_ascii (l' ++ [c]).
Proof.
  intros Hc. induction l as [|x l IH]; simpl.
  - rewrite Hc. now exists [].
  - destruct (is_space x); [exact IH|]. now exists (x :: l).
Qed.

(** Trimming the end keeps a first character that is not white space. *)
Lemma trimEnd_head (c : ascii) (rest : string) :
  is_space c = false ->
  exists rest', trimEnd (String c rest) = String c rest'.
Proof.
  intros Hc. unfold trimEnd, reverse at 2. simpl list_ascii_of_string.
  simpl List.rev.
  destruct (trimStart_snoc (List.rev (list_ascii_of_string rest)) c Hc)
    as [l' ->].
  unfold reverse.
  rewrite list_ascii_of_string_of_list_ascii, List.rev_app_distr. simpl.
  now eexists.
Qed.

Lemma trim_idempotent (s : string) : trim (trim s) = trim s.
Proof.
  unfold trim.
  destruct (trimStart_head s) as [-> | (c & rest & -> & Hc)]; [reflexivity|].
  destruct (trimEnd_head c rest Hc) as [rest' Hrest].
  rewrite Hrest at 1. simpl trimStart. rewrite Hc, <- Hrest.
  apply trimEnd_idempotent.
Qed.

End TrimFacts.

Lemma page_key_trimmed (host : Host) (notionKey : string) (pg : NotionPage) :
  JsString.trim (page_key host notionKey pg) = page_key host notionKey pg.
Proof.
  unfold page_key, notion_key_of.
  destruct (getNotionPropertyPlainValue host _) as [plain|]; [|reflexivity].
  simpl. destruct (negb (nullish plain)); [|reflexivity].
  apply TrimFacts.trim_idempotent.
Qed.

(** X14.  Every key of the spreadsheet index and of the record index, and
    so the key of every plan, is a non-empty string without white space at
    either end: trimming it changes nothing. *)
Theorem X14_keys_are_trimmed
  (host : Host) (rev : revision)
  (excelRows : list ExcelRow) (excelKey : string)
  (pages : list NotionPage) (notionKey : string)
  (nidx : JsMap NotionPage)
  (joinType : JoinType) (mappings : list Mapping)
  (dbProps : list NotionPropertyDef) (onlyUpdateEmpty allowCreatePages : bool)
  (plans : list Plan) :
  notionIndex host pages notionKey = Ok nidx ->
  buildPlannedUpdates host rev (excelIndex host excelRows excelKey) nidx
    joinType mappings dbProps onlyUpdateEmpty allowCreatePages = Ok plans ->
  (forall k,
      k ∈ map_keys (excelIndex host excelRows excelKey)
      \/ k ∈ map_keys nidx ->
      k <> "" /\ JsString.trim k = k)
  /\ (forall p,
        p ∈ plans ->
        plan_key p <> "" /\ JsString.trim (plan_key p) = plan_key p).
Proof.
  intros Hidx Hplans.
  assert (forall k,
            k ∈ map_keys (excelIndex host excelRows excelKey)
            \/ k ∈ map_keys nidx ->
            k <> "" /\ JsString.trim k = k) as Hkeys.
  { intros k [Hk | Hk].
    - destruct (String.eqb_spec excelKey "") as [He | He].
      + unfold excelIndex in Hk. rewrite He in Hk. simpl in Hk.
        now apply elem_of_nil in Hk.
      + rewrite (excelIndex_build host excelRows excelKey He) in Hk.
        apply build_keys in Hk as [Hne (r & _ & <-)].
        split; [assumption|]. apply TrimFacts.trim_idempotent.
    - destruct (String.eqb_spec notionKey "") as [He | He].
      + unfold notionIndex in Hidx. rewrite He in Hidx. simpl in Hidx.
        injection Hidx as <-. now apply elem_of_nil in Hk.
      + rewrite (notionIndex_is_build host pages notionKey nidx He Hidx)
          in Hk.
        apply build_keys in Hk as [Hne (r & _ & <-)].
        split; [assumption|]. apply page_key_trimmed. }
  split; [exact Hkeys|].
  intros p Hp. apply Hkeys.
  destruct (buildPlannedUpdates_spec _ _ _ _ _ _ _ _ _ _ Hplans) as [Hmap _].
  eapply select_keys_indexed. rewrite <- Hmap.
  apply list_elem_of_fmap. now exists p.
Qed.

Lemma X14_keys_are_trimmed_witness :
  (forall k,
      k ∈ map_keys (excelIndex Demo.host Demo.twin_rows "Key")
      \/ k ∈ map_keys [("A001", Demo.mk_page "p2" "A001" 6)] ->
      k <> "" /\ JsString.trim k = k)
  /\ (forall p,
        p ∈ [Update "A001" [("Key", VStr " A001 "); ("Amount", VStr "2")]
               (Demo.mk_page "p2" "A001" 6)
               [("Amount", PNumber (of_Z 2))]] ->
        plan_key p <> "" /\ JsString.trim (plan_key p) = plan_key p).
Proof.
  apply (X14_keys_are_trimmed Demo.host Backend Demo.twin_rows "Key"
           Demo.twin_pages "Key" _ outer [Demo.amount_mapping] Demo.schema
           false false _ eq_refl eq_refl).
Defined.

(** ** The summary of the join and the plans *)

Lemma common_keys_length (l r : list string) :
  NoDup l -> NoDup r ->
  List.length (List.filter (set_has r) l)
  = List.length (List.filter (set_has l) r).
Proof.
  intros Hl Hr. apply Permutation_length, NoDup_Permutation.
  - now apply NoDup_ListNoDup, List.NoDup_filter, NoDup_ListNoDup.
  - now apply NoDup_ListNoDup, List.NoDup_filter, NoDup_ListNoDup.
  - intros x. rewrite !list_elem_of_In, !List.filter_In, <- !list_elem_of_In.
    split; intros [Hin Hhas]; apply set_has_true in Hhas;
      (split; [assumption | now apply set_has_true]).
Qed.

Lemma filter_split_length {A : Type} (f : A -> bool) (l : list A) :
  List.length l
  = List.length (List.filter f l)
    + List.length (List.filter (fun x => negb (f x)) l).
Proof.
  induction l as [|x l IH]; [reflexivity|]. simpl.
  destruct (f x); simpl; lia.
Qed.

(** X15.  The numbers of the join summary add up, and they are the numbers
    of plans: the rows with a key are those matched plus those only in the
    spreadsheet, the records with a key are those matched plus those only in
    the store, and the planner makes as many plans as the summary counts on
    the left for a left join, on the right for a right join, in both for an
    inner join, and on the left plus right-only for an outer join. *)
Theorem X15_join_summary_counts_the_plans
  (host : Host) (rev : revision)
  (excelRows : list ExcelRow) (excelKey : string)
  (pages : list NotionPage) (notionKey : string)
  (nidx : JsMap NotionPage)
  (joinType : JoinType) (mappings : list Mapping)
  (dbProps : list NotionPropertyDef) (onlyUpdateEmpty allowCreatePages : bool)
  (plans : list Plan) :
  notionIndex host pages notionKey = Ok nidx ->
  buildPlannedUpdates host rev (excelIndex host excelRows excelKey) nidx
    joinType mappings dbProps onlyUpdateEmpty allowCreatePages = Ok plans ->
  let summary :=
    Session.joinSummary (excelIndex host excelRows excelKey) nidx in
  Session.leftCount summary
  = Session.bothCount summary + List.length (Session.leftOnly summary)
  /\ Session.rightCount summary
     = Session.bothCount summary + List.length (Session.rightOnly summary)
  /\ List.length plans
     = match joinType with
       | left => Session.leftCount summary
       | right => Session.rightCount summary
       | inner => Session.bothCount summary
       | outer =>
           Session.leftCount summary
           + List.length (Session.rightOnly summary)
       end.
Proof.
  intros Hidx Hplans.
  pose proof (excelIndex_NoDup host excelRows excelKey) as He.
  pose proof (notionIndex_NoDup host pages notionKey nidx Hidx) as Hn.
  destruct (buildPlannedUpdates_spec _ _ _ _ _ _ _ _ _ _ Hplans) as [Hmap _].
  apply (f_equal (@List.length string)) in Hmap.
  rewrite List.length_map, select_keys_explicit in Hmap by assumption.
  set (eidx := excelIndex host excelRows excelKey) in *.
  unfold Session.joinSummary. cbv zeta. simpl.
  rewrite !set_of_list_NoDup_id by assumption.
  change (List.fold_left _ (map_keys eidx) [])
    with (List.fold_left (add_if (set_has (map_keys nidx)))
            (map_keys eidx) []).
  rewrite fold_add_if_filter.
  change (List.fold_left set_add ?l []) with (set_of_list l).
  rewrite set_of_list_NoDup_id
    by now apply NoDup_ListNoDup, List.NoDup_filter, NoDup_ListNoDup.
  split; [apply filter_split_length|]. split.
  - rewrite (common_keys_length _ _ He Hn). apply filter_split_length.
  - rewrite Hmap. destruct joinType; try reflexivity.
    + f_equal. apply List.filter_ext. intros k.
      symmetry. apply set_has_map_has.
    + rewrite List.length_app. f_equal. f_equal.
      apply List.filter_ext. intros k. now rewrite set_has_map_has.
Qed.

Lemma X15_join_summary_counts_the_plans_witness :
  let summary :=
    Session.joinSummary (excelIndex Demo.host Demo.rows "Key")
      [("A001", Demo.mk_page "p1" "A001" 5);
       ("A002", Demo.mk_page "p2" "A002" 5)] in
  Session.leftCount summary
  = Session.bothCount summary + List.length (Session.leftOnly summary)
  /\ Session.rightCount summary
     = Session.bothCount summary + List.length (Session.rightOnly summary)
  /\ 3 = Session.leftCount summary + List.length (Session.rightOnly summary).
Proof.
  apply (X15_join_summary_counts_the_plans Demo.host Backend Demo.rows "Key"
           Demo.pages "Key" _ outer [Demo.amount_mapping] Demo.schema
           false false _ eq_refl eq_refl).
Defined.

(** ** The option reconciler on the mock backend *)

Module MockSchemaFacts.
Import Js.
Import CollectionFacts.
Import ObjectFacts.
Import ReconcilerFacts.

Section ByProp.

Let by_step (byProp : JsMap StrSet) (n : Needed) : JsMap StrSet :=
  let set := match map_get byProp (name (prop n)) with
             | Some s => s
             | None => []
             end in
  map_set byProp (name (prop n)) (set_add set (needed_name n)).

Lemma by_fold_get (needed : list Needed) (acc : JsMap StrSet) (k : string) :
  map_get (List.fold_left by_step needed acc) k
  = match names_for k needed with
    | [] => map_get acc k
    | asked =>
        Some (List.fold_left set_add asked
                (match map_get acc k with Some s => s | None => [] end))
    end.
Proof.
  revert acc. induction needed as [|n needed IH]; intros acc; [reflexivity|].
  simpl List.fold_left. rewrite IH. unfold names_for. simpl List.filter.
  unfold by_step.
  destruct (String.eqb_spec (name (prop n)) k) as [<- | Hne].
  - rewrite map_get_set_eq. simpl List.map.
    now destruct (List.map needed_name _).
  - now rewrite map_get_set_ne by assumption.
Qed.

Lemma by_fold_NoDup (needed : list Needed) (acc : JsMap StrSet) :
  NoDup (map_keys acc) ->
  NoDup (map_keys (List.fold_left by_step needed acc)).
Proof.
  revert acc. induction needed as [|n needed IH]; intros acc Hacc; simpl.
  - exact Hacc.
  - apply IH. unfold by_step. now apply map_set_NoDup.
Qed.

End ByProp.

Lemma fold_left_pointwise {A B : Type} (f g : A -> B -> A) (l : list B)
  (a : A) :
  (forall a b, f a b = g a b) -> List.fold_left f l a = List.fold_left g l a.
Proof.
  intros H. revert a. induction l as [|b l IH]; intros a; [reflexivity|].
  simpl. now rewrite H, IH.
Qed.

Section Rewrite.
Variable dbProps : list NotionPropertyDef.

Let next (propName : string) (names : StrSet) : list SelectOption :=
  let def := List.find (fun p => String.eqb (name p) propName) dbProps in
  options_or_empty def
  ++ List.map new_option (names_to_add (options_or_empty def) names).

Let upd (entry : string * StrSet) (p : NotionPropertyDef)
  : NotionPropertyDef :=
  if String.eqb (name p) (fst entry)
  then {| name := name p; type := type p;
          options := Some (next (fst entry) (snd entry)) |}
  else p.

Lemma upd_name (entry : string * StrSet) (p : NotionPropertyDef) :
  name (upd entry p) = name p.
Proof. unfold upd. now destruct (String.eqb _ _). Qed.

Lemma upd_fold_absent (entries : JsMap StrSet) (p : NotionPropertyDef) :
  map_get entries (name p) = None ->
  List.fold_left (fun p e => upd e p) entries p = p.
Proof.
  revert p. induction entries as [|[k names] entries IH]; intros p H;
    [reflexivity|].
  simpl in H. unfold map_get in H. simpl in H.
  destruct (String.eqb_spec k (name p)) as [-> | Hne]; [discriminate|].
  simpl. unfold upd at 2. simpl fst.
  destruct (String.eqb_spec (name p) k) as [He | _]; [congruence|].
  now apply IH.
Qed.

Lemma upd_fold (entries : JsMap StrSet) (p : NotionPropertyDef) :
  NoDup (map_keys entries) ->
  List.fold_left (fun p e => upd e p) entries p
  = match map_get entries (name p) with
    | Some names =>
        {| name := name p; type := type p;
           options := Some (next (name p) names) |}
    | None => p
    end.
Proof.
  revert p. induction entries as [|[k names] entries IH]; intros p Hnd;
    [reflexivity|].
  simpl in Hnd. apply NoDup_cons in Hnd as [Hk Hnd].
  unfold map_get. simpl.
  destruct (String.eqb_spec k (name p)) as [-> | Hne].
  - unfold upd at 2. simpl fst. simpl snd. rewrite String.eqb_refl.
    apply upd_fold_absent. simpl.
    apply map_get_None. exact Hk.
  - unfold upd at 2. simpl fst.
    destruct (String.eqb_spec (name p) k) as [He | _]; [congruence|].
    now apply IH.
Qed.

Lemma map_fold (entries : JsMap StrSet) (prev : list NotionPropertyDef) :
  List.fold_left (fun prev e => List.map (upd e) prev) entries prev
  = List.map (fun p => List.fold_left (fun p e => upd e p) entries p) prev.
Proof.
  revert prev. induction entries as [|e entries IH]; intros prev; simpl.
  - now rewrite List.map_id.
  - now rewrite IH, List.map_map.
Qed.

Lemma mock_update_schema_map (needed : list Needed) :
  mock_update_schema dbProps needed
  = List.map (with_missing_options dbProps needed) dbProps.
Proof.
  unfold mock_update_schema. cbv zeta.
  match goal with |- List.fold_left _ ?byProp _ = _ =>
    set (entries := byProp) end.
  assert (NoDup (map_keys entries)) as Hnd
    by (apply by_fold_NoDup, NoDup_nil_2).
  assert (forall k,
            map_get entries k
            = match names_for k needed with
              | [] => None
              | asked => Some (set_of_list asked)
              end) as Hget.
  { intros k. unfold entries. rewrite by_fold_get.
    now destruct (names_for k needed). }
  transitivity
    (List.fold_left (fun prev e => List.map (upd e) prev) entries dbProps).
  { apply fold_left_pointwise. intros prev [k names]. reflexivity. }
  rewrite map_fold. apply List.map_ext. intros p.
  rewrite (upd_fold _ _ Hnd), Hget. unfold with_missing_options.
  destruct (names_for (name p) needed) as [|nm asked]; [reflexivity|].
  cbv zeta. unfold next. now rewrite names_to_add_missing.
Qed.

End Rewrite.

End MockSchemaFacts.

(** X16.  On the mock backend the option reconciler sends nothing and
    rewrites the local schema instead: the properties keep their order, their
    names and their types; a property that no needed option names is left as
    it is; a property that one names gets the options of the first property
    of its name, as they are, followed by the names that were missing, in the
    order in which they are first asked for.  Afterwards every option name
    asked for under a property is among the options of that property. *)
Theorem X16_mock_reconciler_rewrites_local_schema
  (databaseId : string) (dbProps : list NotionPropertyDef)
  (needed : list Needed) :
  let rec := ensureSelectOptions Backend true databaseId dbProps needed in
  patch rec = None
  /\ schema rec = List.map (with_missing_options dbProps needed) dbProps
  /\ List.map name (schema rec) = List.map name dbProps
  /\ List.map type (schema rec) = List.map type dbProps
  /\ (forall p nm,
        p ∈ schema rec ->
        nm ∈ names_for (name p) needed ->
        nm ∈ List.map option_name (options_or_empty (Some p))).
Proof.
  cbv zeta.
  assert (schema (ensureSelectOptions Backend true databaseId dbProps needed)
          = List.map (with_missing_options dbProps needed) dbProps) as Hs.
  { unfold ensureSelectOptions. destruct needed as [|n needed].
    - simpl. symmetry. erewrite List.map_ext; [apply List.map_id|].
      intros p. reflexivity.
    - simpl Nat.eqb. cbv iota. simpl schema.
      apply MockSchemaFacts.mock_update_schema_map. }
  assert (forall p, name (with_missing_options dbProps needed p) = name p
                    /\ type (with_missing_options dbProps needed p) = type p)
    as Hsame.
  { intros p. unfold with_missing_options.
    now destruct (names_for (name p) needed). }
  split; [|split; [exact Hs|]].
  { unfold ensureSelectOptions. now destruct (_ =? 0)%nat. }
  rewrite Hs, !List.map_map. repeat split.
  - apply List.map_ext. intros p. apply Hsame.
  - apply List.map_ext. intros p. apply Hsame.
  - intros p' nm Hp' Hnm.
    apply list_elem_of_In, List.in_map_iff in Hp' as (p & <- & _).
    rewrite (proj1 (Hsame p)) in Hnm. unfold with_missing_options.
    destruct (names_for (name p) needed) as [|nm0 asked] eqn:Hasked;
      [now apply elem_of_nil in Hnm|].
    cbv zeta. simpl options_or_empty.
    set (old := options_or_empty _).
    rewrite List.map_app, List.map_map. simpl.
    rewrite List.map_id. apply elem_of_app.
    destruct (set_has (List.map option_name old) nm) eqn:Hhas.
    + left. now apply CollectionFacts.set_has_true.
    + right. unfold missing_names.
      apply list_elem_of_In, List.filter_In. split; [|now rewrite Hhas].
      apply list_elem_of_In.
      rewrite <- ReconcilerFacts.set_of_list_first_seen.
      now apply CollectionFacts.set_of_list_elem.
Qed.

(** ** The bearer token, from the client to the server *)

Lemma slice_from_append (a b : string) :
  Proxy.slice_from (String.length a) (a ++ b) = b.
Proof. induction a as [|c a IH]; [now destruct b | exact IH]. Qed.

Lemma prefix_append (a b : string) : String.prefix a (a ++ b) = true.
Proof.
  induction a as [|c a IH]; [now destruct b|].
  change (String c a ++ b)%string with (String c (a ++ b)%string).
  simpl. now destruct (ascii_dec c c).
Qed.

(** X17.  The server reads back the token the client sends: for a token
    that is not empty, [getToken] applied to the [Authorization] header that
    the proxy client sets returns that very token, whatever the environment
    holds; for an empty token the client sends an empty header and the server
    falls back on its environment variable, or on the empty string. *)
Theorem X17_server_reads_the_client_token (token : string)
  (env : option string) :
  Proxy.getToken (Some (Proxy.authorization token)) env
  = if String.eqb token "" then match env with Some t => t | None => "" end
    else token.
Proof.
  unfold Proxy.authorization, Proxy.getToken.
  destruct (String.eqb token "") eqn:Ht; [reflexivity|].
  simpl negb. cbv iota. rewrite prefix_append.
  change (("Bearer " ++ token)%string =? "")%string with false.
  apply (slice_from_append "Bearer " token).
Qed.

(** ** The columns of an upload *)

Lemma fold_rows_concat (json : list ExcelRow) (acc : StrSet) :
  List.fold_left
    (fun acc row => List.fold_left set_add (obj_keys row) acc) json acc
  = List.fold_left set_add (List.concat (List.map obj_keys json)) acc.
Proof.
  revert acc. induction json as [|row json IH]; intros acc; [reflexivity|].
  simpl. now rewrite List.fold_left_app, IH.
Qed.

(** X18.  The columns offered after an upload are the keys of the rows,
    each once, in the order in which the rows first show them; and the
    upload leaves a key column that is already chosen alone, choosing the
    first column only when there is none. *)
Theorem X18_columns_in_first_seen_order (json : list ExcelRow)
  (excelKey : string) :
  let cols := Session.excelColumns json in
  cols = first_seen (List.concat (List.map obj_keys json))
  /\ NoDup cols
  /\ (forall c, c ∈ cols <-> exists row, row ∈ json /\ c ∈ obj_keys row)
  /\ (Session.excelKey_after_upload excelKey cols = excelKey
      \/ excelKey = ""
         /\ List.head cols = Some (Session.excelKey_after_upload excelKey cols)).
Proof.
  cbv zeta. unfold Session.excelColumns. rewrite fold_rows_concat.
  change (List.fold_left set_add ?l []) with (set_of_list l).
  split; [apply ReconcilerFacts.set_of_list_first_seen|].
  split; [apply CollectionFacts.set_of_list_NoDup|]. split.
  - intros c. rewrite CollectionFacts.set_of_list_elem, list_elem_of_In,
      List.in_concat.
    split.
    + intros (keys & Hkeys & Hc). apply List.in_map_iff in Hkeys
        as (row & <- & Hrow).
      exists row. now rewrite !list_elem_of_In.
    + intros (row & Hrow & Hc). exists (obj_keys row).
      rewrite <- !list_elem_of_In. split; [|assumption].
      apply list_elem_of_fmap. now exists row.
  - unfold Session.excelKey_after_upload.
    destruct (set_of_list _) as [|first cols]; [now left|].
    destruct (String.eqb_spec excelKey "") as [-> | _];
      [now right | now left].
Qed.

(** ** Editing the mappings *)

Lemma find_unmapped {A : Type} (mapped : A -> bool) (l : list A) (x : A) :
  List.find (fun c => negb (mapped c)) l = Some x ->
  x ∈ l /\ mapped x = false
  /\ exists before after,
       l = before ++ x :: after
       /\ List.forallb mapped before = true.
Proof.
  induction l as [|y l IH]; [discriminate|]. simpl.
  destruct (mapped y) eqn:Hy; simpl.
  - intros H. destruct (IH H) as (Hin & Hx & before & after & -> & Hb).
    split; [now apply elem_of_cons; right|]. split; [assumption|].
    exists (y :: before), after. simpl. now rewrite Hy, Hb.
  - intros [= <-]. split; [apply list_elem_of_here|]. split; [assumption|].
    now exists [], l.
Qed.

(** X19.  Adding a mapping keeps the mappings there are and appends one
    with the identifier drawn: its column is the first column that no mapping
    uses, and its property the first property of the schema that no mapping
    targets, each left empty when there is none.  Removing the mapping just
    added gives the list back as it was, provided the identifier was fresh;
    and removing an identifier leaves no mapping with it and keeps the
    others in their order. *)
Theorem X19_add_then_remove_mapping (uid : string)
  (excelColumns : list string) (dbProps : list NotionPropertyDef)
  (mappings : list Mapping) :
  Forall (fun m => mapping_id m <> uid) mappings ->
  exists new,
    Session.addMapping uid excelColumns dbProps mappings = mappings ++ [new]
    /\ mapping_id new = uid
    /\ (excelColumn new = ""
        /\ List.forallb (Session.column_mapped mappings) excelColumns = true
        \/ exists before after,
             excelColumns = before ++ excelColumn new :: after
             /\ Session.column_mapped mappings (excelColumn new) = false
             /\ List.forallb (Session.column_mapped mappings) before = true)
    /\ (notionProperty new = ""
        /\ List.forallb (Session.property_mapped mappings) dbProps = true
        \/ exists before p after,
             dbProps = before ++ p :: after
             /\ notionProperty new = name p
             /\ Session.property_mapped mappings p = false
             /\ List.forallb (Session.property_mapped mappings) before = true)
    /\ Session.removeMapping uid
         (Session.addMapping uid excelColumns dbProps mappings) = mappings
    /\ forall id,
         Forall (fun m => mapping_id m <> id)
           (Session.removeMapping id mappings).
Proof.
  intros Hfresh. unfold Session.addMapping. eexists. split; [reflexivity|].
  simpl. split; [reflexivity|]. split; [|split; [|split]].
  - destruct (List.find _ excelColumns) as [c|] eqn:Hfind.
    + right. apply find_unmapped in Hfind
        as (_ & Hc & before & after & -> & Hb).
      now exists before, after.
    + left. split; [reflexivity|]. apply List.forallb_forall. intros c Hc.
      apply (List.find_none _ _ Hfind) in Hc. now apply negb_false_iff.
  - destruct (List.find _ dbProps) as [p|] eqn:Hfind.
    + right.
      apply (find_unmapped (Session.property_mapped mappings)) in Hfind
        as (_ & Hp & before & after & -> & Hb).
      now exists before, p, after.
    + left. split; [reflexivity|]. apply List.forallb_forall. intros p Hp.
      apply (List.find_none _ _ Hfind) in Hp. now apply negb_false_iff.
  - unfold Session.removeMapping. rewrite List.filter_app. simpl.
    rewrite String.eqb_refl. simpl. rewrite List.app_nil_r.
    induction Hfresh as [|m ms Hm _ IH]; [reflexivity|]. simpl.
    apply String.eqb_neq in Hm. rewrite Hm. simpl. now rewrite IH.
  - intros id. unfold Session.removeMapping.
    apply Forall_forall. intros m Hm.
    apply list_elem_of_In, List.filter_In in Hm as [_ Hm].
    apply negb_true_iff in Hm. now apply String.eqb_neq.
Qed.

Lemma X19_add_then_remove_mapping_witness :
  exists new,
    Session.addMapping "m2" ["Key"; "Amount"; "Note"] Demo.schema
      [Demo.amount_mapping]
    = [Demo.amount_mapping] ++ [new]
    /\ mapping_id new = "m2"
    /\ (excelColumn new = ""
        /\ List.forallb (Session.column_mapped [Demo.amount_mapping])
             ["Key"; "Amount"; "Note"] = true
        \/ exists before after,
             ["Key"; "Amount"; "Note"] = before ++ excelColumn new :: after
             /\ Session.column_mapped [Demo.amount_mapping] (excelColumn new)
                = false
             /\ List.forallb (Session.column_mapped [Demo.amount_mapping])
                  before = true)
    /\ (notionProperty new = ""
        /\ List.forallb (Session.property_mapped [Demo.amount_mapping])
             Demo.schema = true
        \/ exists before p after,
             Demo.schema = before ++ p :: after
             /\ notionProperty new = name p
             /\ Session.property_mapped [Demo.amount_mapping] p = false
             /\ List.forallb (Session.property_mapped [Demo.amount_mapping])
                  before = true)
    /\ Session.removeMapping "m2"
         (Session.addMapping "m2" ["Key"; "Amount"; "Note"] Demo.schema
            [Demo.amount_mapping]) = [Demo.amount_mapping]
    /\ forall id,
         Forall (fun m => mapping_id m <> id)
           (Session.removeMapping id [Demo.amount_mapping]).
Proof.
  apply (X19_add_then_remove_mapping "m2" ["Key"; "Amount"; "Note"]
           Demo.schema [Demo.amount_mapping]).
  repeat constructor. discriminate.
Defined.

(** ** The mock backend: an update, read back *)

Lemma fold_obj_set_get {A : Type} (b acc : obj A) (k : string) :
  NoDup (obj_keys b) ->
  obj_get
    (List.fold_left (fun o entry => obj_set o (fst entry) (snd entry)) b acc)
    k
  = match obj_get b k with
    | Some v => Some v
    | None => obj_get acc k
    end.
Proof.
  revert acc. induction b as [|[k0 v0] b IH]; intros acc Hnd; [reflexivity|].
  simpl in Hnd. apply NoDup_cons in Hnd as [Hk0 Hnd].
  simpl. rewrite (IH _ Hnd), obj_get_set.
  destruct (String.eqb_spec k0 k) as [<- | Hne]; [|reflexivity].
  apply (CollectionFacts.map_get_None b k0) in Hk0.
  unfold map_get in Hk0. now rewrite Hk0.
Qed.

Lemma spread_get {A : Type} (a b : obj A) (k : string) :
  NoDup (obj_keys a) -> NoDup (obj_keys b) ->
  obj_get (MockApi.spread a b) k
  = match obj_get b k with
    | Some v => Some v
    | None => obj_get a k
    end.
Proof.
  intros Ha Hb. unfold MockApi.spread.
  rewrite (fold_obj_set_get b _ k Hb), (fold_obj_set_get a _ k Ha).
  now destruct (obj_get a k).
Qed.

Lemma changes_json_get (changes : obj payload) (k : string) :
  obj_get (MockApi.changes_json changes) k
  = option_map to_json (obj_get changes k).
Proof.
  induction changes as [|[k0 v0] changes IH]; [reflexivity|]. simpl.
  now destruct (String.eqb k0 k).
Qed.

Lemma update_first_shape (page_id : string) (props : obj value)
  (pages pages' : list NotionPage) :
  MockApi.update_first page_id props pages = Some pages' ->
  exists before p after,
    pages = before ++ p :: after
    /\ pages'
       = before
         ++ {| Model.page_id := page_id;
               properties := MockApi.spread (properties p) props |} :: after
    /\ Forall (fun q => Model.page_id q <> page_id) before
    /\ Model.page_id p = page_id.
Proof.
  revert pages'. induction pages as [|q pages IH]; intros pages' H;
    [discriminate|].
  simpl in H. destruct (String.eqb_spec (Model.page_id q) page_id) as [He | Hne].
  - injection H as <-. exists [], q, pages. rewrite He. now repeat split.
  - destruct (MockApi.update_first page_id props pages) as [rest|];
      [|discriminate].
    injection H as <-.
    destruct (IH rest eq_refl) as (before & p & after & -> & -> & Hb & Hp).
    exists (q :: before), p, after. repeat split; try assumption.
    now constructor.
Qed.

(** X20.  An update on the mock backend touches the first page with the
    identifier and no other: that page keeps its identifier and the
    properties the changes do not name, and takes the staged value for each
    property they name.  Since a staged value carries no [type], every
    property just updated reads back as null. *)
Theorem X20_mock_update_reads_back_null
  (host : Host) (page_id : string) (changes : obj payload)
  (state state' : MockApi.MockState) :
  NoDup (obj_keys changes) ->
  Forall (fun p => NoDup (obj_keys (properties p)))
    (MockApi.mock_pages state) ->
  MockApi.updatePage page_id (MockApi.changes_json changes) state
  = Some state' ->
  MockApi.db state' = MockApi.db state
  /\ exists before p p' after,
       MockApi.mock_pages state = before ++ p :: after
       /\ MockApi.mock_pages state' = before ++ p' :: after
       /\ Forall (fun q => Model.page_id q <> page_id) before
       /\ Model.page_id p = page_id
       /\ Model.page_id p' = page_id
       /\ (forall k,
             obj_get (properties p') k
             = match obj_get changes k with
               | Some v => Some (to_json v)
               | None => obj_get (properties p) k
               end)
       /\ (forall k v,
             obj_get changes k = Some v ->
             getNotionPropertyPlainValue host
               (of_option (obj_get (properties p') k)) = Ok VNull).
Proof.
  intros Hc Hpages H. unfold MockApi.updatePage in H.
  destruct (MockApi.update_first _ _ _) as [pages'|] eqn:Hu; [|discriminate].
  injection H as <-. split; [reflexivity|].
  apply update_first_shape in Hu
    as (before & p & after & Hs & -> & Hb & Hp).
  simpl MockApi.mock_pages.
  eexists before, p, _, after. split; [exact Hs|]. split; [reflexivity|].
  assert (NoDup (obj_keys (properties p))) as Hnp.
  { rewrite Hs in Hpages. apply Forall_app in Hpages as [_ Hpages].
    now inversion Hpages. }
  assert (NoDup (obj_keys (MockApi.changes_json changes))) as Hnj.
  { unfold obj_keys, MockApi.changes_json in *.
    now rewrite List.map_map. }
  assert (forall k,
            obj_get (MockApi.spread (properties p)
                       (MockApi.changes_json changes)) k
            = match obj_get changes k with
              | Some v => Some (to_json v)
              | None => obj_get (properties p) k
              end) as Hget.
  { intros k. rewrite (spread_get _ _ k Hnp Hnj), changes_json_get.
    now destruct (obj_get changes k). }
  repeat split; try assumption.
  intros k v Hk. simpl properties. rewrite Hget, Hk. simpl.
  apply decode_untagged.
Qed.

Lemma X20_mock_update_reads_back_null_witness :
  Some "mock-db" = Some "mock-db"
  /\ exists before p p' after,
       Demo.pages = before ++ p :: after
       /\ [Demo.mk_page "p1" "A001" 5;
           {| Model.page_id := "p2";
              properties :=
                [("Key", Demo.text_prop "title" "A002");
                 ("Amount", VObj [("number", VNum (of_Z 7))])] |}]
          = before ++ p' :: after
       /\ Forall (fun q => Model.page_id q <> "p2") before
       /\ Model.page_id p = "p2"
       /\ Model.page_id p' = "p2"
       /\ (forall k,
             obj_get (properties p') k
             = match obj_get [("Amount", PNumber (of_Z 7))] k with
               | Some v => Some (to_json v)
               | None => obj_get (properties p) k
               end)
       /\ (forall k v,
             obj_get [("Amount", PNumber (of_Z 7))] k = Some v ->
             getNotionPropertyPlainValue Demo.host
               (of_option (obj_get (properties p') k)) = Ok VNull).
Proof.
  apply (X20_mock_update_reads_back_null Demo.host "p2"
           [("Amount", PNumber (of_Z 7))]
           {| MockApi.db := Some "mock-db"; MockApi.mock_pages := Demo.pages |}
           {| MockApi.db := Some "mock-db";
              MockApi.mock_pages :=
                [Demo.mk_page "p1" "A001" 5;
                 {| Model.page_id := "p2";
                    properties :=
                      [("Key", Demo.text_prop "title" "A002");
                       ("Amount", VObj [("number", VNum (of_Z 7))])] |}] |}).
  - repeat constructor. intros H. now apply elem_of_nil in H.
  - repeat constructor; simpl; rewrite ?elem_of_cons, ?elem_of_nil;
      intros H; repeat destruct H as [H | H]; try discriminate; assumption.
  - reflexivity.
Defined.

(** ** The two revisions of the planner *)

Module RevisionFacts.
Import Js.
Import CollectionFacts.

Lemma selectedDbPropDefs_snoc (dbProps : list NotionPropertyDef)
  (p : NotionPropertyDef) :
  selectedDbPropDefs (dbProps ++ [p])
  = map_set (selectedDbPropDefs dbProps) (name p) p.
Proof. unfold selectedDbPropDefs. now rewrite List.fold_left_app. Qed.

Lemma find_name_None (dbProps : list NotionPropertyDef) (n : string) :
  n ∉ List.map name dbProps ->
  List.find (fun p => String.eqb (name p) n) dbProps = None.
Proof.
  induction dbProps as [|p dbProps IH]; [reflexivity|]. simpl.
  rewrite elem_of_cons. intros H.
  destruct (String.eqb_spec (name p) n) as [He | _];
    [exfalso; apply H; now left | apply IH; tauto].
Qed.

Lemma find_app {A : Type} (f : A -> bool) (l1 l2 : list A) :
  List.find f (l1 ++ l2)
  = match List.find f l1 with
    | Some x => Some x
    | None => List.find f l2
    end.
Proof.
  induction l1 as [|x l1 IH]; [reflexivity|]. simpl.
  now destruct (f x).
Qed.

(** With distinct names, the last definition of a name is the first. *)
Lemma find_def_agree (dbProps : list NotionPropertyDef) (n : string) :
  NoDup (List.map name dbProps) ->
  find_def SdkClient dbProps n = find_def Backend dbProps n.
Proof.
  simpl. induction dbProps as [|p dbProps IH] using List.rev_ind;
    [reflexivity|].
  rewrite List.map_app. simpl. intros Hnd.
  apply NoDup_app in Hnd as (Hnd & Hp & _).
  rewrite selectedDbPropDefs_snoc, find_app. simpl.
  destruct (String.eqb_spec (name p) n) as [<- | Hne].
  - rewrite map_get_set_eq, find_name_None; [reflexivity|].
    intros Hin. apply (Hp _ Hin). apply list_elem_of_here.
  - rewrite map_get_set_ne by assumption. rewrite (IH Hnd).
    now destruct (List.find _ dbProps).
Qed.

Lemma find_name_Some (dbProps : list NotionPropertyDef) (n : string) :
  n ∈ List.map name dbProps ->
  is_Some (List.find (fun p => String.eqb (name p) n) dbProps).
Proof.
  induction dbProps as [|p dbProps IH]; simpl.
  - intros H. now apply elem_of_nil in H.
  - rewrite elem_of_cons. intros [-> | H].
    + rewrite String.eqb_refl. now eexists.
    + destruct (String.eqb (name p) n); [now eexists | now apply IH].
Qed.

Lemma plans_loop_pointwise (f g : string -> result (list Plan))
  (keys : list string) (plans : list Plan) :
  (forall k, f k = g k) -> plans_loop f keys plans = plans_loop g keys plans.
Proof.
  intros H. revert plans.
  induction keys as [|k keys IH]; intros plans; [reflexivity|].
  simpl. rewrite H. destruct (g k); [apply IH | reflexivity].
Qed.

End RevisionFacts.

(** X21.  The two revisions of the planner build the same plans whenever
    the names of the schema are distinct, as they are when the schema was
    loaded, and every mapping targets a property of the schema or none.
    What sets them apart is only a mapping to a property the schema lacks,
    and which of two properties of one name is looked up. *)
Theorem X21_revisions_build_the_same_plans
  (host : Host) (eidx : JsMap ExcelRow) (nidx : JsMap NotionPage)
  (joinType : JoinType) (mappings : list Mapping)
  (dbProps : list NotionPropertyDef) (onlyUpdateEmpty allowCreatePages : bool) :
  NoDup (List.map name dbProps) ->
  Forall
    (fun m =>
       notionProperty m = "" \/ notionProperty m ∈ List.map name dbProps)
    mappings ->
  buildPlannedUpdates host SdkClient eidx nidx joinType mappings dbProps
    onlyUpdateEmpty allowCreatePages
  = buildPlannedUpdates host Backend eidx nidx joinType mappings dbProps
      onlyUpdateEmpty allowCreatePages.
Proof.
  intros Hnd Hmap. unfold buildPlannedUpdates.
  apply RevisionFacts.plans_loop_pointwise. intros key.
  unfold plans_for_key.
  destruct (map_get eidx key) as [row|]; [|reflexivity].
  destruct (map_get nidx key) as [page|].
  - assert (forall changes,
              update_changes host SdkClient dbProps onlyUpdateEmpty row page
                mappings changes
              = update_changes host Backend dbProps onlyUpdateEmpty row page
                  mappings changes) as ->; [|reflexivity].
    induction Hmap as [|m ms Hm _ IH]; intros changes; [reflexivity|].
    simpl.
    assert (update_step host SdkClient dbProps onlyUpdateEmpty row page
              changes m
            = update_step host Backend dbProps onlyUpdateEmpty row page
                changes m) as ->.
    { unfold update_step.
      rewrite (RevisionFacts.find_def_agree dbProps _ Hnd).
      destruct (String.eqb_spec (notionProperty m) "") as [He | Hne];
        [reflexivity|].
      destruct Hm as [Hm | Hm]; [congruence|].
      apply RevisionFacts.find_name_Some in Hm.
      unfold map_has, obj_has.
      change (obj_get (selectedDbPropDefs dbProps) (notionProperty m))
        with (find_def SdkClient dbProps (notionProperty m)).
      rewrite (RevisionFacts.find_def_agree dbProps _ Hnd). simpl find_def.
      now destruct Hm as [def ->]. }
    destruct (update_step host Backend _ _ _ _ _ _); [apply IH | reflexivity].
  - assert (create_changes host SdkClient dbProps row mappings
            = create_changes host Backend dbProps row mappings) as ->;
      [|reflexivity].
    unfold create_changes. apply MockSchemaFacts.fold_left_pointwise.
    intros changes m. unfold create_step.
    now rewrite (RevisionFacts.find_def_agree dbProps _ Hnd).
Qed.

Lemma X21_revisions_build_the_same_plans_witness :
  buildPlannedUpdates Demo.host SdkClient
    (excelIndex Demo.host Demo.rows "Key")
    [("A001", Demo.mk_page "p1" "A001" 5)] outer
    [Demo.amount_mapping] Demo.schema false true
  = buildPlannedUpdates Demo.host Backend
      (excelIndex Demo.host Demo.rows "Key")
      [("A001", Demo.mk_page "p1" "A001" 5)] outer
      [Demo.amount_mapping] Demo.schema false true.
Proof.
  apply (X21_revisions_build_the_same_plans Demo.host
           (excelIndex Demo.host Demo.rows "Key")
           [("A001", Demo.mk_page "p1" "A001" 5)] outer
           [Demo.amount_mapping] Demo.schema false true).
  - simpl. repeat constructor; rewrite ?elem_of_cons, ?elem_of_nil;
      intros H; repeat destruct H as [H | H]; try discriminate; assumption.
  - constructor; [|constructor]. right. simpl.
    rewrite !elem_of_cons. tauto.
Defined.

(** ** Loading the records *)

Lemma fetch_pages_answers (server : Loader.Server)
  (answers : list Loader.QueryResponse) (extra : nat)
  (asked : list (option string)) (cursor : option string)
  (all : list NotionPage) :
  Loader.answers_from server asked cursor answers ->
  Loader.fetch_pages (List.length answers + extra) server asked cursor all
  = Some (Ok (all ++ List.concat (List.map Loader.results answers))).
Proof.
  revert asked cursor all.
  induction answers as [|resp rest IH]; intros asked cursor all H;
    [destruct H|].
  destruct H as [Hresp Hrest]. simpl. rewrite Hresp.
  destruct rest as [|resp' rest].
  - rewrite Hrest. simpl. now rewrite List.app_nil_r.
  - destruct Hrest as (next & -> & Hrest).
    rewrite (IH _ _ _ Hrest). now rewrite <- List.app_assoc.
Qed.

(** X22.  Loading gathers the records of every answer, in the order of the
    answers: when the store answers the first query and each following one,
    asked with the cursor of the answer before, until an answer ends the
    loop, the loader returns the records of all these answers, one after the
    other, and needs no more queries than there are answers.  An answer ends
    the loop when it has no more, and also when it says it has more but
    carries no cursor or an empty one: the records after it are then never
    asked for. *)
Theorem X22_loader_gathers_every_answer (server : Loader.Server)
  (answers : list Loader.QueryResponse) (extra : nat) :
  Loader.answers_from server [] None answers ->
  Loader.fetch_pages (List.length answers + extra) server [] None []
  = Some (Ok (List.concat (List.map Loader.results answers)))
  /\ exists last,
       List.last (List.map Some answers) None = Some last
       /\ (Loader.has_more last = false
           \/ Loader.next_cursor last = None
           \/ Loader.next_cursor last = Some "").
Proof.
  intros H. split; [exact (fetch_pages_answers _ _ _ _ _ [] H)|].
  assert (forall asked cursor,
            Loader.answers_from server asked cursor answers ->
            exists last,
              List.last (List.map Some answers) None = Some last
              /\ Loader.cursor_after last = None) as Hlast.
  { clear H. induction answers as [|resp rest IH]; intros asked cursor H;
      [destruct H|].
    destruct H as [_ Hrest]. destruct rest as [|resp' rest].
    - now exists resp.
    - destruct Hrest as (next & _ & Hrest).
      destruct (IH _ _ Hrest) as (last & Hs & Hc).
      exists last. split; assumption. }
  destruct (Hlast _ _ H) as (last & Hs & Hc).
  exists last. repeat split; try assumption.
  unfold Loader.cursor_after in Hc.
  destruct (Loader.has_more last); [|now left]. right.
  destruct (Loader.next_cursor last) as [c|]; [|now left]. right.
  destruct (String.eqb_spec c "") as [He | _]; [now rewrite He | discriminate].
Qed.

Lemma X22_loader_gathers_every_answer_witness :
  Loader.fetch_pages (2 + 0)
    (fun asked cursor =>
       match cursor with
       | None =>
           Some {| Loader.results := [Demo.mk_page "p1" "A001" 5];
                   Loader.has_more := true;
                   Loader.next_cursor := Some "c1" |}
       | Some _ =>
           Some {| Loader.results := [Demo.mk_page "p2" "A002" 5];
                   Loader.has_more := true;
                   Loader.next_cursor := Some "" |}
       end) [] None []
  = Some (Ok Demo.pages)
  /\ exists last,
       List.last
            (List.map Some
               [{| Loader.results := [Demo.mk_page "p1" "A001" 5];
                   Loader.has_more := true;
                   Loader.next_cursor := Some "c1" |};
                {| Loader.results := [Demo.mk_page "p2" "A002" 5];
                   Loader.has_more := true;
                   Loader.next_cursor := Some "" |}]) None = Some last
       /\ (Loader.has_more last = false
           \/ Loader.next_cursor last = None
           \/ Loader.next_cursor last = Some "").
Proof.
  apply (X22_loader_gathers_every_answer
           (fun asked cursor =>
              match cursor with
              | None =>
                  Some {| Loader.results := [Demo.mk_page "p1" "A001" 5];
                          Loader.has_more := true;
                          Loader.next_cursor := Some "c1" |}
              | Some _ =>
                  Some {| Loader.results := [Demo.mk_page "p2" "A002" 5];
                          Loader.has_more := true;
                          Loader.next_cursor := Some "" |}
              end)
           [{| Loader.results := [Demo.mk_page "p1" "A001" 5];
               Loader.has_more := true;
               Loader.next_cursor := Some "c1" |};
            {| Loader.results := [Demo.mk_page "p2" "A002" 5];
               Loader.has_more := true;
               Loader.next_cursor := Some "" |}] 0).
  simpl. split; [reflexivity|]. exists "c1". now repeat split.
Defined.

(** ** The mock backend: a page created, then listed *)

Lemma untagged_page_key (host : Host) (notionKey uid : string)
  (changes : obj payload) :
  notion_key_of host notionKey
    {| Model.page_id := uid; properties := MockApi.changes_json changes |}
  = Ok "".
Proof.
  unfold notion_key_of. simpl properties. rewrite changes_json_get.
  destruct (obj_get changes notionKey) as [v|]; simpl of_option.
  - now rewrite decode_untagged.
  - reflexivity.
Qed.

(** X23.  A page created on the mock backend is listed last by the next
    query, with the identifier drawn and the staged values as its
    properties; and since staged values carry no [type], no property of it
    gives a key: listed or not, the record index is the same, so the page is
    never matched by a later plan. *)
Theorem X23_mock_created_page_is_never_indexed
  (host : Host) (uid database_id notionKey : string) (changes : obj payload)
  (state state' : MockApi.MockState) (idx : JsMap NotionPage) :
  MockApi.createPage uid database_id (MockApi.changes_json changes) state
  = Some state' ->
  notionIndex host (MockApi.mock_pages state) notionKey = Ok idx ->
  MockApi.queryDatabase database_id state'
  = Some (MockApi.mock_pages state
          ++ [{| Model.page_id := uid;
                 properties := MockApi.changes_json changes |}])
  /\ notionIndex host (MockApi.mock_pages state') notionKey = Ok idx.
Proof.
  unfold MockApi.createPage, MockApi.queryDatabase.
  intros Hcreate Hidx.
  destruct (MockApi.database_missing state database_id) eqn:Hdb;
    [discriminate|].
  injection Hcreate as <-. unfold MockApi.database_missing in *.
  simpl MockApi.db. rewrite Hdb. simpl MockApi.mock_pages.
  split; [reflexivity|].
  destruct (String.eqb_spec notionKey "") as [He | Hne].
  - unfold notionIndex in *. rewrite He in *. exact Hidx.
  - pose proof (notionIndex_is_build host _ _ _ Hne Hidx) as ->.
    rewrite notionIndex_build; [|assumption|].
    + rewrite build_snoc. unfold index_step, page_key.
      now rewrite untagged_page_key.
    + apply Forall_app. split.
      * unfold notionIndex in Hidx. apply String.eqb_neq in Hne.
        rewrite Hne in Hidx. eapply notionIndex_loop_inv, Hidx.
      * constructor; [|constructor]. exists "".
        apply untagged_page_key.
Qed.

Lemma X23_mock_created_page_is_never_indexed_witness :
  MockApi.queryDatabase "mock-db"
    {| MockApi.db := Some "mock-db";
       MockApi.mock_pages :=
         Demo.pages
         ++ [{| Model.page_id := "p3";
                properties :=
                  MockApi.changes_json
                    [("Amount", PNumber (of_Z 7)); ("Key", PTitle "X999")] |}]
    |}
  = Some (Demo.pages
          ++ [{| Model.page_id := "p3";
                 properties :=
                   MockApi.changes_json
                     [("Amount", PNumber (of_Z 7)); ("Key", PTitle "X999")] |}])
  /\ notionIndex Demo.host
       (Demo.pages
        ++ [{| Model.page_id := "p3";
               properties :=
                 MockApi.changes_json
                   [("Amount", PNumber (of_Z 7)); ("Key", PTitle "X999")] |}])
       "Key"
     = Ok [("A001", Demo.mk_page "p1" "A001" 5);
           ("A002", Demo.mk_page "p2" "A002" 5)].
Proof.
  apply (X23_mock_created_page_is_never_indexed Demo.host "p3" "mock-db"
           "Key" [("Amount", PNumber (of_Z 7)); ("Key", PTitle "X999")]
           {| MockApi.db := Some "mock-db"; MockApi.mock_pages := Demo.pages |}
           _ _ eq_refl eq_refl).
Defined.

(** ** A blank cell under a number property *)

Section BlankCell.
Variable host : Host.
Variable rev : revision.
Variable dbProps : list NotionPropertyDef.
Variable row : ExcelRow.
Variable pname : string.
Variable def : NotionPropertyDef.
Hypothesis pname_not_empty : pname <> "".
Hypothesis pname_def : find_def rev dbProps pname = Some def.
Hypothesis def_number : type def = "number".





Variable onlyUpdateEmpty : bool.
Variable page : NotionPage.
Hypothesis writable :
  onlyUpdateEmpty = false
  \/ getNotionPropertyPlainValue host
       (of_option (obj_get (properties page) pname)) = Ok VNull
  \/ getNotionPropertyPlainValue host
       (of_option (obj_get (properties page) pname)) = Ok (VStr "").



End BlankCell.


